(** * pipelayer/core.py: period arithmetic and pipeline reconciliation

    A shallow embedding of [src/pipelayer/core.py].  Python values that the
    module handles as decoded JSON (templates, [values.json], service
    responses) are trees of type [pyval]; exceptions are data; the remote
    Data Pipeline service is an interface ([DataPipelineConnection]) over an
    explicit service state, and every call made on it is recorded in the
    order in which it is issued. *)

From Stdlib Require Import ZArith List String Ascii Bool Lia.
Import ListNotations.

Set Warnings "-register-all".

Local Open Scope string_scope.
Local Open Scope list_scope.
Local Open Scope Z_scope.

(** ** Python values and exceptions *)

(** Decoded JSON as Python sees it.  A dict is kept as the list of its items
    in iteration order; JSON numbers are restricted to integers. *)
Inductive pyval : Type :=
| PNone
| PBool (b : bool)
| PInt (z : Z)
| PStr (s : string)
| PList (l : list pyval)
| PDict (items : list (string * pyval)).

(** The exception classes that the module can raise, directly or through the
    library calls it makes. *)
Inductive exn : Type :=
| ValueError (msg : string)
| TypeError (msg : string)
| KeyError (key : string)
| IndexError (msg : string)
| NameError (name : string)
| AttributeError (attr : string)
| OverflowError (msg : string).

(** What running a piece of the module produces: a value, a raised
    exception, or nothing yet because the iteration or recursion budget given
    to the model is used up. *)
Inductive outcome (A : Type) : Type :=
| Ret (a : A)
| Raise (e : exn)
| OutOfFuel.

Arguments Ret {A} a.
Arguments Raise {A} e.
Arguments OutOfFuel {A}.

Definition obind {A B : Type} (x : outcome A) (f : A -> outcome B) : outcome B :=
  match x with
  | Ret a => f a
  | Raise e => Raise e
  | OutOfFuel => OutOfFuel
  end.

Declare Scope py_scope.
Delimit Scope py_scope with py.
Notation "x <- e ;; k" := (obind e (fun x => k))
  (at level 61, e at next level, right associativity) : py_scope.
Local Open Scope py_scope.

(** [d.get(k)] on the item list of a dict. *)
Fixpoint assoc (k : string) (items : list (string * pyval)) : option pyval :=
  match items with
  | [] => None
  | (k', v) :: rest => if String.eqb k k' then Some v else assoc k rest
  end.

(** [d[k] = v] on the item list of a dict: an existing key keeps its place. *)
Fixpoint assoc_set (k : string) (v : pyval) (items : list (string * pyval))
  : list (string * pyval) :=
  match items with
  | [] => [(k, v)]
  | (k', v') :: rest =>
      if String.eqb k k' then (k, v) :: rest else (k', v') :: assoc_set k v rest
  end.

(** Python's [==] on decoded JSON: lists compare element by element, dicts as
    mappings (same number of keys, equal values under every key), [True] and
    [False] equal [1] and [0]. *)
Fixpoint py_eqb (a b : pyval) {struct a} : bool :=
  match a, b with
  | PNone, PNone => true
  | PBool x, PBool y => Bool.eqb x y
  | PBool x, PInt y => (if x then 1 else 0) =? y
  | PInt x, PBool y => x =? (if y then 1 else 0)
  | PInt x, PInt y => x =? y
  | PStr x, PStr y => String.eqb x y
  | PList xs, PList ys =>
      (fix go (xs ys : list pyval) {struct xs} : bool :=
         match xs, ys with
         | [], [] => true
         | x :: xs', y :: ys' => py_eqb x y && go xs' ys'
         | _, _ => false
         end) xs ys
  | PDict xs, PDict ys =>
      Nat.eqb (List.length xs) (List.length ys) &&
      (fix all (xs : list (string * pyval)) {struct xs} : bool :=
         match xs with
         | [] => true
         | (k, v) :: xs' =>
             match assoc k ys with
             | Some w => py_eqb v w && all xs'
             | None => false
             end
         end) xs
  | _, _ => false
  end.

(** Truth value of an object, as [not] and [if] take it. *)
Definition py_truthy (v : pyval) : bool :=
  match v with
  | PNone => false
  | PBool b => b
  | PInt z => negb (z =? 0)
  | PStr s => negb (String.eqb s "")
  | PList l => match l with [] => false | _ => true end
  | PDict d => match d with [] => false | _ => true end
  end.

(** [v[k]] with a string key. *)
Definition py_getitem (v : pyval) (k : string) : outcome pyval :=
  match v with
  | PDict items =>
      match assoc k items with
      | Some x => Ret x
      | None => Raise (KeyError k)
      end
  | PList _ => Raise (TypeError "list indices must be integers, not str")
  | PStr _ => Raise (TypeError "string indices must be integers, not str")
  | _ => Raise (TypeError "object has no attribute '__getitem__'")
  end.

Fixpoint chars (s : string) : list pyval :=
  match s with
  | EmptyString => []
  | String c s' => PStr (String c EmptyString) :: chars s'
  end.

(** [v[0]]. *)
Definition py_first (v : pyval) : outcome pyval :=
  match v with
  | PList (x :: _) => Ret x
  | PList [] => Raise (IndexError "list index out of range")
  | PStr s =>
      match chars s with
      | x :: _ => Ret x
      | [] => Raise (IndexError "string index out of range")
      end
  | PDict items =>
      (* the key 0 is never a key of decoded JSON *)
      Raise (KeyError "0")
  | _ => Raise (TypeError "object has no attribute '__getitem__'")
  end.

(** The elements that [for x in v] visits. *)
Definition py_iter (v : pyval) : outcome (list pyval) :=
  match v with
  | PList l => Ret l
  | PDict items => Ret (map (fun kv => PStr (fst kv)) items)
  | PStr s => Ret (chars s)
  | _ => Raise (TypeError "object is not iterable")
  end.

(** [v.items()]. *)
Definition py_items (v : pyval) : outcome (list (string * pyval)) :=
  match v with
  | PDict items => Ret items
  | _ => Raise (AttributeError "items")
  end.

(** [v.get(k, default)]. *)
Definition py_get (v : pyval) (k : string) (default : pyval) : outcome pyval :=
  match v with
  | PDict items =>
      match assoc k items with
      | Some x => Ret x
      | None => Ret default
      end
  | _ => Raise (AttributeError "get")
  end.

(** [v[k] = x]. *)
Definition py_setitem (v : pyval) (k : string) (x : pyval) : outcome pyval :=
  match v with
  | PDict items => Ret (PDict (assoc_set k x items))
  | _ => Raise (TypeError "object does not support item assignment")
  end.

(** [v.copy()]: a method of dicts. *)
Definition py_copy (v : pyval) : outcome pyval :=
  match v with
  | PDict _ => Ret v
  | _ => Raise (AttributeError "copy")
  end.

(** A string argument of a library call that accepts only strings. *)
Definition as_str (v : pyval) : outcome string :=
  match v with
  | PStr s => Ret s
  | _ => Raise (TypeError "expected string or buffer")
  end.

(** ** Regular expressions: the fragment used by [PIPELINE_FREQUENCY_RE] *)

(** Character classes [\d] and [\w] of a pattern compiled without flags. *)
Definition is_digit (c : ascii) : bool :=
  let n := nat_of_ascii c in (48 <=? n)%nat && (n <=? 57)%nat.

Definition is_word (c : ascii) : bool :=
  let n := nat_of_ascii c in
  ((48 <=? n)%nat && (n <=? 57)%nat) ||
  ((65 <=? n)%nat && (n <=? 90)%nat) ||
  ((97 <=? n)%nat && (n <=? 122)%nat) ||
  (n =? 95)%nat.

Inductive regex : Type :=
| Lit (c : ascii)
| ClassPlus (p : ascii -> bool)
| Cat (r1 r2 : regex)
| Group (name : string) (r : regex).

Definition groups : Type := list (string * string).

(** The part of [s] consumed when [rest] is what remains of it. *)
Fixpoint consumed (s rest : string) : string :=
  if (String.length s <=? String.length rest)%nat then EmptyString
  else match s with
       | EmptyString => EmptyString
       | String c s' => String c (consumed s' rest)
       end.

(** Greedy [p+] against the continuation [k]: take as many characters as
    the class allows, and give them back one at a time while [k] fails. *)
Fixpoint plus_match (p : ascii -> bool) (k : string -> option groups)
  (s : string) : option groups :=
  match s with
  | EmptyString => None
  | String c s' =>
      if p c then
        match plus_match p k s' with
        | Some g => Some g
        | None => k s'
        end
      else None
  end.

(** Backtracking matcher in continuation-passing style; a group records the
    text it consumed once the rest of the pattern has matched. *)
Fixpoint rmatch (r : regex) (s : string) (k : string -> option groups)
  : option groups :=
  match r with
  | Lit c =>
      match s with
      | String c' s' => if Ascii.eqb c c' then k s' else None
      | EmptyString => None
      end
  | ClassPlus p => plus_match p k s
  | Cat r1 r2 => rmatch r1 s (fun s' => rmatch r2 s' k)
  | Group name r1 =>
      rmatch r1 s (fun s' =>
        match k s' with
        | Some g => Some ((name, consumed s s') :: g)
        | None => None
        end)
  end.

(** [pattern.match(s)]: anchored at the start of [s], not at its end. *)
Definition re_match (r : regex) (s : string) : option groups :=
  rmatch r s (fun _ => Some []).

Fixpoint group_get (name : string) (g : groups) : option string :=
  match g with
  | [] => None
  | (n, v) :: rest => if String.eqb name n then Some v else group_get name rest
  end.

(** [r'(?P<number>\d+) (?P<unit>\w+s)'] *)
Definition PIPELINE_FREQUENCY_RE : regex :=
  Cat (Group "number" (ClassPlus is_digit))
      (Cat (Lit " ")
           (Group "unit" (Cat (ClassPlus is_word) (Lit "s")))).

(** ** [datetime] and [timedelta] *)

(** A [timedelta] is its length in microseconds; a [datetime] is the number
    of microseconds since 0001-01-01T00:00:00, the smallest [datetime]. *)
Definition timedelta : Type := Z.
Definition datetime : Type := Z.

Definition US_PER_DAY : Z := 86400000000.

(** [timedelta.max.days] *)
Definition TIMEDELTA_MAX_DAYS : Z := 999999999.

(** [datetime.max] is 9999-12-31T23:59:59.999999, day 3652059 of the
    calendar. *)
Definition DATETIME_MAX : Z := 3652059 * US_PER_DAY - 1.

(** Microseconds in one unit of each keyword of the [timedelta] constructor. *)
Definition unit_microseconds (unit : string) : option Z :=
  if String.eqb unit "days" then Some US_PER_DAY
  else if String.eqb unit "seconds" then Some 1000000
  else if String.eqb unit "microseconds" then Some 1
  else if String.eqb unit "milliseconds" then Some 1000
  else if String.eqb unit "minutes" then Some 60000000
  else if String.eqb unit "hours" then Some 3600000000
  else if String.eqb unit "weeks" then Some (7 * US_PER_DAY)
  else None.

(** The [timedelta] constructor called with the single keyword [unit] bound
    to [n]: exact integer arithmetic, then the range check on the days. *)
Definition timedelta_kw (unit : string) (n : Z) : outcome timedelta :=
  match unit_microseconds unit with
  | None => Raise (TypeError "invalid keyword argument for this function")
  | Some us =>
      let total := n * us in
      if Z.abs (total / US_PER_DAY) <=? TIMEDELTA_MAX_DAYS
      then Ret total
      else Raise (OverflowError "days must have magnitude <= 999999999")
  end.

(** [dt + delta] *)
Definition datetime_add (dt : datetime) (delta : timedelta) : outcome datetime :=
  let r := dt + delta in
  if (0 <=? r) && (r <=? DATETIME_MAX) then Ret r
  else Raise (OverflowError "date value out of range").

(** [int(s)] on a string of decimal digits. *)
Fixpoint int_digits (acc : Z) (s : string) : Z :=
  match s with
  | EmptyString => acc
  | String c s' => int_digits (10 * acc + (Z.of_nat (nat_of_ascii c) - 48)) s'
  end.

Definition int_of_string (s : string) : Z := int_digits 0 s.

(** ** Module-level functions *)

Definition parse_period (period : string) : outcome timedelta :=
  match re_match PIPELINE_FREQUENCY_RE period with
  | None => Raise (ValueError ("'" ++ period ++ "' cannot be parsed as a period")%string)
  | Some parts =>
      match group_get "unit" parts, group_get "number" parts with
      | Some unit, Some number => timedelta_kw unit (int_of_string number)
      | _, _ => Raise (KeyError "unit")
      end
  end.

(** The two [datetime] methods the module calls, for the caller to supply:
    [datetime.strptime(text, format)] and [dt.strftime(format)]. *)
Class DatetimeCodec : Type := {
  strptime : string -> string -> outcome datetime;
  strftime : datetime -> string -> outcome string;
  (* a library call returns or raises *)
  strptime_total : forall text format, strptime text format <> OutOfFuel;
  strftime_total : forall dt format, strftime dt format <> OutOfFuel
}.

Definition PIPELINE_DATETIME_FORMAT : string := "%Y-%m-%dT%H:%M:%S".

(** [while dt < now: dt += delta], run for at most [fuel] tests of the
    condition. *)
Fixpoint while_past (fuel : nat) (now : datetime) (delta : timedelta)
  (dt : datetime) : outcome datetime :=
  match fuel with
  | O => OutOfFuel
  | S fuel' =>
      if dt <? now then
        dt' <- datetime_add dt delta ;;
        while_past fuel' now delta dt'
      else Ret dt
  end.

(** [now] is what [datetime.utcnow()] returns at line 91. *)
Definition adjusted_to_future `{DatetimeCodec} (fuel : nat) (now : datetime)
  (timestamp period : pyval) : outcome string :=
  ts <- as_str timestamp ;;
  dt <- strptime ts PIPELINE_DATETIME_FORMAT ;;
  ps <- as_str period ;;
  delta <- parse_period ps ;;
  dt' <- while_past fuel now delta dt ;;
  strftime dt' PIPELINE_DATETIME_FORMAT.

(** Names bound at module level when a function of the module runs: the
    imports, the three constants, and the functions and classes. *)
Definition module_globals : list string :=
  [ "print_function"; "argparse"; "sys"; "os"; "json"; "logging";
    "contextlib"; "urlparse"; "metadata"; "DataPipelineConnection";
    "translator"; "connect_s3"; "S3Key"; "pprint"; "deepcopy"; "datetime";
    "timedelta"; "re"; "PIPELINE_DATETIME_FORMAT"; "PIPELINE_FREQUENCY_RE";
    "PIPELAYER_STUB_PARAMS"; "cd"; "bucket_and_path"; "parse_period";
    "adjusted_to_future"; "fetch_field_value"; "state_from_id";
    "definition_from_file"; "definition_from_id"; "Pipelayer"; "Pipeline" ].

(** Whether reading the name [x] finds a binding, in a function whose local
    names are [locals]. *)
Definition name_bound (locals : list string) (x : string) : bool :=
  existsb (String.eqb x) locals || existsb (String.eqb x) module_globals.

(** The inner loop of [fetch_field_value]: the value of the first item whose
    key is not ['key'], if there is one. *)
Fixpoint first_non_key (items : list (string * pyval)) : option pyval :=
  match items with
  | [] => None
  | (k, v) :: rest =>
      if negb (String.eqb k "key") then Some v else first_non_key rest
  end.

(** The outer loop of [fetch_field_value]; [None] when it ends without a
    [return]. *)
Fixpoint scan_fields (field_name : string) (containers : list pyval)
  : outcome (option pyval) :=
  match containers with
  | [] => Ret None
  | container :: rest =>
      key <- py_getitem container "key" ;;
      if py_eqb key (PStr field_name) then
        items <- py_items container ;;
        match first_non_key items with
        | Some v => Ret (Some v)
        | None => scan_fields field_name rest
        end
      else scan_fields field_name rest
  end.

Definition fetch_field_value (aws_response : pyval) (field_name : string)
  : outcome pyval :=
  fields <- py_getitem aws_response "fields" ;;
  containers <- py_iter fields ;;
  found <- scan_fields field_name containers ;;
  match found with
  | Some v => Ret v
  | None =>
      (* the arguments of [format] are read before [ValueError] is built *)
      if name_bound ["aws_response"; "field_name"; "container"; "k"; "v"]
                    "response"
      then Raise (ValueError ("Did not find a field called " ++ field_name
                              ++ " in response")%string)
      else Raise (NameError "response")
  end.

(** [os.path.basename]: what follows the last slash. *)
Fixpoint basename_from (cur p : string) : string :=
  match p with
  | EmptyString => cur
  | String c p' =>
      if Ascii.eqb c "/" then basename_from EmptyString p'
      else basename_from (cur ++ String c EmptyString)%string p'
  end.

Definition basename (p : string) : string := basename_from EmptyString p.

(** ** The remote service and the calls made on it *)

Inductive level : Type := DEBUG | INFO | WARNING | ERROR.

(** What the module does that is visible from outside, in the order in which
    it does it: the calls on the connection, the log records, the prints. *)
Inductive event : Type :=
| CreatePipeline (name unique_id description : pyval)
| DescribePipelines (pipeline_ids : list pyval)
| GetPipelineDefinition (pipeline_id : pyval)
| ValidatePipelineDefinition (objects pipeline_id parameters values : pyval)
| PutPipelineDefinition (objects pipeline_id parameters values : pyval)
| ActivatePipeline (pipeline_id : pyval)
| DeletePipeline (pipeline_id : pyval)
| Logging (lvl : level) (msg : pyval) (args : list pyval)
| Printed (args : list pyval).

(** [DataPipelineConnection] over a service whose state has type [R]: each
    call answers with a decoded response and leaves the service in a new
    state. *)
Class DataPipelineConnection (R : Type) : Type := {
  create_pipeline : pyval -> pyval -> pyval -> R -> pyval * R;
  describe_pipelines : list pyval -> R -> pyval * R;
  get_pipeline_definition : pyval -> R -> pyval * R;
  validate_pipeline_definition : pyval -> pyval -> pyval -> pyval -> R -> pyval * R;
  put_pipeline_definition : pyval -> pyval -> pyval -> pyval -> R -> pyval * R;
  activate_pipeline : pyval -> R -> pyval * R;
  delete_pipeline : pyval -> R -> pyval * R
}.

(** [awscli.customizations.datapipeline.translator] *)
Class Translator : Type := {
  api_to_definition : pyval -> pyval;
  definition_to_api_objects : pyval -> pyval;
  definition_to_api_parameters : pyval -> pyval;
  definition_to_parameter_values : pyval -> pyval
}.

(** A computation against the service: from a service state to an outcome,
    the state it leaves, and the events it emitted. *)
Definition M (R A : Type) : Type := R -> outcome A * R * list event.

Definition mret {R A : Type} (a : A) : M R A := fun r => (Ret a, r, []).

Definition mbind {R A B : Type} (m : M R A) (f : A -> M R B) : M R B :=
  fun r =>
    match m r with
    | (Ret a, r', evs) =>
        match f a r' with
        | (o, r'', evs') => (o, r'', evs ++ evs')
        end
    | (Raise e, r', evs) => (Raise e, r', evs)
    | (OutOfFuel, r', evs) => (OutOfFuel, r', evs)
    end.

Definition lift {R A : Type} (x : outcome A) : M R A := fun r => (x, r, []).

Definition emit {R : Type} (e : event) : M R unit := fun r => (Ret tt, r, [e]).

(** A call on the connection, recorded as [e]. *)
Definition call {R : Type} (e : event) (op : R -> pyval * R) : M R pyval :=
  fun r => match op r with (v, r') => (Ret v, r', [e]) end.

Notation "x <~ e ;; k" := (mbind e (fun x => k))
  (at level 61, e at next level, right associativity) : py_scope.
Notation "e ;;; k" := (mbind e (fun _ => k))
  (at level 61, right associativity) : py_scope.

(** [for x in xs: body(x)] *)
Fixpoint for_each {R A : Type} (xs : list A) (body : A -> M R unit) : M R unit :=
  match xs with
  | [] => mret tt
  | x :: rest => body x ;;; for_each rest body
  end.

(** [[f(x) for x in xs]] *)
Fixpoint list_comp {R A B : Type} (xs : list A) (f : A -> M R B) : M R (list B) :=
  match xs with
  | [] => mret []
  | x :: rest =>
      y <~ f x ;;
      ys <~ list_comp rest f ;;
      mret (y :: ys)
  end.

(** ** The classes [Pipeline] and [Pipelayer] *)

(** The attributes of a [Pipeline] that its remote operations read.  The
    connection is the ambient [DataPipelineConnection]; [s3_conn] and
    [dirpath] serve [upload] only. *)
Record Pipeline : Type := {
  definition : pyval;
  unique_id : pyval;
  values : pyval;
  name : pyval;
  description : pyval
}.

(** A [Pipelayer]: the template and the dict [pipelines], as its items. *)
Record Pipelayer : Type := {
  template : pyval;
  pipelines : list (pyval * Pipeline)
}.

Definition PIPELAYER_STUB_name : pyval := PStr "Pipelayer validation stub".
Definition PIPELAYER_STUB_unique_id : pyval := PStr "stub".
Definition PIPELAYER_STUB_description : pyval :=
  PStr "This pipeline should always be in 'PENDING' status.
It is used by Pipelayer to validate pipeline definitions.".

Section Core.

Context {R : Type} `{DataPipelineConnection R} `{Translator} `{DatetimeCodec}.

Definition state_from_id (pipeline_id : pyval) : M R pyval :=
  response <~ call (DescribePipelines [pipeline_id])
                   (describe_pipelines [pipeline_id]) ;;
  descriptions <~ lift (py_getitem response "pipelineDescriptionList") ;;
  description <~ lift (py_first descriptions) ;;
  lift (fetch_field_value description "@pipelineState").

Definition definition_from_id (pipeline_id : pyval) : M R pyval :=
  response <~ call (GetPipelineDefinition pipeline_id)
                   (get_pipeline_definition pipeline_id) ;;
  mret (api_to_definition response).

(** [Pipeline.__init__]; [decoded] is what [json.load] reads from
    [values.json] under [dirpath], [fuel] bounds the loop of
    [adjusted_to_future] and [now] is the clock it reads. *)
Definition Pipeline_init (fuel : nat) (now : datetime)
  (template : pyval) (dirpath : string) (decoded : pyval) : M R Pipeline :=
  definition <~ lift (py_copy template) ;;
  metadata <~ lift (py_get decoded "metadata" (PDict [])) ;;
  values0 <~ lift (py_get decoded "values" (PDict [])) ;;
  name <~ lift (py_get metadata "name" (PStr (basename dirpath))) ;;
  description <~ lift (py_get metadata "description" PNone) ;;
  timestamp <~ lift (py_getitem values0 "myStartDateTime") ;;
  period <~ lift (py_getitem values0 "mySchedulePeriod") ;;
  adjusted_timestamp <~ lift (adjusted_to_future fuel now timestamp period) ;;
  values1 <~ lift (py_setitem values0 "myStartDateTime" (PStr adjusted_timestamp)) ;;
  emit (Printed [values1]) ;;;
  mret {| definition := definition;
          unique_id := PStr "unique_id";
          values := values1;
          name := name;
          description := description |}.

Definition api_objects (self : Pipeline) : pyval :=
  definition_to_api_objects (definition self).

Definition api_parameters (self : Pipeline) : pyval :=
  definition_to_api_parameters (definition self).

Definition api_values (self : Pipeline) : pyval :=
  definition_to_parameter_values (PDict [("values", values self)]).

Definition Pipeline_create (self : Pipeline) : M R pyval :=
  response <~ call (CreatePipeline (name self) (unique_id self) (description self))
                   (create_pipeline (name self) (unique_id self) (description self)) ;;
  lift (py_getitem response "pipelineId").

Definition log_messages (lvl : level) (messages : list pyval) : M R unit :=
  for_each messages (fun message => emit (Logging lvl message [])).

(** One of the two loops of [_log_validation_messages]: the containers
    under [field], each with the list of messages under [inner]. *)
Definition log_containers (lvl : level) (header field inner : string)
  (response : pyval) : M R unit :=
  containers <~ lift (c <- py_getitem response field ;; py_iter c) ;;
  for_each containers (fun container =>
    id <~ lift (py_getitem container "id") ;;
    emit (Logging lvl (PStr header) [id]) ;;;
    messages <~ lift (m <- py_getitem container inner ;; py_iter m) ;;
    log_messages lvl messages).

Definition log_validation_messages (response : pyval) : M R unit :=
  log_containers WARNING "Warnings in validation response for %s"
                 "validationWarnings" "warnings" response ;;;
  log_containers ERROR "Errors in validation response for %s"
                 "validationErrors" "errors" response.

Definition is_valid (self : Pipeline) : M R bool :=
  response <~ call (CreatePipeline PIPELAYER_STUB_name PIPELAYER_STUB_unique_id
                                   PIPELAYER_STUB_description)
                   (create_pipeline PIPELAYER_STUB_name PIPELAYER_STUB_unique_id
                                    PIPELAYER_STUB_description) ;;
  pipeline_id <~ lift (py_getitem response "pipelineId") ;;
  response <~ call (ValidatePipelineDefinition (api_objects self) pipeline_id
                      (api_parameters self) (api_values self))
                   (validate_pipeline_definition (api_objects self) pipeline_id
                      (api_parameters self) (api_values self)) ;;
  log_validation_messages response ;;;
  errored <~ lift (py_getitem response "errored") ;;
  mret (negb (py_truthy errored)).

(** [Pipeline.activate]; [depth] is the number of nested calls of
    [activate] that the interpreter's stack still allows. *)
Fixpoint Pipeline_activate (depth : nat) (self : Pipeline) : M R pyval :=
  match depth with
  | O => lift OutOfFuel
  | S depth' =>
      pipeline_id <~ Pipeline_create self ;;
      existing_definition <~ definition_from_id pipeline_id ;;
      state <~ state_from_id pipeline_id ;;
      if py_eqb existing_definition (definition self) then mret (PBool true)
      else if negb (py_eqb state (PStr "PENDING")) then
        emit (Printed [PStr "State is: "; state]) ;;;
        emit (Logging INFO (PStr "Deleting pipeline with id {}") [pipeline_id]) ;;;
        call (DeletePipeline pipeline_id) (delete_pipeline pipeline_id) ;;;
        Pipeline_activate depth' self
      else
        emit (Logging DEBUG (PStr "Putting pipeline definition") []) ;;;
        call (PutPipelineDefinition (api_objects self) pipeline_id
                (api_parameters self) (api_values self))
             (put_pipeline_definition (api_objects self) pipeline_id
                (api_parameters self) (api_values self)) ;;;
        emit (Logging INFO (PStr "Activating pipeline with id {}") [pipeline_id]) ;;;
        call (ActivatePipeline pipeline_id) (activate_pipeline pipeline_id) ;;;
        mret PNone
  end.

(** [self.pipelines.values()] *)
Definition pipeline_values (self : Pipelayer) : list Pipeline :=
  map snd (pipelines self).

(** [self.pipelines[key] = p]: a key already present keeps its place. *)
Fixpoint pipelines_set (key : pyval) (p : Pipeline)
  (items : list (pyval * Pipeline)) : list (pyval * Pipeline) :=
  match items with
  | [] => [(key, p)]
  | (k, q) :: rest =>
      if py_eqb key k then (k, p) :: rest
      else (k, q) :: pipelines_set key p rest
  end.

Definition hashable (v : pyval) : bool :=
  match v with
  | PList _ | PDict _ => false
  | _ => true
  end.

(** [Pipelayer.add_pipeline]: the new collection and the pipeline. *)
Definition add_pipeline (fuel : nat) (now : datetime) (self : Pipelayer)
  (dirpath : string) (decoded : pyval) : M R (Pipelayer * Pipeline) :=
  pipeline <~ Pipeline_init fuel now (template self) dirpath decoded ;;
  if hashable (name pipeline) then
    mret ({| template := template self;
             pipelines := pipelines_set (name pipeline) pipeline (pipelines self) |},
          pipeline)
  else lift (Raise (TypeError "unhashable type")).

Definition are_pipelines_valid (self : Pipelayer) : M R bool :=
  verdicts <~ list_comp (pipeline_values self) is_valid ;;
  mret (forallb (fun b => b) verdicts).

(** The loop [for p in self.pipelines.values(): p.activate()]. *)
Definition activate_each (depth : nat) (ps : list Pipeline) : M R unit :=
  for_each ps (fun p => Pipeline_activate depth p ;;; mret tt).

(** [Pipelayer.activate] *)
Definition Pipelayer_activate (depth : nat) (self : Pipelayer) : M R pyval :=
  valid <~ are_pipelines_valid self ;;
  if negb valid then
    emit (Logging ERROR
            (PStr "Not activating pipelines due to validation errors.") []) ;;;
    mret (PBool false)
  else
    activate_each depth (pipeline_values self) ;;;
    mret PNone.

End Core.

(** ** A codec for [PIPELINE_DATETIME_FORMAT]

    The proleptic Gregorian calendar of [datetime], for timestamps written
    with all their digits ([YYYY-MM-DDTHH:MM:SS]). *)

Definition is_leap (y : Z) : bool :=
  ((y mod 4 =? 0) && negb (y mod 100 =? 0)) || (y mod 400 =? 0).

Definition days_before_year (y : Z) : Z :=
  let p := y - 1 in p * 365 + p / 4 - p / 100 + p / 400.

Definition days_in_month (y m : Z) : Z :=
  if m =? 2 then (if is_leap y then 29 else 28)
  else if (m =? 4) || (m =? 6) || (m =? 9) || (m =? 11) then 30
  else 31.

Definition days_before_month (y m : Z) : Z :=
  fold_left (fun acc i => acc + days_in_month y (Z.of_nat i))
            (seq 1 (Z.to_nat (m - 1))) 0.

Definition ymd_to_ordinal (y m d : Z) : Z :=
  days_before_year y + days_before_month y m + d.

(** The month and the day of the [n]-th day (from 0) of year [y]. *)
Fixpoint month_day (months : nat) (y m n : Z) : Z * Z :=
  match months with
  | O => (m, n + 1)
  | S months' =>
      if n <? days_in_month y m then (m, n + 1)
      else month_day months' y (m + 1) (n - days_in_month y m)
  end.

Definition ordinal_to_ymd (ordinal : Z) : Z * Z * Z :=
  let n := ordinal - 1 in
  let n400 := n / 146097 in
  let n := n mod 146097 in
  let n100 := n / 36524 in
  let n := n mod 36524 in
  let n4 := n / 1461 in
  let n := n mod 1461 in
  let n1 := n / 365 in
  let n := n mod 365 in
  let year := n400 * 400 + 1 + n100 * 100 + n4 * 4 + n1 in
  if (n1 =? 4) || (n100 =? 4) then (year - 1, 12, 31)
  else let (m, d) := month_day 11 year 1 n in (year, m, d).

Definition digit_char (d : Z) : ascii := ascii_of_nat (48 + Z.to_nat d).

(** The last [width] decimal digits of [z]. *)
Fixpoint zero_padded (width : nat) (z : Z) : string :=
  match width with
  | O => EmptyString
  | S width' =>
      (zero_padded width' (z / 10) ++ String (digit_char (z mod 10)) EmptyString)%string
  end.

Fixpoint take_digits (n : nat) (acc : Z) (s : string) : option (Z * string) :=
  match n with
  | O => Some (acc, s)
  | S n' =>
      match s with
      | String c s' =>
          if is_digit c
          then take_digits n' (10 * acc + (Z.of_nat (nat_of_ascii c) - 48)) s'
          else None
      | EmptyString => None
      end
  end.

Definition expect (c : ascii) (s : string) : option string :=
  match s with
  | String c' s' => if Ascii.eqb c c' then Some s' else None
  | EmptyString => None
  end.

Definition and_then {A B : Type} (x : option A) (f : A -> option B) : option B :=
  match x with
  | Some a => f a
  | None => None
  end.

Definition parse_fields (s : string) : option (Z * Z * Z * Z * Z * Z) :=
  and_then (take_digits 4 0 s) (fun '(y, s) =>
  and_then (expect "-" s) (fun s =>
  and_then (take_digits 2 0 s) (fun '(m, s) =>
  and_then (expect "-" s) (fun s =>
  and_then (take_digits 2 0 s) (fun '(d, s) =>
  and_then (expect "T" s) (fun s =>
  and_then (take_digits 2 0 s) (fun '(hh, s) =>
  and_then (expect ":" s) (fun s =>
  and_then (take_digits 2 0 s) (fun '(mm, s) =>
  and_then (expect ":" s) (fun s =>
  and_then (take_digits 2 0 s) (fun '(ss, s) =>
  match s with
  | EmptyString => Some (y, m, d, hh, mm, ss)
  | _ => None
  end))))))))))).

Definition seconds_strptime (text format : string) : outcome datetime :=
  if negb (String.eqb format PIPELINE_DATETIME_FORMAT)
  then Raise (ValueError "unsupported format")
  else
    match parse_fields text with
    | Some (y, m, d, hh, mm, ss) =>
        if (1 <=? y) && (1 <=? m) && (m <=? 12) && (1 <=? d)
           && (d <=? days_in_month y m) && (hh <=? 23) && (mm <=? 59)
           && (ss <=? 59)
        then Ret ((((ymd_to_ordinal y m d - 1) * 86400
                    + hh * 3600 + mm * 60 + ss)) * 1000000)
        else Raise (ValueError "time data does not match format")
    | None => Raise (ValueError "time data does not match format")
    end.

Definition seconds_strftime (dt : datetime) (format : string) : outcome string :=
  if negb (String.eqb format PIPELINE_DATETIME_FORMAT)
  then Raise (ValueError "unsupported format")
  else
    let secs := dt / 1000000 in
    let '(y, m, d) := ordinal_to_ymd (secs / 86400 + 1) in
    let sod := secs mod 86400 in
    if y <? 1900
    then Raise (ValueError "the datetime strftime() methods require year >= 1900")
    else Ret (zero_padded 4 y ++ "-" ++ zero_padded 2 m ++ "-" ++ zero_padded 2 d
              ++ "T" ++ zero_padded 2 (sod / 3600) ++ ":"
              ++ zero_padded 2 (sod mod 3600 / 60) ++ ":"
              ++ zero_padded 2 (sod mod 60))%string.

Lemma seconds_strptime_total text format :
  seconds_strptime text format <> OutOfFuel.
Proof.
  unfold seconds_strptime.
  destruct (negb _); [discriminate |].
  destruct (parse_fields text) as [[[[[[y m] d] hh] mm] ss] |]; [| discriminate].
  now destruct (_ && _).
Qed.

Lemma seconds_strftime_total dt format :
  seconds_strftime dt format <> OutOfFuel.
Proof.
  unfold seconds_strftime.
  destruct (negb _); [discriminate |].
  destruct (ordinal_to_ymd _) as [[y m] d].
  now destruct (y <? 1900).
Qed.

#[export] Instance seconds_codec : DatetimeCodec := {
  strptime := seconds_strptime;
  strftime := seconds_strftime;
  strptime_total := seconds_strptime_total;
  strftime_total := seconds_strftime_total
}.

(** ** A simulated service

    A service to run the module against: [create_pipeline] answers with the
    identifier of the pipeline already registered under the same name and
    unique id, or registers a new one, [PENDING] and with the empty
    definition; [put_pipeline_definition] stores the objects it is given;
    [activate_pipeline] makes the pipeline [SCHEDULED]; [delete_pipeline]
    removes it, unless the service is one that ignores deletions. *)

Record entity : Type := {
  entity_id : pyval;
  entity_name : pyval;
  entity_unique_id : pyval;
  entity_state : string;
  entity_definition : pyval
}.

Record service : Type := {
  entities : list entity;
  next_id : Z;
  honours_delete : bool
}.

Definition empty_definition : pyval := PDict [("objects", PList [])].

Fixpoint find_entity (f : entity -> bool) (es : list entity) : option entity :=
  match es with
  | [] => None
  | e :: rest => if f e then Some e else find_entity f rest
  end.

Definition update_entity (pipeline_id : pyval) (f : entity -> entity)
  (es : list entity) : list entity :=
  map (fun e => if py_eqb (entity_id e) pipeline_id then f e else e) es.

Definition sim_create (name unique_id description : pyval) (r : service)
  : pyval * service :=
  match find_entity (fun e => py_eqb (entity_name e) name
                              && py_eqb (entity_unique_id e) unique_id)
                    (entities r) with
  | Some e => (PDict [("pipelineId", entity_id e)], r)
  | None =>
      let id := PStr ("df-" ++ zero_padded 4 (next_id r))%string in
      (PDict [("pipelineId", id)],
       {| entities := entities r ++
                      [{| entity_id := id; entity_name := name;
                          entity_unique_id := unique_id;
                          entity_state := "PENDING";
                          entity_definition := empty_definition |}];
          next_id := next_id r + 1;
          honours_delete := honours_delete r |})
  end.

Definition describe_entity (e : entity) : pyval :=
  PDict [("pipelineId", entity_id e);
         ("name", entity_name e);
         ("fields",
          PList [PDict [("key", PStr "uniqueId");
                        ("stringValue", entity_unique_id e)];
                 PDict [("key", PStr "@pipelineState");
                        ("stringValue", PStr (entity_state e))]])].

Definition sim_describe (pipeline_ids : list pyval) (r : service)
  : pyval * service :=
  (PDict [("pipelineDescriptionList",
           PList (flat_map (fun id =>
                    match find_entity (fun e => py_eqb (entity_id e) id)
                                      (entities r) with
                    | Some e => [describe_entity e]
                    | None => []
                    end) pipeline_ids))], r).

Definition sim_get_definition (pipeline_id : pyval) (r : service)
  : pyval * service :=
  match find_entity (fun e => py_eqb (entity_id e) pipeline_id) (entities r) with
  | Some e => (entity_definition e, r)
  | None => (PDict [], r)
  end.

(** A definition without objects is the one the simulated service rejects. *)
Definition sim_validate (objects pipeline_id parameters values : pyval)
  (r : service) : pyval * service :=
  match objects with
  | PDict (_ :: _) =>
      (PDict [("errored", PBool false);
              ("validationWarnings", PList []);
              ("validationErrors", PList [])], r)
  | _ =>
      (PDict [("errored", PBool true);
              ("validationWarnings", PList []);
              ("validationErrors",
               PList [PDict [("id", PStr "Default");
                             ("errors", PList [PStr "No objects defined"])]])],
       r)
  end.

Definition sim_put (objects pipeline_id parameters values : pyval)
  (r : service) : pyval * service :=
  (PDict [("errored", PBool false)],
   {| entities := update_entity pipeline_id
                    (fun e => {| entity_id := entity_id e;
                                 entity_name := entity_name e;
                                 entity_unique_id := entity_unique_id e;
                                 entity_state := entity_state e;
                                 entity_definition := objects |})
                    (entities r);
      next_id := next_id r;
      honours_delete := honours_delete r |}).

Definition sim_activate (pipeline_id : pyval) (r : service) : pyval * service :=
  (PNone,
   {| entities := update_entity pipeline_id
                    (fun e => {| entity_id := entity_id e;
                                 entity_name := entity_name e;
                                 entity_unique_id := entity_unique_id e;
                                 entity_state := "SCHEDULED";
                                 entity_definition := entity_definition e |})
                    (entities r);
      next_id := next_id r;
      honours_delete := honours_delete r |}).

Definition sim_delete (pipeline_id : pyval) (r : service) : pyval * service :=
  (PNone,
   if honours_delete r then
     {| entities := filter (fun e => negb (py_eqb (entity_id e) pipeline_id))
                           (entities r);
        next_id := next_id r;
        honours_delete := true |}
   else r).

#[export] Instance sim_connection : DataPipelineConnection service := {
  create_pipeline := sim_create;
  describe_pipelines := sim_describe;
  get_pipeline_definition := sim_get_definition;
  validate_pipeline_definition := sim_validate;
  put_pipeline_definition := sim_put;
  activate_pipeline := sim_activate;
  delete_pipeline := sim_delete
}.

(** The simulated service stores definitions as the module compares them. *)
#[export] Instance sim_translator : Translator := {
  api_to_definition := fun response => response;
  definition_to_api_objects := fun d => d;
  definition_to_api_parameters := fun d => PList [];
  definition_to_parameter_values := fun d => PList []
}.

Definition no_pipelines : service :=
  {| entities := []; next_id := 1; honours_delete := true |}.

Definition hourly_copy : pyval :=
  PDict [("objects",
          PList [PDict [("id", PStr "Default"); ("name", PStr "Default")];
                 PDict [("id", PStr "CopyActivity"); ("type", PStr "CopyActivity")]])].

Definition nightly : Pipeline :=
  {| definition := hourly_copy;
     unique_id := PStr "unique_id";
     values := PDict [("myStartDateTime", PStr "2026-01-01T00:00:00");
                      ("mySchedulePeriod", PStr "1 days")];
     name := PStr "nightly";
     description := PNone |}.

(** A service on which [nightly] is registered as [df-0001], in state
    [state] and with definition [d]. *)
Definition registered (state : string) (d : pyval) (honours : bool) : service :=
  {| entities := [{| entity_id := PStr "df-0001"; entity_name := PStr "nightly";
                     entity_unique_id := PStr "unique_id";
                     entity_state := state; entity_definition := d |}];
     next_id := 2;
     honours_delete := honours |}.


(** ** Vocabulary of the statements *)

(** The calls on the connection among the events, by kind. *)
Definition is_call (e : event) : bool :=
  match e with
  | Logging _ _ _ | Printed _ => false
  | _ => true
  end.

Definition is_delete (e : event) : bool :=
  match e with DeletePipeline _ => true | _ => false end.

Definition is_put (e : event) : bool :=
  match e with PutPipelineDefinition _ _ _ _ => true | _ => false end.

Definition is_activate (e : event) : bool :=
  match e with ActivatePipeline _ => true | _ => false end.

Definition is_create (e : event) : bool :=
  match e with CreatePipeline _ _ _ => true | _ => false end.

(** A call that [is_valid] makes: on the stub, or the dry run. *)
Definition is_validation_call (e : event) : bool :=
  match e with
  | CreatePipeline n u d =>
      py_eqb n PIPELAYER_STUB_name && py_eqb u PIPELAYER_STUB_unique_id
  | ValidatePipelineDefinition _ _ _ _ => true
  | _ => false
  end.

Definition calls (evs : list event) : list event := filter is_call evs.

Definition count (f : event -> bool) (evs : list event) : nat :=
  List.length (filter f evs).

Section View.

Context {R : Type} `{DataPipelineConnection R} `{Translator}.

(** The first three statements of [Pipeline.activate]: the identifier, the
    definition registered under it, and the state of the pipeline. *)
Definition remote_view (self : Pipeline) : M R (pyval * pyval * pyval) :=
  pipeline_id <~ Pipeline_create self ;;
  existing_definition <~ definition_from_id pipeline_id ;;
  state <~ state_from_id pipeline_id ;;
  mret (pipeline_id, existing_definition, state).

(** The rest of [Pipeline.activate], from the first [if]. *)
Definition after_view (depth : nat) (self : Pipeline)
  (view : pyval * pyval * pyval) : M R pyval :=
  let '(pipeline_id, existing_definition, state) := view in
  if py_eqb existing_definition (definition self) then mret (PBool true)
  else if negb (py_eqb state (PStr "PENDING")) then
    emit (Printed [PStr "State is: "; state]) ;;;
    emit (Logging INFO (PStr "Deleting pipeline with id {}") [pipeline_id]) ;;;
    call (DeletePipeline pipeline_id) (delete_pipeline pipeline_id) ;;;
    Pipeline_activate depth self
  else
    emit (Logging DEBUG (PStr "Putting pipeline definition") []) ;;;
    call (PutPipelineDefinition (api_objects self) pipeline_id
            (api_parameters self) (api_values self))
         (put_pipeline_definition (api_objects self) pipeline_id
            (api_parameters self) (api_values self)) ;;;
    emit (Logging INFO (PStr "Activating pipeline with id {}") [pipeline_id]) ;;;
    call (ActivatePipeline pipeline_id) (activate_pipeline pipeline_id) ;;;
    mret PNone.

End View.

(** *** The pattern, read directly *)

(** The longest prefix of [s] made of characters of the class, and the rest. *)
Fixpoint span (p : ascii -> bool) (s : string) : string * string :=
  match s with
  | EmptyString => (EmptyString, EmptyString)
  | String c s' =>
      if p c then let (a, b) := span p s' in (String c a, b)
      else (EmptyString, s)
  end.

(** What follows the run does not start with a character of the class. *)
Definition stops (p : ascii -> bool) (b : string) : Prop :=
  match b with
  | EmptyString => True
  | String c _ => p c = false
  end.

(** The longest prefix of [w] that ends with the letter s. *)
Fixpoint longest_s (w : string) : option string :=
  match w with
  | EmptyString => None
  | String c w' =>
      match longest_s w' with
      | Some u => Some (String c u)
      | None => if Ascii.eqb c "s" then Some (String c EmptyString) else None
      end
  end.

(** The number and the unit that the pattern captures at the start of [s]:
    all the leading digits, one space, and from the run of word characters
    that follows, its longest prefix of two characters or more that ends
    with s. *)
Definition frequency_parts (s : string) : option (string * string) :=
  match span is_digit s with
  | (String d ds, String sp rest) =>
      if Ascii.eqb " " sp then
        match fst (span is_word rest) with
        | String c w' =>
            match longest_s w' with
            | Some u => Some (String d ds, String c u)
            | None => None
            end
        | EmptyString => None
        end
      else None
  | _ => None
  end.

Fixpoint all_chars (p : ascii -> bool) (s : string) : bool :=
  match s with
  | EmptyString => true
  | String c s' => p c && all_chars p s'
  end.

(** Some prefix of [s] is digits, a space, word characters and an s. *)
Definition has_frequency_prefix (s : string) : Prop :=
  exists n u rest,
    s = (n ++ " " ++ u ++ "s" ++ rest)%string /\
    n <> EmptyString /\ all_chars is_digit n = true /\
    u <> EmptyString /\ all_chars is_word u = true.

(** The shape of a period as the design document words it: the whole text
    is an integer, one space, and a pluralised unit that [timedelta]
    supports. *)
Definition documented_period_shape (s : string) : bool :=
  match span is_digit s with
  | (String _ _, String sp unit) =>
      Ascii.eqb " " sp &&
      match unit_microseconds unit with Some _ => true | None => false end
  | _ => false
  end.

(** *** Adjusting in one step *)



(** The calls that only read or register: create, get-definition, describe. *)
Definition is_read (e : event) : bool :=
  match e with
  | CreatePipeline _ _ _ | GetPipelineDefinition _ | DescribePipelines _ => true
  | _ => false
  end.

(** What [state_from_id] makes of the response to its describe call. *)
Definition state_of_response (response : pyval) : outcome pyval :=
  descriptions <- py_getitem response "pipelineDescriptionList" ;;
  description <- py_first descriptions ;;
  fetch_field_value description "@pipelineState".

(** A pipeline whose desired definition is the empty one, under the name
    of [nightly]. *)
Definition unscheduled : Pipeline :=
  {| definition := empty_definition;
     unique_id := PStr "unique_id";
     values := PDict [("myStartDateTime", PStr "2026-01-01T00:00:00");
                      ("mySchedulePeriod", PStr "1 days")];
     name := PStr "nightly";
     description := PNone |}.

(** A service that ignores deletions, on which [nightly] stays registered
    as scheduled, with the empty definition. *)
Definition stuck : service := registered "SCHEDULED" empty_definition false.

(** What greedy [p+] amounts to once the run [a] of the class is known:
    the continuation is tried after the whole run first, then after one
    character less, down to one character. *)
Fixpoint try_back (k : string -> option groups) (a b : string) : option groups :=
  match a with
  | EmptyString => None
  | String c a' =>
      match try_back k a' b with
      | Some g => Some g
      | None => k (a' ++ b)%string
      end
  end.

(** The instant that a timestamp written with all its digits denotes. *)
Definition instant (text : string) : datetime :=
  match seconds_strptime text PIPELINE_DATETIME_FORMAT with
  | Ret dt => dt
  | _ => 0
  end.

(** An event that [is_valid] may emit: a call on the stub, a dry run, or
    a log record. *)
Definition validation_only (e : event) : bool :=
  is_validation_call e || negb (is_call e).

(** Every event that [m] emits, from any state of the service, satisfies
    [P]. *)
Definition emits {R A : Type} (P : event -> bool) (m : M R A) : Prop :=
  forall r, forallb P (snd (m r)) = true.

Section InTurn.

Context {R : Type} `{DataPipelineConnection R} `{Translator}.

(** [activate] runs on each pipeline of the list in turn and returns, each
    run starting from the service as the one before left it. *)
Inductive activated_in_turn (depth : nat)
  : list Pipeline -> R -> list event -> R -> Prop :=
| in_turn_nil r : activated_in_turn depth [] r [] r
| in_turn_cons p ps r v r1 evs1 evs2 r2 :
    Pipeline_activate depth p r = (Ret v, r1, evs1) ->
    activated_in_turn depth ps r1 evs2 r2 ->
    activated_in_turn depth (p :: ps) r (evs1 ++ evs2) r2.

End InTurn.

(** The values of two pipeline directories, and a collection of both. *)
Definition nightly_values : pyval :=
  PDict [("metadata", PDict [("name", PStr "nightly")]);
         ("values", PDict [("myStartDateTime", PStr "2026-01-01T00:00:00");
                           ("mySchedulePeriod", PStr "1 days")])].

Definition hourly_values : pyval :=
  PDict [("values", PDict [("myStartDateTime", PStr "2026-01-01T00:00:00");
                           ("mySchedulePeriod", PStr "1 hours")])].

Definition hourly : Pipeline :=
  {| definition := hourly_copy;
     unique_id := PStr "unique_id";
     values := PDict [("myStartDateTime", PStr "2026-01-01T00:00:00");
                      ("mySchedulePeriod", PStr "1 hours")];
     name := PStr "hourly";
     description := PNone |}.

(** A pipeline whose definition the simulated service rejects. *)
Definition broken : Pipeline :=
  {| definition := PDict [];
     unique_id := PStr "unique_id";
     values := PDict [];
     name := PStr "broken";
     description := PNone |}.

Definition sound_set : Pipelayer :=
  {| template := hourly_copy;
     pipelines := [(PStr "nightly", nightly); (PStr "hourly", hourly)] |}.

Definition unsound_set : Pipelayer :=
  {| template := hourly_copy;
     pipelines := [(PStr "nightly", nightly); (PStr "broken", broken)] |}.

(** ** Paths and URLs

    [os.path.join] on POSIX, and [urlparse.urlparse] as [bucket_and_path]
    uses it: the network location and the path of a URL.  The module
    imports [urlparse], the library of Python 2; the functions follow its
    text from Python 2.7.4 on, where every scheme has a query and a
    fragment, on text in ASCII. *)

Definition starts_with_slash (s : string) : bool :=
  match s with
  | String c _ => Ascii.eqb c "/"
  | EmptyString => false
  end.

Fixpoint ends_with_slash (s : string) : bool :=
  match s with
  | EmptyString => false
  | String c EmptyString => Ascii.eqb c "/"
  | String _ s' => ends_with_slash s'
  end.

(** [os.path.join(a, b)] *)
Definition path_join (a b : string) : string :=
  if starts_with_slash b then b
  else if String.eqb a "" || ends_with_slash a then (a ++ b)%string
  else (a ++ "/" ++ b)%string.

(** [os.path.join(a, *p)] *)
Definition path_join_all (a : string) (p : list string) : string :=
  fold_left path_join p a.

(** [s.find(c)] *)
Fixpoint find_char (c : ascii) (s : string) : option nat :=
  match s with
  | EmptyString => None
  | String d s' =>
      if Ascii.eqb c d then Some O
      else match find_char c s' with
           | Some i => Some (S i)
           | None => None
           end
  end.

(** [s.rfind(c)] *)
Fixpoint rfind_char (c : ascii) (s : string) : option nat :=
  match s with
  | EmptyString => None
  | String d s' =>
      match rfind_char c s' with
      | Some i => Some (S i)
      | None => if Ascii.eqb c d then Some O else None
      end
  end.

(** [s[:n]] and [s[n:]] *)
Fixpoint take (n : nat) (s : string) : string :=
  match n, s with
  | S n', String c s' => String c (take n' s')
  | _, _ => EmptyString
  end.

Fixpoint drop (n : nat) (s : string) : string :=
  match n, s with
  | S n', String _ s' => drop n' s'
  | _, _ => s
  end.

(** [s.find(c, start)] *)
Definition find_char_from (c : ascii) (start : nat) (s : string) : option nat :=
  match find_char c (drop start s) with
  | Some i => Some (start + i)%nat
  | None => None
  end.

(** [s.split(c, 1)] when [c] occurs in [s]. *)
Definition split_once (c : ascii) (s : string) : option (string * string) :=
  match find_char c s with
  | Some i => Some (take i s, drop (S i) s)
  | None => None
  end.

Definition lower_char (c : ascii) : ascii :=
  let n := nat_of_ascii c in
  if (65 <=? n)%nat && (n <=? 90)%nat then ascii_of_nat (n + 32) else c.

Fixpoint lower (s : string) : string :=
  match s with
  | EmptyString => EmptyString
  | String c s' => String (lower_char c) (lower s')
  end.

(** [scheme_chars]: letters, digits, and [+-.] *)
Definition scheme_char (c : ascii) : bool :=
  let n := nat_of_ascii c in
  ((48 <=? n)%nat && (n <=? 57)%nat) ||
  ((65 <=? n)%nat && (n <=? 90)%nat) ||
  ((97 <=? n)%nat && (n <=? 122)%nat) ||
  (n =? 43)%nat || (n =? 45)%nat || (n =? 46)%nat.

Definition uses_params : list string :=
  [ "ftp"; "hdl"; "prospero"; "http"; "imap"; "https"; "shttp"; "rtsp";
    "rtspu"; "sip"; "sips"; "mms"; ""; "sftp"; "tel" ].

(** [_splitnetloc(url, start)]: up to the first of [/], [?] and [#]. *)
Definition splitnetloc (url : string) (start : nat) : string * string :=
  let delim :=
    fold_left (fun delim c =>
                 match find_char_from c start url with
                 | Some wdelim => Nat.min delim wdelim
                 | None => delim
                 end)
              ["/"%char; "?"%char; "#"%char] (String.length url) in
  (take (delim - start) (drop start url), drop delim url).

Definition contains (c : ascii) (s : string) : bool :=
  match find_char c s with Some _ => true | None => false end.

(** The scheme that [urlsplit] takes off the front of [url], and the rest. *)
Definition split_scheme (url : string) : string * string :=
  match find_char ":" url with
  | Some (S i) =>
      let front := take (S i) url in
      let rest := drop (S (S i)) url in
      if String.eqb front "http" then (lower front, rest)
      else if all_chars scheme_char front then
        (* a run of digits after the colon is a port, not a path *)
        if String.eqb rest "" || negb (all_chars is_digit rest)
        then (lower front, rest)
        else (EmptyString, url)
      else (EmptyString, url)
  | _ => (EmptyString, url)
  end.

Record SplitResult : Type := {
  url_scheme : string;
  url_netloc : string;
  url_path : string;
  url_query : string;
  url_fragment : string
}.

(** [urlparse.urlsplit(url)] *)
Definition urlsplit (url : string) : outcome SplitResult :=
  let '(scheme, url) := split_scheme url in
  let '(netloc, url) :=
    if String.eqb (take 2 url) "//" then splitnetloc url 2
    else (EmptyString, url) in
  if (contains "[" netloc && negb (contains "]" netloc))
     || (contains "]" netloc && negb (contains "[" netloc))
  then Raise (ValueError "Invalid IPv6 URL")
  else
    let '(url, fragment) :=
      match split_once "#" url with
      | Some (u, f) => (u, f)
      | None => (url, EmptyString)
      end in
    let '(url, query) :=
      match split_once "?" url with
      | Some (u, q) => (u, q)
      | None => (url, EmptyString)
      end in
    Ret {| url_scheme := scheme; url_netloc := netloc; url_path := url;
           url_query := query; url_fragment := fragment |}.

(** [_splitparams(url)], called when [;] occurs in [url]. *)
Definition splitparams (url : string) : string * string :=
  match rfind_char "/" url with
  | Some slash =>
      match find_char_from ";" slash url with
      | Some i => (take i url, drop (S i) url)
      | None => (url, EmptyString)
      end
  | None =>
      match find_char ";" url with
      | Some i => (take i url, drop (S i) url)
      | None => (url, EmptyString)
      end
  end.

(** The attributes [netloc] and [path] of [urlparse.urlparse(url)]. *)
Definition urlparse (url : pyval) : outcome (string * string) :=
  match url with
  | PStr text =>
      parts <- urlsplit text ;;
      if existsb (String.eqb (url_scheme parts)) uses_params
         && contains ";" (url_path parts)
      then Ret (url_netloc parts, fst (splitparams (url_path parts)))
      else Ret (url_netloc parts, url_path parts)
  | PList _ | PDict _ => Raise (TypeError "unhashable type")
  | _ => Raise (AttributeError "find")
  end.

Definition bucket_and_path (s3_uri : pyval) : outcome (string * string) :=
  uri <- urlparse s3_uri ;;
  Ret (fst uri, drop 1 (snd uri)).

(** ** Uploading

    The process that runs [upload]: its working directory, the file system
    that lets it enter a directory or not, and the S3 service behind
    [s3_conn].  What [os.walk('.')] yields in the pipeline's directory is
    given; a call on S3 answers or raises. *)

Inductive failure : Type :=
| PythonError (e : exn)
| S3ResponseError (status : Z) (reason : string)
| IOError (filename : string)
| OSError (path : string).

Inductive ended (A : Type) : Type :=
| Returned (a : A)
| Raised (f : failure)
| Unfinished.

Arguments Returned {A} a.
Arguments Raised {A} f.
Arguments Unfinished {A}.

Inductive s3_event : Type :=
| Chdir (path : string)
| GetBucket (bucket_name : string)
| SetContentsFromFilename (bucket key cwd filename : string).

(** [S3Connection.get_bucket], answering with the bucket's name as its
    handle, and [Key.set_contents_from_filename] for a key of a bucket,
    the file name being read from the working directory [cwd]. *)
Class S3Connection (S : Type) : Type := {
  get_bucket : string -> S -> (failure + string) * S;
  set_contents_from_filename :
    string -> string -> string -> string -> S -> option failure * S
}.

(** [os.chdir(path)] in the working directory [cwd]: the working directory
    afterwards, as [os.getcwd()] names it, or nothing when the directory
    cannot be entered, which is an [OSError]. *)
Class FileSystem : Type := {
  chdir_from : string -> string -> option string
}.

Record host (S : Type) : Type := {
  cwd : string;
  s3 : S
}.

Arguments cwd {S} h.
Arguments s3 {S} h.

Definition U (S A : Type) : Type := host S -> ended A * host S * list s3_event.

Definition uret {S A : Type} (a : A) : U S A := fun h => (Returned a, h, []).

Definition ubind {S A B : Type} (m : U S A) (f : A -> U S B) : U S B :=
  fun h =>
    match m h with
    | (Returned a, h', evs) =>
        match f a h' with
        | (o, h'', evs') => (o, h'', evs ++ evs')
        end
    | (Raised x, h', evs) => (Raised x, h', evs)
    | (Unfinished, h', evs) => (Unfinished, h', evs)
    end.

Definition ulift {S A : Type} (x : outcome A) : U S A :=
  fun h =>
    match x with
    | Ret a => (Returned a, h, [])
    | Raise e => (Raised (PythonError e), h, [])
    | OutOfFuel => (Unfinished, h, [])
    end.

(** [os.getcwd()] and [os.chdir(path)] *)
Definition getcwd {S : Type} : U S string := fun h => (Returned (cwd h), h, []).

Definition chdir {S : Type} `{FileSystem} (path : string) : U S unit :=
  fun h =>
    match chdir_from (cwd h) path with
    | Some d => (Returned tt, {| cwd := d; s3 := s3 h |}, [Chdir path])
    | None => (Raised (OSError path), h, [Chdir path])
    end.

(** [with cd(new_path): body]: the code after [yield] runs when the body
    returns, and is skipped when the body raises. *)
Definition cd {S A : Type} `{FileSystem} (new_path : string) (body : U S A)
  : U S A :=
  ubind getcwd (fun saved_path =>
  ubind (chdir new_path) (fun _ =>
  ubind body (fun x =>
  ubind (chdir saved_path) (fun _ =>
  uret x)))).

Fixpoint ufor {S A : Type} (xs : list A) (body : A -> U S unit) : U S unit :=
  match xs with
  | [] => uret tt
  | x :: rest => ubind (body x) (fun _ => ufor rest body)
  end.

Section Upload.

Context {S : Type} `{S3Connection S} `{FileSystem}.

Definition s3_get_bucket (bucket_name : string) : U S string :=
  fun h =>
    match get_bucket bucket_name (s3 h) with
    | (inr bucket, s') =>
        (Returned bucket, {| cwd := cwd h; s3 := s' |}, [GetBucket bucket_name])
    | (inl x, s') =>
        (Raised x, {| cwd := cwd h; s3 := s' |}, [GetBucket bucket_name])
    end.

(** [k = S3Key(bucket); k.key = key; k.set_contents_from_filename(filename)] *)
Definition s3_put (bucket key filename : string) : U S unit :=
  fun h =>
    match set_contents_from_filename bucket key (cwd h) filename (s3 h) with
    | (None, s') =>
        (Returned tt, {| cwd := cwd h; s3 := s' |},
         [SetContentsFromFilename bucket key (cwd h) filename])
    | (Some x, s') =>
        (Raised x, {| cwd := cwd h; s3 := s' |},
         [SetContentsFromFilename bucket key (cwd h) filename])
    end.

(** [Pipeline.upload]; [dirpath] is the attribute [self.dirpath] and [walk]
    the triples (root, dirs, files) that [os.walk('.')] yields there. *)
Definition Pipeline_upload (self : Pipeline) (dirpath : string)
  (walk : list (string * list string * list string)) : U S unit :=
  ubind (ulift (uri <- py_getitem (values self) "myS3InputDir" ;;
                bucket_and_path uri)) (fun '(bucket_path, input_dir) =>
  ubind (s3_get_bucket bucket_path) (fun bucket =>
  cd dirpath
    (ufor walk (fun '(root, dirs, files) =>
       ufor files (fun f =>
         s3_put bucket (path_join_all input_dir [root; f])
                (path_join root f)))))).

End Upload.

(** The keys and file names of the uploads of a walk, in order. *)
Definition uploads (input_dir : string)
  (walk : list (string * list string * list string)) : list (string * string) :=
  flat_map (fun '(root, dirs, files) =>
              map (fun f => (path_join_all input_dir [root; f], path_join root f))
                  files) walk.

Section Sent.

Context {S : Type} `{S3Connection S}.

(** The service takes each of the files in turn. *)
Inductive sent (bucket cwd : string) : list (string * string) -> S -> S -> Prop :=
| sent_nil s : sent bucket cwd [] s s
| sent_cons key filename rest s s1 s2 :
    set_contents_from_filename bucket key cwd filename s = (None, s1) ->
    sent bucket cwd rest s1 s2 ->
    sent bucket cwd ((key, filename) :: rest) s s2.

End Sent.

Definition put_events (bucket cwd : string) (items : list (string * string))
  : list s3_event :=
  map (fun '(key, filename) => SetContentsFromFilename bucket key cwd filename)
      items.

(** *** A simulated bucket store *)

(** The objects stored, newest first, and the local files that cannot be
    read. *)
Record store : Type := {
  objects : list (string * string * string);
  unreadable : list string
}.

#[export] Instance sim_s3 : S3Connection store := {
  get_bucket := fun bucket_name s =>
    if String.eqb bucket_name ""
    then (inl (S3ResponseError 404 "Not Found"), s)
    else (inr bucket_name, s);
  set_contents_from_filename := fun bucket key cwd filename s =>
    if existsb (String.eqb filename) (unreadable s)
    then (Some (IOError filename), s)
    else (None, {| objects := (bucket, key, path_join cwd filename) :: objects s;
                   unreadable := unreadable s |})
}.

(** A file system with a home directory and one pipeline directory in it. *)
#[export] Instance sim_fs : FileSystem := {
  chdir_from := fun cwd path =>
    let d := path_join cwd path in
    if existsb (String.eqb d) ["/home/etl"; "/home/etl/pipelines/nightly"]
    then Some d else None
}.

Definition example_walk : list (string * list string * list string) :=
  [(".", ["tasks"], ["run"; "values.json"]);
   ("./tasks", [], ["task.sh"])].

Definition uploading : Pipeline :=
  {| definition := hourly_copy;
     unique_id := PStr "unique_id";
     values := PDict [("myStartDateTime", PStr "2026-01-01T00:00:00");
                      ("mySchedulePeriod", PStr "1 days");
                      ("myS3InputDir",
                       PStr "s3://example-bucket/pipelayer-test/inputs")];
     name := PStr "nightly";
     description := PNone |}.

(** ** Looking up a registered pipeline *)

(** [self.pipelines[key]] *)
Fixpoint pipelines_get (key : pyval) (items : list (pyval * Pipeline))
  : option Pipeline :=
  match items with
  | [] => None
  | (k, p) :: rest => if py_eqb key k then Some p else pipelines_get key rest
  end.

(** The values that JSON gives for a name and that a dict takes as a key. *)
Definition scalar (v : pyval) : bool :=
  match v with
  | PNone | PBool _ | PInt _ | PStr _ => true
  | _ => false
  end.

(** ** Validation records *)

(** The log records of one loop of [_log_validation_messages]. *)
Definition log_records (lvl : level) (header : string)
  (containers : list (pyval * list pyval)) : list event :=
  flat_map (fun '(id, messages) =>
              Logging lvl (PStr header) [id]
              :: map (fun m => Logging lvl m []) messages)
           containers.

(** A container of a validation response, with its id and its messages
    under [inner]. *)
Definition container_of (inner : string) (c : pyval * list pyval) : pyval :=
  PDict [("id", fst c); (inner, PList (snd c))].

Definition is_validate (e : event) : bool :=
  match e with ValidatePipelineDefinition _ _ _ _ => true | _ => false end.

(** A collection whose first pipeline is the one that does not validate. *)
Definition unsound_first : Pipelayer :=
  {| template := hourly_copy;
     pipelines := [(PStr "broken", broken); (PStr "nightly", nightly)] |}.

(** A log record, as opposed to a call or a print. *)
Definition is_log (e : event) : bool :=
  match e with Logging _ _ _ => true | _ => false end.

(** A service that hands out an identifier and then describes no pipeline
    under it. *)
Definition undescribing : DataPipelineConnection unit := {|
  create_pipeline := fun _ _ _ s => (PDict [("pipelineId", PStr "df-0001")], s);
  describe_pipelines := fun _ s => (PDict [("pipelineDescriptionList", PList [])], s);
  get_pipeline_definition := fun _ s => (hourly_copy, s);
  validate_pipeline_definition := fun _ _ _ _ s => (PDict [], s);
  put_pipeline_definition := fun _ _ _ _ s => (PDict [], s);
  activate_pipeline := fun _ s => (PNone, s);
  delete_pipeline := fun _ s => (PNone, s)
|}.

(** The puts of [upload], one after the other. *)
Definition put_all {S : Type} `{S3Connection S} (bucket : string)
  (items : list (string * string)) : U S unit :=
  ufor items (fun '(key, filename) => s3_put bucket key filename).

(** A walk as [os.walk('.')] yields it: roots that are relative, not empty
    and without a final slash, and file names that are relative. *)
Definition walk_entry_ok (entry : string * list string * list string) : Prop :=
  let '(root, dirs, files) := entry in
  root <> EmptyString /\ starts_with_slash root = false /\
  ends_with_slash root = false /\
  Forall (fun f => starts_with_slash f = false) files.

Definition plain_store : store := {| objects := []; unreadable := [] |}.

Definition store_without_values : store :=
  {| objects := []; unreadable := ["./values.json"] |}.

(** The same pipeline with an input directory given without scheme or
    bucket. *)
Definition uploading_nowhere : Pipeline :=
  {| definition := definition uploading;
     unique_id := unique_id uploading;
     values := PDict [("myS3InputDir", PStr "pipelayer-test/inputs")];
     name := name uploading;
     description := description uploading |}.

Definition etl_home (s : store) : host store :=
  {| cwd := "/home/etl"; s3 := s |}.

(** * Properties *)

(** ** Computations against the service *)

Section MonadLaws.

Context {R : Type}.

Lemma mbind_assoc {A B C : Type} (m : M R A) (f : A -> M R B) (g : B -> M R C) r :
  mbind (mbind m f) g r = mbind m (fun a => mbind (f a) g) r.
Proof.
  unfold mbind.
  destruct (m r) as [[[a | e | ] r1] e1]; try reflexivity.
  destruct (f a r1) as [[[b | e | ] r2] e2]; try reflexivity.
  destruct (g b r2) as [[o r3] e3].
  now rewrite app_assoc.
Qed.

Lemma mbind_ext {A B : Type} (m : M R A) (f g : A -> M R B) r :
  (forall a r', f a r' = g a r') -> mbind m f r = mbind m g r.
Proof.
  intros E. unfold mbind.
  destruct (m r) as [[[a | e | ] r1] e1]; try reflexivity.
  now rewrite E.
Qed.

Lemma mbind_mret {A B : Type} (a : A) (f : A -> M R B) r :
  mbind (mret a) f r = f a r.
Proof.
  unfold mbind, mret. now destruct (f a r) as [[o r1] e1].
Qed.

Lemma mbind_returns {A B : Type} (m : M R A) (f : A -> M R B) r a r1 evs :
  m r = (Ret a, r1, evs) ->
  mbind m f r = (fst (fst (f a r1)), snd (fst (f a r1)), evs ++ snd (f a r1)).
Proof.
  intros E. unfold mbind. rewrite E. now destruct (f a r1) as [[o r2] e2].
Qed.

Lemma mbind_raises {A B : Type} (m : M R A) (f : A -> M R B) r e r1 evs :
  m r = (Raise e, r1, evs) -> mbind m f r = (Raise e, r1, evs).
Proof. intros E. unfold mbind. now rewrite E. Qed.

Lemma mbind_out_of_fuel {A B : Type} (m : M R A) (f : A -> M R B) r r1 evs :
  m r = (OutOfFuel, r1, evs) -> mbind m f r = (OutOfFuel, r1, evs).
Proof. intros E. unfold mbind. now rewrite E. Qed.

End MonadLaws.

Lemma count_app (f : event -> bool) (xs ys : list event) :
  count f (xs ++ ys) = (count f xs + count f ys)%nat.
Proof.
  unfold count. induction xs as [| x xs IH]; simpl; [reflexivity |].
  destruct (f x); simpl; now rewrite IH.
Qed.

Lemma calls_app (xs ys : list event) : calls (xs ++ ys) = calls xs ++ calls ys.
Proof.
  unfold calls. induction xs as [| x xs IH]; simpl; [reflexivity |].
  destruct (is_call x); simpl; now rewrite IH.
Qed.

(** ** The pure helpers never exhaust a budget *)

Lemma py_getitem_total v k : py_getitem v k <> OutOfFuel.
Proof. destruct v; simpl; try discriminate. now destruct (assoc k items). Qed.

Lemma py_first_total v : py_first v <> OutOfFuel.
Proof.
  destruct v; simpl; try discriminate.
  - now destruct (chars s).
  - now destruct l.
Qed.

Lemma py_iter_total v : py_iter v <> OutOfFuel.
Proof. destruct v; simpl; discriminate. Qed.

Lemma py_items_total v : py_items v <> OutOfFuel.
Proof. destruct v; simpl; discriminate. Qed.

Lemma scan_fields_total field_name containers :
  scan_fields field_name containers <> OutOfFuel.
Proof.
  induction containers as [| c cs IH]; simpl; [discriminate |].
  destruct (py_getitem c "key") as [key | e | ] eqn:K; simpl; try discriminate.
  - destruct (py_eqb key (PStr field_name)); [| exact IH].
    destruct (py_items c) as [items | e | ] eqn:I; simpl; try discriminate.
    + now destruct (first_non_key items).
    + now apply py_items_total in I.
  - now apply py_getitem_total in K.
Qed.

Lemma fetch_field_value_total aws_response field_name :
  fetch_field_value aws_response field_name <> OutOfFuel.
Proof.
  unfold fetch_field_value.
  destruct (py_getitem aws_response "fields") as [fields | e | ] eqn:F; simpl;
    try discriminate; [| now apply py_getitem_total in F].
  destruct (py_iter fields) as [cs | e | ] eqn:I; simpl;
    try discriminate; [| now apply py_iter_total in I].
  destruct (scan_fields field_name cs) as [[v |] | e | ] eqn:S; simpl;
    try discriminate.
  now apply scan_fields_total in S.
Qed.

(** ** [Pipeline.activate] *)

Section Activation.

Context {R : Type} `{DataPipelineConnection R} `{Translator}.

(** [Pipeline.activate] is its three reads followed by the decision. *)
Lemma Pipeline_activate_unfold depth self (r : R) :
  Pipeline_activate (S depth) self r
  = mbind (remote_view self) (after_view depth self) r.
Proof.
  simpl. unfold remote_view.
  rewrite mbind_assoc. apply mbind_ext. intros id r1.
  rewrite mbind_assoc. apply mbind_ext. intros ex r2.
  rewrite mbind_assoc. apply mbind_ext. intros st r3.
  now rewrite mbind_mret.
Qed.

Lemma Pipeline_create_run self (r : R) :
  Pipeline_create self r
  = (py_getitem
       (fst (create_pipeline (name self) (unique_id self) (description self) r))
       "pipelineId",
     snd (create_pipeline (name self) (unique_id self) (description self) r),
     [CreatePipeline (name self) (unique_id self) (description self)]).
Proof.
  unfold Pipeline_create, mbind, call, lift.
  now destruct (create_pipeline _ _ _ r) as [v r1].
Qed.

Lemma definition_from_id_run id (r : R) :
  definition_from_id id r
  = (Ret (api_to_definition (fst (get_pipeline_definition id r))),
     snd (get_pipeline_definition id r), [GetPipelineDefinition id]).
Proof.
  unfold definition_from_id, mbind, call, mret.
  now destruct (get_pipeline_definition id r) as [v r1].
Qed.

Lemma state_from_id_run id (r : R) :
  state_from_id id r
  = (state_of_response (fst (describe_pipelines [id] r)),
     snd (describe_pipelines [id] r), [DescribePipelines [id]]).
Proof.
  unfold state_from_id, state_of_response, mbind, call, lift.
  destruct (describe_pipelines [id] r) as [v r1]; simpl.
  destruct (py_getitem v "pipelineDescriptionList") as [ds | e | ]; simpl;
    try reflexivity.
  destruct (py_first ds) as [d | e | ]; simpl; try reflexivity.
Qed.

Lemma state_of_response_total response : state_of_response response <> OutOfFuel.
Proof.
  unfold state_of_response.
  destruct (py_getitem response "pipelineDescriptionList") as [ds | e | ] eqn:G;
    simpl; try discriminate; [| now apply py_getitem_total in G].
  destruct (py_first ds) as [d | e | ] eqn:F; simpl; try discriminate;
    [| now apply py_first_total in F].
  apply fetch_field_value_total.
Qed.

(** The three reads, step by step: each either answers or stops the run
    with what was issued so far. *)
Lemma remote_view_run self (r : R) :
  let created := create_pipeline (name self) (unique_id self) (description self) r in
  let create_ev := CreatePipeline (name self) (unique_id self) (description self) in
  remote_view self r =
  match py_getitem (fst created) "pipelineId" with
  | Ret id =>
      let got := get_pipeline_definition id (snd created) in
      let described := describe_pipelines [id] (snd got) in
      match state_of_response (fst described) with
      | Ret state =>
          (Ret (id, api_to_definition (fst got), state), snd described,
           [create_ev; GetPipelineDefinition id; DescribePipelines [id]])
      | Raise e =>
          (Raise e, snd described,
           [create_ev; GetPipelineDefinition id; DescribePipelines [id]])
      | OutOfFuel =>
          (OutOfFuel, snd described,
           [create_ev; GetPipelineDefinition id; DescribePipelines [id]])
      end
  | Raise e => (Raise e, snd created, [create_ev])
  | OutOfFuel => (OutOfFuel, snd created, [create_ev])
  end.
Proof.
  intros created create_ev. unfold remote_view.
  unfold mbind at 1. rewrite Pipeline_create_run. fold created. fold create_ev.
  destruct (py_getitem (fst created) "pipelineId") as [id | e | ]; try reflexivity.
  unfold mbind at 1. rewrite definition_from_id_run.
  unfold mbind at 1. rewrite state_from_id_run.
  destruct (state_of_response _) as [st | e | ]; reflexivity.
Qed.

Ltac case_view :=
  rewrite remote_view_run; cbv zeta;
  match goal with
  | |- context [py_getitem ?x "pipelineId"] =>
      destruct (py_getitem x "pipelineId") eqn:?
  end;
  try match goal with
      | |- context [state_of_response ?x] => destruct (state_of_response x) eqn:?
      end.

(** The reads are calls to create, get-definition and describe, whatever
    they answer. *)
Lemma remote_view_reads self (r : R) :
  forallb is_read (snd (remote_view self r)) = true.
Proof. case_view; reflexivity. Qed.

Lemma remote_view_total self (r : R) r1 evs :
  remote_view self r <> (OutOfFuel, r1, evs).
Proof.
  case_view; try discriminate.
  - match goal with E : state_of_response _ = OutOfFuel |- _ =>
      now apply state_of_response_total in E end.
  - match goal with E : py_getitem _ _ = OutOfFuel |- _ =>
      now apply py_getitem_total in E end.
Qed.

(** When the three reads answer, they are one create, one get-definition and
    one describe, the last two on the identifier that create returned. *)
Lemma remote_view_events self (r : R) id existing state r1 evs :
  remote_view self r = (Ret (id, existing, state), r1, evs) ->
  evs = [CreatePipeline (name self) (unique_id self) (description self);
         GetPipelineDefinition id; DescribePipelines [id]].
Proof.
  case_view; try discriminate.
  intros E. now inversion E.
Qed.

End Activation.

Lemma reads_count_zero (evs : list event) :
  forallb is_read evs = true ->
  count is_delete evs = 0%nat /\ count is_put evs = 0%nat /\
  count is_activate evs = 0%nat.
Proof.
  unfold count. induction evs as [| x xs IH]; simpl; [now auto |].
  intros Rd. apply andb_prop in Rd as [Rx Rxs].
  destruct x; simpl in *; try discriminate; now apply IH.
Qed.

Section ActivationClaims.

Context {R : Type} `{DataPipelineConnection R} `{Translator}.

Lemma after_view_equal depth self id existing state (r1 : R) :
  py_eqb existing (definition self) = true ->
  after_view depth self (id, existing, state) r1 = (Ret (PBool true), r1, []).
Proof. intros E. unfold after_view. now rewrite E. Qed.

Lemma after_view_push depth self id existing state (r1 : R) :
  py_eqb existing (definition self) = false ->
  py_eqb state (PStr "PENDING") = true ->
  after_view depth self (id, existing, state) r1
  = (Ret PNone,
     snd (activate_pipeline id
            (snd (put_pipeline_definition (api_objects self) id
                    (api_parameters self) (api_values self) r1))),
     [Logging DEBUG (PStr "Putting pipeline definition") [];
      PutPipelineDefinition (api_objects self) id
        (api_parameters self) (api_values self);
      Logging INFO (PStr "Activating pipeline with id {}") [id];
      ActivatePipeline id]).
Proof.
  intros E P. unfold after_view. rewrite E, P. simpl.
  unfold mbind, emit, call, mret.
  destruct (put_pipeline_definition _ _ _ _ r1) as [v2 r2]. simpl.
  now destruct (activate_pipeline id r2) as [v3 r3].
Qed.

Lemma after_view_delete depth self id existing state (r1 : R) :
  py_eqb existing (definition self) = false ->
  py_eqb state (PStr "PENDING") = false ->
  after_view depth self (id, existing, state) r1
  = (fst (fst (Pipeline_activate depth self (snd (delete_pipeline id r1)))),
     snd (fst (Pipeline_activate depth self (snd (delete_pipeline id r1)))),
     [Printed [PStr "State is: "; state];
      Logging INFO (PStr "Deleting pipeline with id {}") [id];
      DeletePipeline id]
     ++ snd (Pipeline_activate depth self (snd (delete_pipeline id r1)))).
Proof.
  intros E P. unfold after_view. rewrite E, P. simpl.
  unfold mbind, emit, call.
  destruct (delete_pipeline id r1) as [v2 r2]. simpl.
  now destruct (Pipeline_activate depth self r2) as [[o r3] evs3].
Qed.

(** One pass of [activate] from a view that does not call for a deletion. *)
Lemma activate_pass depth self (r : R) id existing state r1 evs :
  remote_view self r = (Ret (id, existing, state), r1, evs) ->
  py_eqb existing (definition self) = true \/ py_eqb state (PStr "PENDING") = true ->
  exists v r2 evs',
    Pipeline_activate (S depth) self r = (Ret v, r2, evs') /\
    count is_delete evs' = 0%nat /\
    (count is_put evs' <= 1)%nat /\
    count is_activate evs' = count is_put evs'.
Proof.
  intros V C. rewrite Pipeline_activate_unfold, (mbind_returns _ _ _ _ _ _ V).
  rewrite (remote_view_events _ _ _ _ _ _ _ V).
  destruct (py_eqb existing (definition self)) eqn:E.
  - rewrite after_view_equal by assumption. simpl.
    do 3 eexists. split; [reflexivity |]. cbn. repeat split; auto.
  - destruct C as [C | C]; [discriminate |].
    rewrite after_view_push by assumption. simpl.
    do 3 eexists. split; [reflexivity |]. cbn. repeat split; auto.
Qed.

(** C1. If the definition registered under the identifier that create
    returns equals the pipeline's own definition, [activate] returns [True]
    after its three reads (create, get-definition, describe) and issues no
    put-definition, no activate and no delete. *)
Theorem activate_equal_definition_is_noop
  depth self (r : R) id existing state r1 evs :
  remote_view self r = (Ret (id, existing, state), r1, evs) ->
  py_eqb existing (definition self) = true ->
  exists evs',
    Pipeline_activate (S depth) self r = (Ret (PBool true), r1, evs') /\
    evs' = [CreatePipeline (name self) (unique_id self) (description self);
            GetPipelineDefinition id; DescribePipelines [id]] /\
    count is_put evs' = 0%nat /\ count is_activate evs' = 0%nat /\
    count is_delete evs' = 0%nat.
Proof.
  intros V E. rewrite Pipeline_activate_unfold, (mbind_returns _ _ _ _ _ _ V).
  rewrite (remote_view_events _ _ _ _ _ _ _ V).
  rewrite after_view_equal by assumption. simpl.
  eexists. split; [reflexivity |]. repeat split.
Qed.

(** C3. If the pipeline is reported [PENDING] and the registered definition
    differs from the pipeline's own, [activate] issues, after its three
    reads, one put-definition and then one activate, and no delete. *)
Theorem activate_pending_pushes_once
  depth self (r : R) id existing state r1 evs :
  remote_view self r = (Ret (id, existing, state), r1, evs) ->
  py_eqb existing (definition self) = false ->
  py_eqb state (PStr "PENDING") = true ->
  exists r2 evs',
    Pipeline_activate (S depth) self r = (Ret PNone, r2, evs') /\
    calls evs' = [CreatePipeline (name self) (unique_id self) (description self);
                  GetPipelineDefinition id; DescribePipelines [id];
                  PutPipelineDefinition (api_objects self) id
                    (api_parameters self) (api_values self);
                  ActivatePipeline id] /\
    count is_put evs' = 1%nat /\ count is_activate evs' = 1%nat /\
    count is_delete evs' = 0%nat.
Proof.
  intros V E P. rewrite Pipeline_activate_unfold, (mbind_returns _ _ _ _ _ _ V).
  rewrite (remote_view_events _ _ _ _ _ _ _ V).
  rewrite after_view_push by assumption. simpl.
  do 2 eexists. split; [reflexivity |]. repeat split.
Qed.

(** C4, as the code has it. If the pipeline is reported in a state other
    than [PENDING] with a definition that differs from the pipeline's own,
    and the pipeline found after the deletion is [PENDING] with a definition
    that differs too, then [activate] issues one delete and starts again:
    in all create, get-definition, describe, delete, create, get-definition,
    describe, put-definition, activate. *)
Theorem activate_stale_deletes_then_pushes
  depth self (r : R) id existing state r1 evs id' existing' state' r2 evs2 :
  remote_view self r = (Ret (id, existing, state), r1, evs) ->
  py_eqb existing (definition self) = false ->
  py_eqb state (PStr "PENDING") = false ->
  remote_view self (snd (delete_pipeline id r1))
    = (Ret (id', existing', state'), r2, evs2) ->
  py_eqb existing' (definition self) = false ->
  py_eqb state' (PStr "PENDING") = true ->
  exists r3 evs',
    Pipeline_activate (S (S depth)) self r = (Ret PNone, r3, evs') /\
    calls evs' = [CreatePipeline (name self) (unique_id self) (description self);
                  GetPipelineDefinition id; DescribePipelines [id];
                  DeletePipeline id;
                  CreatePipeline (name self) (unique_id self) (description self);
                  GetPipelineDefinition id'; DescribePipelines [id'];
                  PutPipelineDefinition (api_objects self) id'
                    (api_parameters self) (api_values self);
                  ActivatePipeline id'] /\
    count is_delete evs' = 1%nat /\ count is_create evs' = 2%nat /\
    count is_put evs' = 1%nat /\ count is_activate evs' = 1%nat.
Proof.
  intros V E P V' E' P'.
  rewrite Pipeline_activate_unfold, (mbind_returns _ _ _ _ _ _ V).
  rewrite (remote_view_events _ _ _ _ _ _ _ V).
  rewrite after_view_delete by assumption.
  rewrite Pipeline_activate_unfold, (mbind_returns _ _ _ _ _ _ V').
  rewrite (remote_view_events _ _ _ _ _ _ _ V').
  rewrite after_view_push by assumption. simpl.
  do 2 eexists. split; [reflexivity |]. repeat split.
Qed.

(** C2, as the code has it. [activate] calls itself after a deletion, with
    no bound of its own. When the pipeline found after a first deletion is
    [PENDING] or carries the pipeline's own definition, two nested calls are
    enough: the run ends having issued at most one delete and at most one
    put-definition, each put-definition with its activate. *)
Theorem activate_bounded_when_recreated_pending depth self (r : R) :
  (forall id existing state r1 evs,
      remote_view self r = (Ret (id, existing, state), r1, evs) ->
      py_eqb existing (definition self) = false ->
      py_eqb state (PStr "PENDING") = false ->
      forall id' existing' state' r2 evs2,
        remote_view self (snd (delete_pipeline id r1))
          = (Ret (id', existing', state'), r2, evs2) ->
        py_eqb existing' (definition self) = true \/
        py_eqb state' (PStr "PENDING") = true) ->
  exists o r' evs',
    Pipeline_activate (S (S depth)) self r = (o, r', evs') /\
    o <> OutOfFuel /\
    (count is_delete evs' <= 1)%nat /\
    (count is_put evs' <= 1)%nat /\
    count is_activate evs' = count is_put evs'.
Proof.
  intros Fresh.
  destruct (remote_view self r) as [[[[[id ex] st] | e | ] r1] evs] eqn:V.
  - destruct (py_eqb ex (definition self)) eqn:E;
      [| destruct (py_eqb st (PStr "PENDING")) eqn:P].
    + destruct (activate_pass (S depth) self r _ _ _ _ _ V (or_introl E))
        as (v & r2 & evs' & Run & D & Pu & A).
      exists (Ret v), r2, evs'. rewrite D. repeat split; auto; discriminate.
    + destruct (activate_pass (S depth) self r _ _ _ _ _ V (or_intror P))
        as (v & r2 & evs' & Run & D & Pu & A).
      exists (Ret v), r2, evs'. rewrite D. repeat split; auto; discriminate.
    + rewrite Pipeline_activate_unfold, (mbind_returns _ _ _ _ _ _ V).
      rewrite (remote_view_events _ _ _ _ _ _ _ V).
      rewrite after_view_delete by assumption.
      set (r2 := snd (delete_pipeline id r1)).
      destruct (remote_view self r2) as [[[[[id' ex'] st'] | e | ] r3] evs2] eqn:V'.
      * destruct (activate_pass depth self r2 _ _ _ _ _ V'
                    (Fresh _ _ _ _ _ eq_refl E P _ _ _ _ _ V'))
          as (v & r4 & evs' & Run & D & Pu & A).
        rewrite Run. cbn [fst snd]. do 3 eexists. split; [reflexivity |].
        split; [discriminate |].
        rewrite !count_app, D, A. cbn. repeat split; auto.
      * rewrite Pipeline_activate_unfold, (mbind_raises _ _ _ _ _ _ V').
        cbn [fst snd]. do 3 eexists. split; [reflexivity |]. split; [discriminate |].
        pose proof (remote_view_reads self r2) as Rd. rewrite V' in Rd.
        cbn [snd] in Rd.
        destruct (reads_count_zero _ Rd) as (D & Pu & A).
        rewrite !count_app, D, Pu, A. cbn. repeat split; auto.
      * now apply remote_view_total in V'.
  - rewrite Pipeline_activate_unfold, (mbind_raises _ _ _ _ _ _ V).
    do 3 eexists. split; [reflexivity |]. split; [discriminate |].
    pose proof (remote_view_reads self r) as Rd. rewrite V in Rd.
    cbn [snd] in Rd.
    destruct (reads_count_zero _ Rd) as (D & Pu & A).
    rewrite D, Pu, A. repeat split; auto.
  - now apply remote_view_total in V.
Qed.

End ActivationClaims.

(** ** [Pipeline.activate] on the simulated service *)

Lemma activate_equal_definition_is_noop_witness :
  exists evs',
    Pipeline_activate 1 nightly (registered "SCHEDULED" hourly_copy true)
    = (Ret (PBool true), registered "SCHEDULED" hourly_copy true, evs') /\
    evs' = [CreatePipeline (PStr "nightly") (PStr "unique_id") PNone;
            GetPipelineDefinition (PStr "df-0001");
            DescribePipelines [PStr "df-0001"]] /\
    count is_put evs' = 0%nat /\ count is_activate evs' = 0%nat /\
    count is_delete evs' = 0%nat.
Proof.
  eapply (activate_equal_definition_is_noop 0 nightly
            (registered "SCHEDULED" hourly_copy true));
    reflexivity.
Defined.

Lemma activate_pending_pushes_once_witness :
  exists r2 evs',
    Pipeline_activate 1 nightly (registered "PENDING" empty_definition true)
    = (Ret PNone, r2, evs') /\
    calls evs' = [CreatePipeline (PStr "nightly") (PStr "unique_id") PNone;
                  GetPipelineDefinition (PStr "df-0001");
                  DescribePipelines [PStr "df-0001"];
                  PutPipelineDefinition hourly_copy (PStr "df-0001")
                    (PList []) (PList []);
                  ActivatePipeline (PStr "df-0001")] /\
    count is_put evs' = 1%nat /\ count is_activate evs' = 1%nat /\
    count is_delete evs' = 0%nat.
Proof.
  exact (activate_pending_pushes_once 0 nightly
           (registered "PENDING" empty_definition true)
           (PStr "df-0001") empty_definition (PStr "PENDING")
           (registered "PENDING" empty_definition true)
           [CreatePipeline (PStr "nightly") (PStr "unique_id") PNone;
            GetPipelineDefinition (PStr "df-0001");
            DescribePipelines [PStr "df-0001"]]
           eq_refl eq_refl eq_refl).
Defined.

Lemma activate_stale_deletes_then_pushes_witness :
  exists r3 evs',
    Pipeline_activate 2 nightly (registered "SCHEDULED" empty_definition true)
    = (Ret PNone, r3, evs') /\
    calls evs' = [CreatePipeline (PStr "nightly") (PStr "unique_id") PNone;
                  GetPipelineDefinition (PStr "df-0001");
                  DescribePipelines [PStr "df-0001"];
                  DeletePipeline (PStr "df-0001");
                  CreatePipeline (PStr "nightly") (PStr "unique_id") PNone;
                  GetPipelineDefinition (PStr "df-0002");
                  DescribePipelines [PStr "df-0002"];
                  PutPipelineDefinition hourly_copy (PStr "df-0002")
                    (PList []) (PList []);
                  ActivatePipeline (PStr "df-0002")] /\
    count is_delete evs' = 1%nat /\ count is_create evs' = 2%nat /\
    count is_put evs' = 1%nat /\ count is_activate evs' = 1%nat.
Proof.
  exact (activate_stale_deletes_then_pushes 0 nightly
           (registered "SCHEDULED" empty_definition true)
           (PStr "df-0001") empty_definition (PStr "SCHEDULED")
           (registered "SCHEDULED" empty_definition true)
           [CreatePipeline (PStr "nightly") (PStr "unique_id") PNone;
            GetPipelineDefinition (PStr "df-0001");
            DescribePipelines [PStr "df-0001"]]
           (PStr "df-0002") empty_definition (PStr "PENDING")
           {| entities := [{| entity_id := PStr "df-0002";
                              entity_name := PStr "nightly";
                              entity_unique_id := PStr "unique_id";
                              entity_state := "PENDING";
                              entity_definition := empty_definition |}];
              next_id := 3;
              honours_delete := true |}
           [CreatePipeline (PStr "nightly") (PStr "unique_id") PNone;
            GetPipelineDefinition (PStr "df-0002");
            DescribePipelines [PStr "df-0002"]]
           eq_refl eq_refl eq_refl eq_refl eq_refl eq_refl).
Defined.

(** C4, as worded, fails where the pipeline's own definition is the one a
    new pipeline starts with: on the simulated service, [unscheduled] finds
    itself scheduled with another definition, deletes, starts again, and
    then returns [True] from the comparison, with no put-definition and no
    activate.  It fails too on the service that ignores deletions, where
    the second pass deletes again. *)
Lemma activate_after_delete_may_skip_push :
  remote_view unscheduled (registered "SCHEDULED" hourly_copy true)
  = (Ret (PStr "df-0001", hourly_copy, PStr "SCHEDULED"),
     registered "SCHEDULED" hourly_copy true,
     [CreatePipeline (PStr "nightly") (PStr "unique_id") PNone;
      GetPipelineDefinition (PStr "df-0001");
      DescribePipelines [PStr "df-0001"]]) /\
  py_eqb hourly_copy (definition unscheduled) = false /\
  py_eqb (PStr "SCHEDULED") (PStr "PENDING") = false /\
  (forall depth, exists r' evs,
      Pipeline_activate (S (S depth)) unscheduled
        (registered "SCHEDULED" hourly_copy true)
      = (Ret (PBool true), r', evs) /\
      calls evs = [CreatePipeline (PStr "nightly") (PStr "unique_id") PNone;
                   GetPipelineDefinition (PStr "df-0001");
                   DescribePipelines [PStr "df-0001"];
                   DeletePipeline (PStr "df-0001");
                   CreatePipeline (PStr "nightly") (PStr "unique_id") PNone;
                   GetPipelineDefinition (PStr "df-0002");
                   DescribePipelines [PStr "df-0002"]] /\
      count is_put evs = 0%nat /\ count is_activate evs = 0%nat) /\
  (exists r' evs,
      Pipeline_activate 3 nightly stuck = (OutOfFuel, r', evs) /\
      count is_delete evs = 3%nat /\ count is_put evs = 0%nat).
Proof.
  repeat split; try reflexivity.
  2:{ do 2 eexists. repeat split. }
  intros depth.
  assert (V : remote_view unscheduled (registered "SCHEDULED" hourly_copy true)
              = (Ret (PStr "df-0001", hourly_copy, PStr "SCHEDULED"),
                 registered "SCHEDULED" hourly_copy true,
                 [CreatePipeline (PStr "nightly") (PStr "unique_id") PNone;
                  GetPipelineDefinition (PStr "df-0001");
                  DescribePipelines [PStr "df-0001"]])) by reflexivity.
  rewrite Pipeline_activate_unfold, (mbind_returns _ _ _ _ _ _ V).
  rewrite after_view_delete by reflexivity.
  rewrite Pipeline_activate_unfold.
  do 2 eexists. repeat split.
Qed.

Lemma stuck_view :
  remote_view nightly stuck
  = (Ret (PStr "df-0001", empty_definition, PStr "SCHEDULED"), stuck,
     [CreatePipeline (PStr "nightly") (PStr "unique_id") PNone;
      GetPipelineDefinition (PStr "df-0001");
      DescribePipelines [PStr "df-0001"]]).
Proof. reflexivity. Qed.

(** C2, as worded, fails on a service that leaves the pipeline in place
    when asked to delete it: [activate] then deletes once for every nested
    call it is allowed, and none of these runs returns. *)
Lemma activate_repeats_deletion_without_bound :
  (exists r' evs,
      Pipeline_activate 3 nightly stuck = (OutOfFuel, r', evs) /\
      count is_delete evs = 3%nat) /\
  (forall depth, exists evs,
      Pipeline_activate depth nightly stuck = (OutOfFuel, stuck, evs) /\
      count is_delete evs = depth /\ count is_put evs = 0%nat).
Proof.
  split.
  - do 2 eexists. split; reflexivity.
  - induction depth as [| depth (evs & Run & D & P)].
    + exists []. repeat split.
    + rewrite Pipeline_activate_unfold, (mbind_returns _ _ _ _ _ _ stuck_view).
      rewrite after_view_delete by reflexivity.
      change (snd (delete_pipeline (PStr "df-0001") stuck)) with stuck.
      rewrite Run. cbn [fst snd].
      eexists. split; [reflexivity |].
      rewrite !count_app, D, P. split; reflexivity.
Qed.

Lemma activate_bounded_when_recreated_pending_witness :
  exists o r' evs',
    Pipeline_activate 2 nightly (registered "SCHEDULED" empty_definition true)
    = (o, r', evs') /\
    o <> OutOfFuel /\
    (count is_delete evs' <= 1)%nat /\
    (count is_put evs' <= 1)%nat /\
    count is_activate evs' = count is_put evs'.
Proof.
  apply (activate_bounded_when_recreated_pending 0 nightly
           (registered "SCHEDULED" empty_definition true)).
  intros id existing state r1 evs V E P id' existing' state' r2 evs2 V'.
  vm_compute in V. injection V as <- <- <- <- <-.
  vm_compute in V'. injection V' as <- <- <- <- <-.
  right. reflexivity.
Defined.

(** ** The pattern of a period *)

Lemma append_nil_r (s : string) : (s ++ "")%string = s.
Proof. induction s as [| c s IH]; simpl; [reflexivity | now rewrite IH]. Qed.

Lemma append_assoc (x y z : string) : ((x ++ y) ++ z = x ++ (y ++ z))%string.
Proof. induction x as [| c x IH]; simpl; [reflexivity | now rewrite IH]. Qed.

Lemma length_append (x y : string) :
  String.length (x ++ y) = (String.length x + String.length y)%nat.
Proof. induction x as [| c x IH]; simpl; [reflexivity | now rewrite IH]. Qed.

Lemma all_chars_app p x y :
  all_chars p (x ++ y) = all_chars p x && all_chars p y.
Proof.
  induction x as [| c x IH]; simpl; [reflexivity |].
  now rewrite IH, andb_assoc.
Qed.

Lemma span_app p s : s = (fst (span p s) ++ snd (span p s))%string.
Proof.
  induction s as [| c s IH]; simpl; [reflexivity |].
  destruct (p c); [| reflexivity].
  destruct (span p s) as [a b]. simpl in *. now f_equal.
Qed.

Lemma span_all p s : all_chars p (fst (span p s)) = true.
Proof.
  induction s as [| c s IH]; simpl; [reflexivity |].
  destruct (p c) eqn:E; [| reflexivity].
  destruct (span p s) as [a b]. simpl in *. now rewrite E.
Qed.

Lemma span_stops p s : stops p (snd (span p s)).
Proof.
  induction s as [| c s IH]; simpl; [exact I |].
  destruct (p c) eqn:E; [| exact E].
  now destruct (span p s) as [a b].
Qed.

Lemma span_prefix p x y :
  all_chars p x = true ->
  span p (x ++ y) = ((x ++ fst (span p y))%string, snd (span p y)).
Proof.
  induction x as [| c x IH]; simpl; intros A.
  - now destruct (span p y).
  - apply andb_prop in A as [Pc A]. rewrite Pc, (IH A). reflexivity.
Qed.

Lemma span_unique p n rest :
  all_chars p n = true -> stops p rest -> span p (n ++ rest) = (n, rest).
Proof.
  intros A S. rewrite (span_prefix _ _ _ A).
  destruct rest as [| c rest]; simpl in *.
  - now rewrite append_nil_r.
  - rewrite S. simpl. now rewrite append_nil_r.
Qed.

Lemma consumed_unfold (s rest : string) :
  consumed s rest =
  if (String.length s <=? String.length rest)%nat then EmptyString
  else match s with
       | EmptyString => EmptyString
       | String c s' => String c (consumed s' rest)
       end.
Proof. destruct s; reflexivity. Qed.

Lemma consumed_app (x y : string) : consumed (x ++ y) y = x.
Proof.
  induction x as [| c x IH]; rewrite consumed_unfold.
  - simpl. now rewrite Nat.leb_refl.
  - replace (String.length (String c x ++ y) <=? String.length y)%nat with false.
    + simpl. now rewrite IH.
    + symmetry. apply Nat.leb_gt. simpl. rewrite length_append. lia.
Qed.

(** Greedy [p+] is [try_back] on the run of the class. *)
Lemma plus_match_span p k s :
  plus_match p k s = try_back k (fst (span p s)) (snd (span p s)).
Proof.
  induction s as [| c s IH]; simpl; [reflexivity |].
  destruct (p c); [| reflexivity].
  rewrite IH. pose proof (span_app p s) as A.
  destruct (span p s) as [a b]. simpl in *. now rewrite <- A.
Qed.

(** When the continuation refuses every text that starts inside the run,
    only the whole run can be taken. *)
Lemma try_back_whole_run p k a b :
  all_chars p a = true ->
  (forall c x, p c = true -> k (String c x) = None) ->
  try_back k a b = match a with EmptyString => None | _ => k b end.
Proof.
  intros A Refuse. induction a as [| c a IH]; [reflexivity |].
  simpl in A. apply andb_prop in A as [Pc A]. simpl. rewrite (IH A).
  destruct a as [| d a]; [reflexivity |].
  destruct (k b); [reflexivity |].
  simpl in A. apply andb_prop in A as [Pd _]. simpl. now apply Refuse.
Qed.

Lemma longest_s_shape w u :
  longest_s w = Some u ->
  exists u0 y, u = (u0 ++ "s")%string /\ w = (u ++ y)%string.
Proof.
  revert u. induction w as [| c w IH]; simpl; intros u E; [discriminate |].
  destruct (longest_s w) as [v |].
  - injection E as <-. destruct (IH v eq_refl) as (u0 & y & -> & ->).
    exists (String c u0), y. split; reflexivity.
  - destruct (Ascii.eqb c "s") eqn:C; [| discriminate].
    injection E as <-. apply Ascii.eqb_eq in C. subst c.
    exists EmptyString, w. split; reflexivity.
Qed.

Lemma longest_s_finds x y : longest_s (x ++ "s" ++ y) <> None.
Proof.
  induction x as [| c x IH]; simpl.
  - now destruct (longest_s y).
  - simpl in IH. now destruct (longest_s (x ++ String "s" y)).
Qed.

(** The unit group: from the run [a] of word characters, the first
    character and the longest prefix of the others that ends with s. *)
Lemma try_back_unit (k : string -> option groups) (S : string) a :
  forall pre b,
    S = (pre ++ a ++ b)%string ->
    (forall t1, k t1 = match t1 with
                       | String c t =>
                           if Ascii.eqb "s" c
                           then Some [("unit", consumed S t)]
                           else None
                       | EmptyString => None
                       end) ->
    stops is_word b ->
    try_back k a b =
    match a with
    | EmptyString => None
    | String c a' =>
        match longest_s a' with
        | Some u => Some [("unit", (pre ++ String c u)%string)]
        | None => None
        end
    end.
Proof.
  induction a as [| c a IH]; intros pre b ES Hk Sb; [reflexivity |].
  simpl.
  rewrite (IH (pre ++ String c EmptyString)%string b); auto.
  2:{ rewrite ES. now rewrite append_assoc. }
  destruct a as [| c' a].
  - simpl. rewrite Hk. destruct b as [| d b]; [reflexivity |].
    simpl in Sb. destruct (Ascii.eqb "s" d) eqn:D; [| reflexivity].
    apply Ascii.eqb_eq in D. subst d. discriminate.
  - simpl. destruct (longest_s a) as [u |] eqn:L.
    + now rewrite append_assoc.
    + rewrite Hk. rewrite (Ascii.eqb_sym c' "s").
      destruct (Ascii.eqb "s" c'); [| reflexivity].
      replace S with ((pre ++ String c (String c' EmptyString)) ++ (a ++ b))%string.
      * now rewrite consumed_app.
      * rewrite ES, append_assoc. reflexivity.
Qed.

Lemma digit_is_not_space c : is_digit c = true -> Ascii.eqb " " c = false.
Proof.
  intros D. destruct (Ascii.eqb " " c) eqn:E; [| reflexivity].
  apply Ascii.eqb_eq in E. subst c. discriminate.
Qed.

(** What the pattern captures is what [frequency_parts] describes. *)
Lemma re_match_frequency s :
  re_match PIPELINE_FREQUENCY_RE s =
  match frequency_parts s with
  | Some (n, u) => Some [("number", n); ("unit", u)]
  | None => None
  end.
Proof.
  unfold re_match, PIPELINE_FREQUENCY_RE. cbn [rmatch].
  rewrite plus_match_span.
  rewrite (try_back_whole_run is_digit).
  2:{ apply span_all. }
  2:{ intros c x D. now rewrite (digit_is_not_space c D). }
  unfold frequency_parts.
  pose proof (span_app is_digit s) as ES.
  destruct (span is_digit s) as [a b]. simpl in ES. cbn [fst snd].
  destruct a as [| d ds]; [reflexivity |].
  destruct b as [| sp rest]; [reflexivity |].
  destruct (Ascii.eqb " " sp); [| reflexivity].
  rewrite plus_match_span.
  pose proof (span_app is_word rest) as ER.
  pose proof (span_stops is_word rest) as SR.
  rewrite (try_back_unit _ rest (fst (span is_word rest)) EmptyString
             (snd (span is_word rest)) ER (fun t1 => eq_refl) SR).
  destruct (fst (span is_word rest)) as [| c w']; [reflexivity |].
  destruct (longest_s w'); [| reflexivity].
  rewrite ES at 1. now rewrite consumed_app.
Qed.

(** [parse_period], through what the pattern captures. *)
Lemma parse_period_parts s :
  parse_period s =
  match frequency_parts s with
  | Some (n, u) => timedelta_kw u (int_of_string n)
  | None => Raise (ValueError ("'" ++ s ++ "' cannot be parsed as a period")%string)
  end.
Proof.
  unfold parse_period. rewrite re_match_frequency.
  now destruct (frequency_parts s) as [[n u] |].
Qed.

Lemma frequency_parts_digits s n u :
  frequency_parts s = Some (n, u) -> all_chars is_digit n = true.
Proof.
  unfold frequency_parts. pose proof (span_all is_digit s) as A.
  destruct (span is_digit s) as [[| d ds] [| sp rest]]; try discriminate.
  destruct (Ascii.eqb " " sp); [| discriminate].
  destruct (fst (span is_word rest)) as [| c w']; [discriminate |].
  destruct (longest_s w'); [| discriminate].
  intros E. injection E as <- <-. exact A.
Qed.

(** The pattern matches at the start of [s] exactly when some prefix of [s]
    is digits, a space, word characters and an s. *)
Lemma frequency_parts_prefix s :
  frequency_parts s <> None <-> has_frequency_prefix s.
Proof.
  split.
  - unfold frequency_parts.
    pose proof (span_app is_digit s) as ES.
    pose proof (span_all is_digit s) as AS.
    destruct (span is_digit s) as [[| d ds] [| sp rest]]; try congruence.
    destruct (Ascii.eqb " " sp) eqn:SP; [| congruence].
    apply Ascii.eqb_eq in SP. subst sp.
    pose proof (span_app is_word rest) as ER.
    pose proof (span_all is_word rest) as AR.
    destruct (fst (span is_word rest)) as [| c w']; [congruence |].
    destruct (longest_s w') as [u |] eqn:L; [| congruence].
    intros _. destruct (longest_s_shape _ _ L) as (u0 & y & -> & ->).
    exists (String d ds), (String c u0), (y ++ snd (span is_word rest))%string.
    simpl in ES, AS, AR. repeat split; try discriminate; auto.
    + rewrite ES. simpl. f_equal.
      rewrite ER at 1. simpl. f_equal.
      now rewrite !append_assoc.
    + apply andb_prop in AR as [Pc AR]. simpl. rewrite Pc. simpl.
      rewrite !all_chars_app in AR.
      apply andb_prop in AR as [AR _]. now apply andb_prop in AR as [AR _].
  - intros (n & u & rest & -> & Nn & An & Nu & Au).
    unfold frequency_parts.
    rewrite (span_unique is_digit n (" " ++ u ++ "s" ++ rest)%string An eq_refl).
    destruct n as [| d ds]; [congruence |].
    simpl.
    change (span is_word (u ++ String "s" rest))
      with (span is_word (u ++ ("s" ++ rest))).
    rewrite (span_prefix is_word u ("s" ++ rest)%string Au). cbn [fst].
    destruct u as [| c u']; [congruence |].
    simpl. destruct (span is_word rest) as [z b]. cbn [fst].
    pose proof (longest_s_finds u' z) as F. simpl in F.
    destruct (longest_s (u' ++ String "s" z)); congruence.
Qed.

Lemma int_digits_nonneg s :
  all_chars is_digit s = true -> forall acc, 0 <= acc -> 0 <= int_digits acc s.
Proof.
  induction s as [| c s IH]; cbn [int_digits all_chars]; intros A acc Hacc;
    [exact Hacc |].
  apply andb_prop in A as [D A]. apply IH; [exact A |].
  unfold is_digit in D. cbv zeta in D. apply andb_prop in D as [Lo _].
  apply Nat.leb_le in Lo. lia.
Qed.

Lemma unit_microseconds_pos u us : unit_microseconds u = Some us -> 0 < us.
Proof.
  unfold unit_microseconds, US_PER_DAY.
  repeat match goal with
         | |- context [if ?b then _ else _] => destruct b
         end; intros E; inversion E; lia.
Qed.

(** A parsed period is never negative: the pattern has no sign. *)
Lemma parse_period_nonneg s delta : parse_period s = Ret delta -> 0 <= delta.
Proof.
  rewrite parse_period_parts.
  destruct (frequency_parts s) as [[n u] |] eqn:F; [| discriminate].
  unfold timedelta_kw.
  destruct (unit_microseconds u) as [us |] eqn:U; [| discriminate].
  destruct (_ <=? _); [| discriminate].
  intros E. injection E as <-.
  pose proof (unit_microseconds_pos _ _ U).
  pose proof (int_digits_nonneg n (frequency_parts_digits _ _ _ F) 0 (Z.le_refl 0)).
  unfold int_of_string. nia.
Qed.

(** C6, as the code has it. The three documented periods parse to 15
    minutes, 3 hours and 1 day, and ["abc"] raises [ValueError].
    [parse_period] raises [ValueError] exactly when no prefix of the text is
    digits, one space, and word characters ending with s; what follows such
    a prefix is ignored.  When there is one, the result is that of
    [timedelta] on the captured unit and number: [TypeError] exactly when
    the unit is not a keyword of [timedelta], and otherwise the duration,
    or [OverflowError] beyond 999999999 days. *)
Theorem parse_period_accepts_prefix :
  parse_period "15 minutes" = Ret (15 * 60 * 1000000) /\
  parse_period "3 hours" = Ret (3 * 3600 * 1000000) /\
  parse_period "1 days" = Ret US_PER_DAY /\
  parse_period "abc" = Raise (ValueError "'abc' cannot be parsed as a period") /\
  (forall s, (exists msg, parse_period s = Raise (ValueError msg))
             <-> ~ has_frequency_prefix s) /\
  (forall s n u, frequency_parts s = Some (n, u) ->
                 parse_period s = timedelta_kw u (int_of_string n)) /\
  (forall u n, (exists msg, timedelta_kw u n = Raise (TypeError msg))
               <-> unit_microseconds u = None) /\
  (forall u n us, unit_microseconds u = Some us ->
                  timedelta_kw u n =
                  if Z.abs (n * us / US_PER_DAY) <=? TIMEDELTA_MAX_DAYS
                  then Ret (n * us)
                  else Raise (OverflowError "days must have magnitude <= 999999999")).
Proof.
  repeat split; try reflexivity.
  - intros (msg & E) Pre. apply frequency_parts_prefix in Pre.
    rewrite parse_period_parts in E.
    destruct (frequency_parts s) as [[n u] |]; [| congruence].
    unfold timedelta_kw in E.
    destruct (unit_microseconds u); [| discriminate].
    destruct (_ <=? _); discriminate.
  - intros NoPre. rewrite parse_period_parts.
    destruct (frequency_parts s) as [[n u] |] eqn:F.
    + exfalso. apply NoPre, frequency_parts_prefix. congruence.
    + eexists. reflexivity.
  - intros s n u F. rewrite parse_period_parts. now rewrite F.
  - intros (msg & E). unfold timedelta_kw in E.
    destruct (unit_microseconds u); [| reflexivity].
    destruct (_ <=? _); discriminate.
  - intros U. unfold timedelta_kw. rewrite U. eexists. reflexivity.
  - intros u n us U. unfold timedelta_kw. now rewrite U.
Qed.

(** C6, as worded, fails in both directions: text after a period is
    ignored, so a text that is not of the documented shape parses; and a
    text of the documented shape fails when the count is too large. *)
Lemma parse_period_shape_mismatch :
  documented_period_shape "15 minutes ago" = false /\
  parse_period "15 minutes ago" = Ret (15 * 60 * 1000000) /\
  documented_period_shape "1000000000 days" = true /\
  parse_period "1000000000 days"
  = Raise (OverflowError "days must have magnitude <= 999999999").
Proof. repeat split; reflexivity. Qed.

(** ** The loop of [adjusted_to_future] *)

Lemma datetime_add_in_range dt delta :
  0 <= dt + delta <= DATETIME_MAX -> datetime_add dt delta = Ret (dt + delta).
Proof.
  intros [Lo Hi]. unfold datetime_add.
  apply Z.leb_le in Lo, Hi. now rewrite Lo, Hi.
Qed.



Lemma while_past_zero_period fuel now dt :
  dt < now -> 0 <= dt <= DATETIME_MAX -> while_past fuel now 0 dt = OutOfFuel.
Proof.
  intros Past Range. induction fuel as [| fuel IH]; [reflexivity |].
  simpl. replace (dt <? now) with true by (symmetry; now apply Z.ltb_lt).
  rewrite datetime_add_in_range by lia. simpl.
  now rewrite Z.add_0_r.
Qed.

Lemma while_past_ends_when_positive now delta :
  0 < delta ->
  forall (n : nat) dt, now - dt <= Z.of_nat n ->
                       exists fuel, while_past fuel now delta dt <> OutOfFuel.
Proof.
  intros Hd. induction n as [| n IH]; intros dt Hn.
  - exists 1%nat. simpl.
    replace (dt <? now) with false by (symmetry; apply Z.ltb_ge; lia).
    discriminate.
  - destruct (dt <? now) eqn:C.
    + destruct (datetime_add dt delta) as [dt' | e | ] eqn:A.
      * assert (dt' = dt + delta) as ->.
        { unfold datetime_add in A. destruct (_ && _); now inversion A. }
        destruct (IH (dt + delta) ltac:(lia)) as (fuel & F).
        exists (S fuel). simpl. now rewrite C, A.
      * exists 1%nat. simpl. now rewrite C, A.
      * unfold datetime_add in A. now destruct (_ && _).
    + exists 1%nat. simpl. now rewrite C.
Qed.

Section Adjusting.

Context `{DatetimeCodec}.

Lemma adjusted_to_future_run fuel now timestamp period dt delta :
  strptime timestamp PIPELINE_DATETIME_FORMAT = Ret dt ->
  parse_period period = Ret delta ->
  adjusted_to_future fuel now (PStr timestamp) (PStr period)
  = (dt' <- while_past fuel now delta dt ;; strftime dt' PIPELINE_DATETIME_FORMAT).
Proof.
  intros T P. unfold adjusted_to_future. simpl. rewrite T. simpl. now rewrite P.
Qed.


(** C10. For a timestamp that parses to [dt] and a period that parses to
    [delta], some budget lets [adjusted_to_future] end (returning or
    raising) exactly when [delta] is positive or [dt] is not before [now];
    ["0 minutes"] parses, to the zero duration; and building a [Pipeline]
    from values with a past start and the period ["0 minutes"] ends under
    no budget. *)
Theorem zero_period_never_returns {R : Type} now timestamp period dt delta :
  strptime timestamp PIPELINE_DATETIME_FORMAT = Ret dt ->
  parse_period period = Ret delta ->
  0 <= dt <= DATETIME_MAX ->
  ((exists fuel,
       adjusted_to_future fuel now (PStr timestamp) (PStr period) <> OutOfFuel)
   <-> (0 < delta \/ now <= dt)) /\
  parse_period "0 minutes" = Ret 0 /\
  (dt < now ->
   forall md vs template dirpath (r : R) fuel,
     assoc "myStartDateTime" vs = Some (PStr timestamp) ->
     assoc "mySchedulePeriod" vs = Some (PStr "0 minutes") ->
     Pipeline_init fuel now (PDict template) dirpath
       (PDict [("metadata", PDict md); ("values", PDict vs)]) r
     = (OutOfFuel, r, [])).
Proof.
  intros T P Range. repeat split.
  - intros (fuel & Ends).
    rewrite (adjusted_to_future_run _ _ _ _ _ _ T P) in Ends.
    destruct (Z_lt_le_dec 0 delta) as [Pos | NonPos]; [now left |].
    destruct (Z_lt_le_dec dt now) as [Past | Fut]; [| now right].
    exfalso. apply Ends.
    assert (delta = 0) as -> by (apply parse_period_nonneg in P; lia).
    now rewrite while_past_zero_period.
  - intros [Pos | Fut].
    + destruct (while_past_ends_when_positive now delta Pos
                  (Z.to_nat (now - dt)) dt ltac:(lia)) as (fuel & Ends).
      exists fuel. rewrite (adjusted_to_future_run _ _ _ _ _ _ T P).
      destruct (while_past fuel now delta dt) as [dt' | e | ]; simpl;
        [apply strftime_total | discriminate | congruence].
    + exists 1%nat. rewrite (adjusted_to_future_run _ _ _ _ _ _ T P). simpl.
      replace (dt <? now) with false by (symmetry; apply Z.ltb_ge; lia).
      simpl. apply strftime_total.
  - intros Past md vs template dirpath r fuel Start Period.
    unfold Pipeline_init, mbind, lift. simpl. rewrite Start, Period.
    destruct (assoc "name" md); destruct (assoc "description" md);
      rewrite (adjusted_to_future_run fuel now timestamp "0 minutes" dt 0 T eq_refl);
      now rewrite while_past_zero_period.
Qed.

End Adjusting.



Lemma zero_period_never_returns_witness :
  parse_period "0 minutes" = Ret 0 /\
  (forall fuel,
      Pipeline_init fuel (instant "2026-01-10T12:00:00") hourly_copy
        "pipelines/nightly"
        (PDict [("metadata", PDict [("name", PStr "nightly")]);
                ("values", PDict [("myStartDateTime", PStr "2026-01-01T00:00:00");
                                  ("mySchedulePeriod", PStr "0 minutes")])])
        no_pipelines
      = (OutOfFuel, no_pipelines, [])).
Proof.
  split; [reflexivity |]. intros fuel.
  pose proof (@zero_period_never_returns seconds_codec service
                (instant "2026-01-10T12:00:00")
                "2026-01-01T00:00:00" "0 minutes"
                (instant "2026-01-01T00:00:00") 0
                eq_refl eq_refl ltac:(split; discriminate))
    as (_ & _ & Diverges).
  now apply Diverges.
Defined.

(** ** [fetch_field_value] *)

Lemma scan_fields_absent field_name containers :
  Forall (fun c => exists items key,
              c = PDict items /\ assoc "key" items = Some key /\
              py_eqb key (PStr field_name) = false) containers ->
  scan_fields field_name containers = Ret None.
Proof.
  induction 1 as [| c cs (items & key & -> & K & Ne) _ IH]; [reflexivity |].
  simpl. rewrite K. simpl. now rewrite Ne.
Qed.

(** C9, where the code departs from it. On a response whose ['fields']
    list has no entry under the requested key, [fetch_field_value] raises
    [NameError]: the message of the [ValueError] it means to raise reads
    the name [response], which is bound nowhere. *)
Theorem fetch_field_value_missing_raises_NameError d containers field_name :
  assoc "fields" d = Some (PList containers) ->
  Forall (fun c => exists items key,
              c = PDict items /\ assoc "key" items = Some key /\
              py_eqb key (PStr field_name) = false) containers ->
  fetch_field_value (PDict d) field_name = Raise (NameError "response") /\
  forall msg, fetch_field_value (PDict d) field_name <> Raise (ValueError msg).
Proof.
  intros F Absent.
  assert (E : fetch_field_value (PDict d) field_name = Raise (NameError "response")).
  { unfold fetch_field_value. simpl. rewrite F. simpl.
    now rewrite (scan_fields_absent _ _ Absent). }
  split; [exact E |]. intros msg. rewrite E. discriminate.
Qed.

Lemma fetch_field_value_missing_raises_NameError_witness :
  fetch_field_value
    (PDict [("pipelineId", PStr "df-0001");
            ("fields", PList [PDict [("key", PStr "uniqueId");
                                     ("stringValue", PStr "unique_id")]])])
    "@pipelineState"
  = Raise (NameError "response").
Proof.
  apply (fetch_field_value_missing_raises_NameError
           [("pipelineId", PStr "df-0001");
            ("fields", PList [PDict [("key", PStr "uniqueId");
                                     ("stringValue", PStr "unique_id")]])]
           [PDict [("key", PStr "uniqueId"); ("stringValue", PStr "unique_id")]]
           "@pipelineState" eq_refl).
  constructor; [| constructor].
  exists [("key", PStr "uniqueId"); ("stringValue", PStr "unique_id")], (PStr "uniqueId").
  repeat split.
Defined.

(** The other half of C9: when the first entry under the requested key has
    an item besides ['key'], the value of the first such item is returned. *)
Lemma fetch_field_value_present d before items after key v field_name :
  assoc "fields" d = Some (PList (before ++ PDict items :: after)) ->
  Forall (fun c => exists items key,
              c = PDict items /\ assoc "key" items = Some key /\
              py_eqb key (PStr field_name) = false) before ->
  assoc "key" items = Some key ->
  py_eqb key (PStr field_name) = true ->
  first_non_key items = Some v ->
  fetch_field_value (PDict d) field_name = Ret v.
Proof.
  intros F Absent K E V. unfold fetch_field_value. simpl. rewrite F. simpl.
  clear F.
  assert (S : scan_fields field_name (before ++ PDict items :: after) = Ret (Some v)).
  { induction Absent as [| c cs (items' & key' & -> & K' & Ne) _ IH].
    - simpl. rewrite K. simpl. now rewrite E, V.
    - simpl. rewrite K'. simpl. now rewrite Ne. }
  now rewrite S.
Qed.

(** The doctest of [fetch_field_value]. *)
Example fetch_field_value_doctest :
  fetch_field_value
    (PDict [("fields", PList [PDict [("key", PStr "someKey");
                                     ("stringValue", PStr "someValue")]])])
    "someKey"
  = Ret (PStr "someValue").
Proof. reflexivity. Qed.

(** ** The unique id of a [Pipeline] *)

Lemma mbind_ret_inv {R A B : Type} (m : M R A) (f : A -> M R B) r b r2 evs :
  mbind m f r = (Ret b, r2, evs) ->
  exists a r1 evs1 evs2,
    m r = (Ret a, r1, evs1) /\ f a r1 = (Ret b, r2, evs2) /\ evs = evs1 ++ evs2.
Proof.
  unfold mbind.
  destruct (m r) as [[[a | e | ] r1] evs1]; try discriminate.
  destruct (f a r1) as [[o r3] evs2] eqn:F.
  intros E. injection E as -> -> <-.
  now exists a, r1, evs1, evs2.
Qed.

Section UniqueId.

Context {R : Type} `{DataPipelineConnection R} `{DatetimeCodec}.

(** C8, as the code has it. Every [Pipeline] that [__init__] builds has
    the unique id ['unique_id'], whatever its directory, template and
    values; its [create] passes this literal to the service, so that two
    pipelines differ in that call by name and description only. *)
Theorem unique_id_is_one_literal
  fuel now template dirpath decoded (r r' : R) evs self :
  Pipeline_init fuel now template dirpath decoded r = (Ret self, r', evs) ->
  unique_id self = PStr "unique_id" /\
  forall r0 : R,
    snd (Pipeline_create self r0)
    = [CreatePipeline (name self) (PStr "unique_id") (description self)].
Proof.
  intros Init. unfold Pipeline_init in Init.
  repeat (apply mbind_ret_inv in Init;
          destruct Init as (? & ? & ? & ? & _ & Init & _)).
  unfold mret in Init. injection Init as <- _ _.
  split; [reflexivity |]. intros r0. now rewrite Pipeline_create_run.
Qed.

End UniqueId.

Lemma unique_id_is_one_literal_witness :
  unique_id nightly = PStr "unique_id" /\
  forall r0 : service,
    snd (Pipeline_create nightly r0)
    = [CreatePipeline (name nightly) (PStr "unique_id") (description nightly)].
Proof.
  exact (unique_id_is_one_literal 2 (instant "2025-12-25T00:00:00") hourly_copy
           "pipelines/nightly" nightly_values no_pipelines no_pipelines
           [Printed [values nightly]] nightly eq_refl).
Defined.

(** C8, as worded, fails: two pipelines built from two directories, with
    two names and two sets of values, pass the same unique id to create. *)
Lemma distinct_pipelines_share_unique_id :
  Pipeline_init 2 (instant "2025-12-25T00:00:00") hourly_copy
    "pipelines/nightly" nightly_values no_pipelines
  = (Ret nightly, no_pipelines, [Printed [values nightly]]) /\
  Pipeline_init 2 (instant "2025-12-25T00:00:00") hourly_copy
    "pipelines/hourly" hourly_values no_pipelines
  = (Ret hourly, no_pipelines, [Printed [values hourly]]) /\
  py_eqb (name nightly) (name hourly) = false /\
  py_eqb (values nightly) (values hourly) = false /\
  snd (Pipeline_create nightly no_pipelines)
  = [CreatePipeline (PStr "nightly") (PStr "unique_id") PNone] /\
  snd (Pipeline_create hourly no_pipelines)
  = [CreatePipeline (PStr "hourly") (PStr "unique_id") PNone].
Proof. repeat split; reflexivity. Qed.

(** ** [Pipelayer.activate] *)

Section Emits.

Context {R : Type}.

Lemma emits_mret {A : Type} P (a : A) : emits P (mret (R := R) a).
Proof. intros r. reflexivity. Qed.

Lemma emits_lift {A : Type} P (x : outcome A) : emits P (lift (R := R) x).
Proof. intros r. reflexivity. Qed.

Lemma emits_emit P e : P e = true -> emits P (emit (R := R) e).
Proof. intros Pe r. simpl. now rewrite Pe. Qed.

Lemma emits_call P e (op : R -> pyval * R) : P e = true -> emits P (call e op).
Proof. intros Pe r. unfold call. destruct (op r). simpl. now rewrite Pe. Qed.

Lemma emits_mbind {A B : Type} P (m : M R A) (f : A -> M R B) :
  emits P m -> (forall a, emits P (f a)) -> emits P (mbind m f).
Proof.
  intros Pm Pf r. unfold mbind. specialize (Pm r).
  destruct (m r) as [[[a | e | ] r1] evs]; simpl in *; auto.
  specialize (Pf a r1). destruct (f a r1) as [[o r2] evs2]. simpl in *.
  rewrite forallb_app. now rewrite Pm, Pf.
Qed.

Lemma emits_for_each {A : Type} P (xs : list A) (body : A -> M R unit) :
  (forall x, emits P (body x)) -> emits P (for_each xs body).
Proof.
  intros Pb. induction xs as [| x xs IH]; simpl.
  - apply emits_mret.
  - apply emits_mbind; auto.
Qed.

Lemma emits_list_comp {A B : Type} P (xs : list A) (f : A -> M R B) :
  (forall x, emits P (f x)) -> emits P (list_comp xs f).
Proof.
  intros Pf. induction xs as [| x xs IH]; simpl.
  - apply emits_mret.
  - apply emits_mbind; auto. intros y.
    apply emits_mbind; auto. intros ys. apply emits_mret.
Qed.

End Emits.

Section Batch.

Context {R : Type} `{DataPipelineConnection R} `{Translator}.

Lemma log_containers_emits lvl header field inner response :
  emits validation_only (log_containers (R := R) lvl header field inner response).
Proof.
  unfold log_containers.
  apply emits_mbind; [apply emits_lift |]. intros containers.
  apply emits_for_each. intros container.
  apply emits_mbind; [apply emits_lift |]. intros id.
  apply emits_mbind; [now apply emits_emit |]. intros _.
  apply emits_mbind; [apply emits_lift |]. intros messages.
  apply emits_for_each. intros message. now apply emits_emit.
Qed.

(** [is_valid] calls the service on the stub and for the dry run only. *)
Lemma is_valid_emits self : emits validation_only (is_valid (R := R) self).
Proof.
  unfold is_valid.
  apply emits_mbind; [now apply emits_call |]. intros response.
  apply emits_mbind; [apply emits_lift |]. intros id.
  apply emits_mbind; [now apply emits_call |]. intros response'.
  apply emits_mbind.
  - unfold log_validation_messages.
    apply emits_mbind; [apply log_containers_emits |]. intros _.
    apply log_containers_emits.
  - intros _. apply emits_mbind; [apply emits_lift |]. intros errored.
    apply emits_mret.
Qed.

Lemma are_pipelines_valid_emits self :
  emits validation_only (are_pipelines_valid (R := R) self).
Proof.
  unfold are_pipelines_valid.
  apply emits_mbind; [| intros; apply emits_mret].
  apply emits_list_comp. intros p. apply is_valid_emits.
Qed.

(** Every run of [Pipeline.activate] that is allowed at least one call
    starts by calling create with the pipeline's own name and unique id. *)
Lemma Pipeline_activate_starts_with_create depth self (r : R) :
  exists rest,
    snd (Pipeline_activate (S depth) self r)
    = CreatePipeline (name self) (unique_id self) (description self) :: rest.
Proof.
  rewrite Pipeline_activate_unfold. unfold mbind.
  rewrite remote_view_run. cbv zeta.
  destruct (py_getitem _ "pipelineId") as [id | e | ]; simpl; eauto.
  destruct (state_of_response _) as [st | e | ]; simpl; eauto.
  match goal with
  | |- context [let (_, _) := ?x in _] => destruct x as [[o r2] evs2]
  end.
  simpl. eauto.
Qed.

(** The loop over the pipelines returns exactly when [activate] returns on
    each of them in turn. *)
Lemma activate_each_in_turn depth ps (r r' : R) evs :
  activate_each depth ps r = (Ret tt, r', evs) <->
  activated_in_turn depth ps r evs r'.
Proof.
  split.
  - revert r evs. induction ps as [| p ps IH]; intros r evs Run.
    + injection Run as <- <-. constructor.
    + unfold activate_each in Run. simpl in Run.
      apply mbind_ret_inv in Run as ([] & r1 & evs1 & evs2 & One & Rest & ->).
      apply mbind_ret_inv in One as (v & r0 & e1 & e2 & Act & Unit & ->).
      injection Unit as <- <-. rewrite app_nil_r.
      econstructor; [exact Act | now apply IH].
  - induction 1 as [r | p ps r v r1 evs1 evs2 r2 Act _ IH]; [reflexivity |].
    unfold activate_each in *. simpl.
    rewrite (mbind_returns _ _ r tt r1 evs1).
    + rewrite IH. reflexivity.
    + rewrite (mbind_returns _ _ r v r1 evs1 Act). simpl. now rewrite app_nil_r.
Qed.

(** C7. If [are_pipelines_valid] answers [False], [Pipelayer.activate] logs
    one error and returns [False]: what it has emitted is what the
    validation emitted and that record, so its only calls are creates of
    the stub and dry runs, none of them from a [Pipeline.activate] (which
    would start with a create under the pipeline's own name and unique id). If it answers [True] and [activate] returns for
    each pipeline in turn, [Pipelayer.activate] is the validation followed
    by these runs, one for every pipeline, in the order of the collection. *)
Theorem Pipelayer_activate_is_gated depth self (r r1 : R) valid evs :
  are_pipelines_valid self r = (Ret valid, r1, evs) ->
  forallb validation_only evs = true /\
  (valid = false ->
   Pipelayer_activate depth self r
   = (Ret (PBool false), r1,
      evs ++ [Logging ERROR
                (PStr "Not activating pipelines due to validation errors.") []]) /\
   forallb validation_only (snd (Pipelayer_activate depth self r)) = true /\
   count is_put (snd (Pipelayer_activate depth self r)) = 0%nat /\
   count is_activate (snd (Pipelayer_activate depth self r)) = 0%nat /\
   count is_delete (snd (Pipelayer_activate depth self r)) = 0%nat) /\
  (valid = true ->
   forall evs2 r2,
     activated_in_turn depth (pipeline_values self) r1 evs2 r2 ->
     Pipelayer_activate depth self r = (Ret PNone, r2, evs ++ evs2)).
Proof.
  intros V.
  assert (VO : forallb validation_only evs = true).
  { pose proof (are_pipelines_valid_emits self r) as E. now rewrite V in E. }
  split; [exact VO |]. split.
  - intros ->.
    assert (Run : Pipelayer_activate depth self r
                  = (Ret (PBool false), r1,
                     evs ++ [Logging ERROR
                               (PStr "Not activating pipelines due to validation errors.")
                               []])).
    { unfold Pipelayer_activate. now rewrite (mbind_returns _ _ _ _ _ _ V). }
    split; [exact Run |]. rewrite Run. cbn [snd].
    split; [now rewrite forallb_app, VO |].
    assert (Z : forall f, (forall e, validation_only e = true -> f e = false) ->
                          count f evs = 0%nat).
    { intros f Hf. clear V Run. unfold count.
      induction evs as [| e es IH]; [reflexivity |].
      simpl in VO. apply andb_prop in VO as [Ve Ves].
      simpl. rewrite (Hf e Ve). now apply IH. }
    rewrite !count_app, (Z is_put), (Z is_activate), (Z is_delete);
      try (now intros []); repeat split.
  - intros -> evs2 r2 Turn. apply activate_each_in_turn in Turn.
    unfold Pipelayer_activate. rewrite (mbind_returns _ _ _ _ _ _ V). simpl.
    rewrite (mbind_returns _ _ _ _ _ _ Turn). simpl. now rewrite app_nil_r.
Qed.

End Batch.

(** ** [Pipelayer.activate] on the simulated service *)

Lemma Pipelayer_activate_is_gated_witness :
  (Pipelayer_activate 1 unsound_set no_pipelines
   = (Ret (PBool false),
      snd (fst (are_pipelines_valid unsound_set no_pipelines)),
      snd (are_pipelines_valid unsound_set no_pipelines)
      ++ [Logging ERROR
            (PStr "Not activating pipelines due to validation errors.") []]) /\
   forallb validation_only (snd (Pipelayer_activate 1 unsound_set no_pipelines))
   = true /\
   count is_put (snd (Pipelayer_activate 1 unsound_set no_pipelines)) = 0%nat /\
   count is_activate (snd (Pipelayer_activate 1 unsound_set no_pipelines)) = 0%nat /\
   count is_delete (snd (Pipelayer_activate 1 unsound_set no_pipelines)) = 0%nat) /\
  (exists evs2 r2,
      activated_in_turn 1 [nightly; hourly]
        (snd (fst (are_pipelines_valid sound_set no_pipelines))) evs2 r2 /\
      Pipelayer_activate 1 sound_set no_pipelines
      = (Ret PNone, r2, snd (are_pipelines_valid sound_set no_pipelines) ++ evs2) /\
      count is_activate evs2 = 2%nat).
Proof.
  split.
  - exact (proj1 (proj2 (Pipelayer_activate_is_gated 1 unsound_set no_pipelines
                           (snd (fst (are_pipelines_valid unsound_set no_pipelines)))
                           false
                           (snd (are_pipelines_valid unsound_set no_pipelines))
                           eq_refl))
                 eq_refl).
  - assert (Turn : { evs2 : list event & { r2 : service |
               activated_in_turn 1 [nightly; hourly]
                 (snd (fst (are_pipelines_valid sound_set no_pipelines))) evs2 r2 /\
               count is_activate evs2 = 2%nat } }).
    { eexists. eexists. split.
      - eapply in_turn_cons; [reflexivity |].
        eapply in_turn_cons; [reflexivity |].
        apply in_turn_nil.
      - reflexivity. }
    destruct Turn as (evs2 & r2 & Turn & Two).
    exists evs2, r2. split; [exact Turn |]. split; [| exact Two].
    exact (proj2 (proj2 (Pipelayer_activate_is_gated 1 sound_set no_pipelines
                           (snd (fst (are_pipelines_valid sound_set no_pipelines)))
                           true
                           (snd (are_pipelines_valid sound_set no_pipelines))
                           eq_refl))
                 eq_refl evs2 r2 Turn).
Defined.

Lemma parse_period_accepts_prefix_witness :
  parse_period "3 hoursx" = Ret (3 * 3600 * 1000000) /\
  (exists msg, parse_period "12 months" = Raise (TypeError msg)) /\
  (exists msg, parse_period "12  days" = Raise (ValueError msg)).
Proof.
  destruct parse_period_accepts_prefix
    as (_ & _ & _ & _ & Shape & Parts & Unsupported & _).
  split; [| split].
  - now rewrite (Parts "3 hoursx" "3" "hours" eq_refl).
  - rewrite (Parts "12 months" "12" "months" eq_refl).
    now apply Unsupported.
  - apply Shape. intros Pre. apply frequency_parts_prefix in Pre. now apply Pre.
Defined.

(** ** Budgets

    A run that ends within a budget ends the same way within any larger
    one: the budgets of the model bound how far a run is followed, and
    change nothing of what it does. *)

Lemma while_past_more_fuel fuel now delta dt o :
  while_past fuel now delta dt = o -> o <> OutOfFuel ->
  forall extra, while_past (fuel + extra) now delta dt = o.
Proof.
  revert dt. induction fuel as [| fuel IH]; intros dt Run Ends extra.
  - simpl in Run. congruence.
  - simpl in *. destruct (dt <? now); [| exact Run].
    destruct (datetime_add dt delta) as [dt' | e | ]; simpl in *; auto.
Qed.

Section Depth.

Context {R : Type} `{DataPipelineConnection R} `{Translator}.

Lemma Pipeline_activate_more_depth depth self :
  forall (r : R) o r' evs,
    Pipeline_activate depth self r = (o, r', evs) -> o <> OutOfFuel ->
    forall extra, Pipeline_activate (depth + extra) self r = (o, r', evs).
Proof.
  induction depth as [| depth IH]; intros r o r' evs Run Ends extra.
  - injection Run as <- _ _. congruence.
  - change (S depth + extra)%nat with (S (depth + extra)).
    rewrite Pipeline_activate_unfold in *. unfold mbind in *.
    destruct (remote_view self r) as [[[[[id ex] st] | e | ] r1] evs1];
      try exact Run.
    unfold after_view in *.
    destruct (py_eqb ex (definition self)); [exact Run |].
    destruct (negb (py_eqb st (PStr "PENDING"))); [| exact Run].
    unfold mbind, emit, call in *.
    destruct (delete_pipeline id r1) as [v2 r2]. cbn [app] in *.
    destruct (Pipeline_activate depth self r2) as [[o3 r3] evs3] eqn:Inner.
    assert (o3 <> OutOfFuel) as Ends3.
    { intros ->. injection Run as <- _ _. congruence. }
    now rewrite (IH r2 o3 r3 evs3 Inner Ends3 extra).
Qed.

End Depth.

Lemma Pipeline_activate_more_depth_witness :
  fst (fst (Pipeline_activate (2 + 5) nightly
              (registered "SCHEDULED" empty_definition true)))
  = Ret PNone.
Proof.
  destruct (Pipeline_activate 2 nightly
              (registered "SCHEDULED" empty_definition true))
    as [[o r'] evs] eqn:E.
  pose proof E as E'. vm_compute in E'. injection E' as <- _ _.
  now rewrite (Pipeline_activate_more_depth 2 nightly _ _ _ _ E
                 ltac:(discriminate) 5%nat).
Defined.

(** ** The doctests *)

(** The doctest of [adjusted_to_future]: a start in 2199 is returned as it
    is, on every day before. *)
Lemma adjusted_to_future_doctest now fuel :
  now <= instant "2199-01-01T00:00:00" ->
  adjusted_to_future (S fuel) now (PStr "2199-01-01T00:00:00") (PStr "1 days")
  = Ret "2199-01-01T00:00:00".
Proof.
  intros Before.
  assert (T : strptime "2199-01-01T00:00:00" PIPELINE_DATETIME_FORMAT
              = Ret (instant "2199-01-01T00:00:00")) by reflexivity.
  assert (P : parse_period "1 days" = Ret US_PER_DAY) by reflexivity.
  rewrite (adjusted_to_future_run (S fuel) now _ _ _ _ T P).
  simpl while_past.
  replace (instant "2199-01-01T00:00:00" <? now) with false
    by (symmetry; apply Z.ltb_ge; exact Before).
  reflexivity.
Qed.

Lemma adjusted_to_future_doctest_witness :
  adjusted_to_future 1 (instant "2026-11-04T09:30:00")
    (PStr "2199-01-01T00:00:00") (PStr "1 days")
  = Ret "2199-01-01T00:00:00".
Proof.
  apply (adjusted_to_future_doctest (instant "2026-11-04T09:30:00") 0).
  discriminate.
Defined.

Lemma fetch_field_value_present_witness :
  fetch_field_value
    (describe_entity {| entity_id := PStr "df-0001"; entity_name := PStr "nightly";
                        entity_unique_id := PStr "unique_id";
                        entity_state := "PENDING";
                        entity_definition := empty_definition |})
    "@pipelineState"
  = Ret (PStr "PENDING").
Proof.
  apply (fetch_field_value_present
           [("pipelineId", PStr "df-0001"); ("name", PStr "nightly");
            ("fields",
             PList [PDict [("key", PStr "uniqueId");
                           ("stringValue", PStr "unique_id")];
                    PDict [("key", PStr "@pipelineState");
                           ("stringValue", PStr "PENDING")]])]
           [PDict [("key", PStr "uniqueId"); ("stringValue", PStr "unique_id")]]
           [("key", PStr "@pipelineState"); ("stringValue", PStr "PENDING")]
           [] (PStr "@pipelineState") (PStr "PENDING") "@pipelineState" eq_refl);
    try reflexivity.
  constructor; [| constructor].
  exists [("key", PStr "uniqueId"); ("stringValue", PStr "unique_id")], (PStr "uniqueId").
  repeat split.
Defined.

(** ** More on [parse_period] *)

Lemma unit_microseconds_cases u us :
  unit_microseconds u = Some us ->
  u = "days" \/ u = "seconds" \/ u = "microseconds" \/ u = "milliseconds" \/
  u = "minutes" \/ u = "hours" \/ u = "weeks".
Proof.
  unfold unit_microseconds.
  repeat match goal with
         | |- context [String.eqb u ?x] => destruct (String.eqb_spec u x); [tauto |]
         end.
  discriminate.
Qed.

Lemma frequency_parts_of_period n u us :
  n <> EmptyString -> all_chars is_digit n = true ->
  unit_microseconds u = Some us ->
  frequency_parts (n ++ " " ++ u) = Some (n, u).
Proof.
  intros Nn An U. unfold frequency_parts.
  rewrite (span_unique is_digit n (" " ++ u)%string An eq_refl).
  destruct n as [| d ds]; [congruence |]. simpl.
  destruct (unit_microseconds_cases u us U)
    as [-> | [-> | [-> | [-> | [-> | [-> | ->]]]]]]; reflexivity.
Qed.

(** A count written in digits, one space and any of the seven keywords of
    [timedelta] parse to that many units, leading zeros included, as long
    as the duration is within 999999999 days. *)
Theorem parse_period_every_unit n u us :
  n <> EmptyString -> all_chars is_digit n = true ->
  unit_microseconds u = Some us ->
  int_of_string n * us / US_PER_DAY <= TIMEDELTA_MAX_DAYS ->
  parse_period (n ++ " " ++ u) = Ret (int_of_string n * us).
Proof.
  intros Nn An U Small.
  rewrite parse_period_parts, (frequency_parts_of_period n u us Nn An U).
  unfold timedelta_kw. rewrite U.
  pose proof (unit_microseconds_pos _ _ U) as Pos.
  pose proof (int_digits_nonneg n An 0 (Z.le_refl 0)) as NonNeg.
  fold (int_of_string n) in NonNeg.
  assert (0 <= int_of_string n * us / US_PER_DAY).
  { apply Z.div_pos; [nia | reflexivity]. }
  replace (Z.abs _ <=? TIMEDELTA_MAX_DAYS) with true; [reflexivity |].
  symmetry. apply Z.leb_le. rewrite Z.abs_eq; assumption.
Qed.

Lemma parse_period_every_unit_witness :
  parse_period "007 weeks" = Ret (7 * (7 * US_PER_DAY)).
Proof.
  exact (parse_period_every_unit "007" "weeks" (7 * US_PER_DAY)
           ltac:(discriminate) eq_refl eq_refl ltac:(discriminate)).
Defined.

(** A text that is empty or starts with anything but a digit, a sign or
    a blank included, raises [ValueError], with the text in the message. *)
Theorem parse_period_needs_leading_digit s :
  (forall c s', s = String c s' -> is_digit c = false) ->
  parse_period s
  = Raise (ValueError ("'" ++ s ++ "' cannot be parsed as a period")%string).
Proof.
  intros NoDigit. rewrite parse_period_parts.
  replace (frequency_parts s) with (@None (string * string)); [reflexivity |].
  unfold frequency_parts. destruct s as [| c s']; [reflexivity |].
  simpl. now rewrite (NoDigit c s' eq_refl).
Qed.

Lemma parse_period_needs_leading_digit_witness :
  parse_period "-5 days" = Raise (ValueError "'-5 days' cannot be parsed as a period").
Proof.
  apply (parse_period_needs_leading_digit "-5 days").
  intros c s' E. injection E as <- _. reflexivity.
Defined.

(** ** More on [fetch_field_value] *)

Lemma scan_fields_skips_bare field_name before key after :
  scan_fields field_name (before ++ PDict [("key", key)] :: after)
  = scan_fields field_name (before ++ after).
Proof.
  induction before as [| c cs IH]; simpl.
  - now destruct (py_eqb key (PStr field_name)).
  - destruct (py_getitem c "key") as [k | e | ]; simpl; try reflexivity.
    destruct (py_eqb k (PStr field_name)); [| exact IH].
    destruct (py_items c) as [items | e | ]; simpl; try reflexivity.
    now destruct (first_non_key items).
Qed.

(** An entry that has nothing but its ['key'] is passed over, whether or
    not the key is the requested one: the result is that of the response
    without the entry. *)
Theorem fetch_field_value_skips_bare_entry d d' before key after field_name :
  assoc "fields" d = Some (PList (before ++ PDict [("key", key)] :: after)) ->
  assoc "fields" d' = Some (PList (before ++ after)) ->
  fetch_field_value (PDict d) field_name = fetch_field_value (PDict d') field_name.
Proof.
  intros F F'. unfold fetch_field_value. simpl. rewrite F, F'. simpl.
  now rewrite scan_fields_skips_bare.
Qed.

Lemma fetch_field_value_skips_bare_entry_witness :
  fetch_field_value
    (PDict [("fields", PList [PDict [("key", PStr "@pipelineState")];
                              PDict [("key", PStr "@pipelineState");
                                     ("stringValue", PStr "PENDING")]])])
    "@pipelineState"
  = Ret (PStr "PENDING").
Proof.
  rewrite (fetch_field_value_skips_bare_entry
             [("fields", PList [PDict [("key", PStr "@pipelineState")];
                                PDict [("key", PStr "@pipelineState");
                                       ("stringValue", PStr "PENDING")]])]
             [("fields", PList [PDict [("key", PStr "@pipelineState");
                                       ("stringValue", PStr "PENDING")]])]
             [] (PStr "@pipelineState")
             [PDict [("key", PStr "@pipelineState");
                     ("stringValue", PStr "PENDING")]]
             "@pipelineState" eq_refl eq_refl).
  reflexivity.
Defined.

(** A response without ['fields'] raises [KeyError] for that key, and so
    does, for ['key'], an entry without a key that is reached before an
    entry under the requested one. *)
Theorem fetch_field_value_malformed d field_name :
  (assoc "fields" d = None ->
   fetch_field_value (PDict d) field_name = Raise (KeyError "fields")) /\
  (forall before items after,
      assoc "fields" d = Some (PList (before ++ PDict items :: after)) ->
      Forall (fun c => exists items key,
                  c = PDict items /\ assoc "key" items = Some key /\
                  py_eqb key (PStr field_name) = false) before ->
      assoc "key" items = None ->
      fetch_field_value (PDict d) field_name = Raise (KeyError "key")).
Proof.
  split.
  - intros F. unfold fetch_field_value. simpl. now rewrite F.
  - intros before items after F Absent K.
    unfold fetch_field_value. simpl. rewrite F. simpl. clear F.
    assert (S : scan_fields field_name (before ++ PDict items :: after)
                = Raise (KeyError "key")).
    { induction Absent as [| c cs (items' & key' & -> & K' & Ne) _ IH].
      - simpl. now rewrite K.
      - simpl. rewrite K'. simpl. now rewrite Ne. }
    now rewrite S.
Qed.

Lemma fetch_field_value_malformed_witness :
  fetch_field_value (PDict [("pipelineId", PStr "df-0001")]) "@pipelineState"
  = Raise (KeyError "fields") /\
  fetch_field_value
    (PDict [("fields", PList [PDict [("stringValue", PStr "PENDING")]])])
    "@pipelineState"
  = Raise (KeyError "key").
Proof.
  split.
  - exact (proj1 (fetch_field_value_malformed
                    [("pipelineId", PStr "df-0001")] "@pipelineState") eq_refl).
  - exact (proj2 (fetch_field_value_malformed
                    [("fields", PList [PDict [("stringValue", PStr "PENDING")]])]
                    "@pipelineState")
                 [] [("stringValue", PStr "PENDING")] [] eq_refl
                 (Forall_nil _) eq_refl).
Defined.

(** ** More on [Pipeline.__init__] *)

Lemma assoc_set_same k v items : assoc k (assoc_set k v items) = Some v.
Proof.
  induction items as [| [k' v'] rest IH]; simpl.
  - now rewrite String.eqb_refl.
  - destruct (String.eqb k k') eqn:E; simpl.
    + now rewrite String.eqb_refl.
    + now rewrite E.
Qed.

Lemma assoc_set_other k k' v items :
  k' <> k -> assoc k' (assoc_set k v items) = assoc k' items.
Proof.
  intros Ne. induction items as [| [k0 v0] rest IH]; simpl.
  - destruct (String.eqb_spec k' k); [contradiction | reflexivity].
  - destruct (String.eqb_spec k k0) as [<- | Nk]; simpl.
    + destruct (String.eqb_spec k' k); [contradiction | reflexivity].
    + now rewrite IH.
Qed.

Lemma assoc_set_length_present k v v' items :
  assoc k items = Some v' ->
  List.length (assoc_set k v items) = List.length items.
Proof.
  induction items as [| [k0 v0] rest IH]; cbn [assoc assoc_set]; [discriminate |].
  destruct (String.eqb k k0); cbn [List.length]; [reflexivity |].
  intros A. f_equal. now apply IH.
Qed.

(** When the loop returns, it returns an instant that is not before [now]
    and that is the start plus a whole number of periods. *)
Lemma while_past_returns fuel now delta :
  forall dt dt',
    while_past fuel now delta dt = Ret dt' ->
    now <= dt' /\ exists k : nat, dt' = dt + Z.of_nat k * delta.
Proof.
  induction fuel as [| fuel IH]; intros dt dt' Run; [discriminate |].
  simpl in Run. destruct (dt <? now) eqn:C.
  - destruct (datetime_add dt delta) as [dt1 | e | ] eqn:A; try discriminate.
    assert (dt1 = dt + delta) as ->.
    { unfold datetime_add in A. destruct (_ && _); now inversion A. }
    destruct (IH _ _ Run) as (Ge & k & ->).
    split; [exact Ge |]. exists (S k). lia.
  - injection Run as <-. apply Z.ltb_ge in C. split; [exact C |].
    exists 0%nat. lia.
Qed.

Lemma obind_ret_inv {A B : Type} (x : outcome A) (f : A -> outcome B) b :
  obind x f = Ret b -> exists a, x = Ret a /\ f a = Ret b.
Proof. destruct x as [a | e | ]; simpl; try discriminate. eauto. Qed.

Lemma lift_ret_inv {R A : Type} (x : outcome A) (r r' : R) a evs :
  lift x r = (Ret a, r', evs) -> x = Ret a /\ r' = r /\ evs = [].
Proof. unfold lift. intros E. now injection E as -> -> ->. Qed.

Section Construction.

Context {R : Type} `{DatetimeCodec}.

(** What a returning [Pipeline.__init__] has read and computed. *)
Lemma Pipeline_init_inv fuel now template dirpath decoded (r r' : R) evs self :
  Pipeline_init fuel now template dirpath decoded r = (Ret self, r', evs) ->
  exists metadata values0 timestamp period adjusted values1,
    py_copy template = Ret (definition self) /\
    py_get decoded "metadata" (PDict []) = Ret metadata /\
    py_get decoded "values" (PDict []) = Ret values0 /\
    py_get metadata "name" (PStr (basename dirpath)) = Ret (name self) /\
    py_get metadata "description" PNone = Ret (description self) /\
    py_getitem values0 "myStartDateTime" = Ret timestamp /\
    py_getitem values0 "mySchedulePeriod" = Ret period /\
    adjusted_to_future fuel now timestamp period = Ret adjusted /\
    py_setitem values0 "myStartDateTime" (PStr adjusted) = Ret values1 /\
    values self = values1 /\ unique_id self = PStr "unique_id" /\
    r' = r /\ evs = [Printed [values1]].
Proof.
  intros Init. unfold Pipeline_init in Init.
  apply mbind_ret_inv in Init as (d & r0 & e0 & e0' & L0 & Init & ->).
  apply lift_ret_inv in L0 as (D & -> & ->).
  apply mbind_ret_inv in Init as (md & r1 & e1 & e1' & L1 & Init & ->).
  apply lift_ret_inv in L1 as (Md & -> & ->).
  apply mbind_ret_inv in Init as (vs & r2 & e2 & e2' & L2 & Init & ->).
  apply lift_ret_inv in L2 as (Vs & -> & ->).
  apply mbind_ret_inv in Init as (nm & r3 & e3 & e3' & L3 & Init & ->).
  apply lift_ret_inv in L3 as (Nm & -> & ->).
  apply mbind_ret_inv in Init as (ds & r4 & e4 & e4' & L4 & Init & ->).
  apply lift_ret_inv in L4 as (Ds & -> & ->).
  apply mbind_ret_inv in Init as (ts & r5 & e5 & e5' & L5 & Init & ->).
  apply lift_ret_inv in L5 as (Ts & -> & ->).
  apply mbind_ret_inv in Init as (ps & r6 & e6 & e6' & L6 & Init & ->).
  apply lift_ret_inv in L6 as (Ps & -> & ->).
  apply mbind_ret_inv in Init as (adj & r7 & e7 & e7' & L7 & Init & ->).
  apply lift_ret_inv in L7 as (Adj & -> & ->).
  apply mbind_ret_inv in Init as (v1 & r8 & e8 & e8' & L8 & Init & ->).
  apply lift_ret_inv in L8 as (V1 & -> & ->).
  apply mbind_ret_inv in Init as ([] & r9 & e9 & e9' & L9 & Init & ->).
  unfold emit in L9. injection L9 as <- <-.
  unfold mret in Init. injection Init as <- <- <-.
  exists md, vs, ts, ps, adj, v1. simpl. repeat split; assumption.
Qed.

(** A [Pipeline] that has been built starts no earlier than the clock read
    while building it: its ['myStartDateTime'] is the format of an instant
    that is not before [now] and that lies a whole number of periods after
    the start that [values.json] gave. *)
Theorem Pipeline_init_start_not_past
  fuel now template dirpath decoded (r r' : R) evs self :
  Pipeline_init fuel now template dirpath decoded r = (Ret self, r', evs) ->
  exists given delta dt dt' (k : nat) adjusted,
    py_get decoded "values" (PDict []) = Ret given /\
    (ts <- py_getitem given "myStartDateTime" ;;
     text <- as_str ts ;; strptime text PIPELINE_DATETIME_FORMAT) = Ret dt /\
    (ps <- py_getitem given "mySchedulePeriod" ;;
     text <- as_str ps ;; parse_period text) = Ret delta /\
    dt' = dt + Z.of_nat k * delta /\ now <= dt' /\
    strftime dt' PIPELINE_DATETIME_FORMAT = Ret adjusted /\
    py_getitem (values self) "myStartDateTime" = Ret (PStr adjusted).
Proof.
  intros Init.
  destruct (Pipeline_init_inv _ _ _ _ _ _ _ _ _ Init)
    as (md & vs & ts & ps & adj & v1 & _ & _ & Vs & _ & _ & Ts & Ps & Adj & Upd
        & -> & _).
  unfold adjusted_to_future in Adj.
  apply obind_ret_inv in Adj as (text & Tx & Adj).
  apply obind_ret_inv in Adj as (dt & Dt & Adj).
  apply obind_ret_inv in Adj as (ptext & Px & Adj).
  apply obind_ret_inv in Adj as (delta & Dl & Adj).
  apply obind_ret_inv in Adj as (dt' & Loop & Fmt).
  destruct (while_past_returns _ _ _ _ _ Loop) as (Ge & k & ->).
  exists vs, delta, dt, (dt + Z.of_nat k * delta), k, adj.
  repeat split; auto.
  - rewrite Ts. simpl. rewrite Tx. simpl. exact Dt.
  - rewrite Ps. simpl. rewrite Px. simpl. exact Dl.
  - destruct vs; try discriminate. simpl in Upd. injection Upd as <-.
    simpl. now rewrite assoc_set_same.
Qed.

(** Building a [Pipeline] changes nothing but the start: every other value
    of [values.json] is kept under its key, the definition is the
    template, the service is not called, and the one thing emitted is the
    print of the values. *)
Theorem Pipeline_init_keeps_other_values
  fuel now template dirpath decoded (r r' : R) evs self :
  Pipeline_init fuel now template dirpath decoded r = (Ret self, r', evs) ->
  definition self = template /\ r' = r /\ evs = [Printed [values self]] /\
  exists given kept,
    py_get decoded "values" (PDict []) = Ret (PDict given) /\
    values self = PDict kept /\
    List.length kept = List.length given /\
    forall key, key <> "myStartDateTime" -> assoc key kept = assoc key given.
Proof.
  intros Init.
  destruct (Pipeline_init_inv _ _ _ _ _ _ _ _ _ Init)
    as (md & vs & ts & ps & adj & v1 & Copy & _ & Vs & _ & _ & Ts & _ & _ & Upd
        & -> & _ & -> & ->).
  repeat split.
  - destruct template; simpl in Copy; try discriminate. now injection Copy.
  - destruct vs as [ | | | | | given]; try discriminate.
    simpl in Upd. injection Upd as <-.
    exists given, (assoc_set "myStartDateTime" (PStr adj) given).
    repeat split; auto.
    + simpl in Ts. destruct (assoc "myStartDateTime" given) eqn:A; [| discriminate].
      now apply (assoc_set_length_present _ _ p).
    + intros key Ne. now apply assoc_set_other.
Qed.

End Construction.

Lemma Pipeline_init_start_not_past_witness :
  exists given delta dt dt' (k : nat) adjusted,
    py_get nightly_values "values" (PDict []) = Ret given /\
    (ts <- py_getitem given "myStartDateTime" ;;
     text <- as_str ts ;; strptime text PIPELINE_DATETIME_FORMAT) = Ret dt /\
    (ps <- py_getitem given "mySchedulePeriod" ;;
     text <- as_str ps ;; parse_period text) = Ret delta /\
    dt' = dt + Z.of_nat k * delta /\ instant "2026-01-10T12:00:00" <= dt' /\
    strftime dt' PIPELINE_DATETIME_FORMAT = Ret adjusted /\
    py_getitem
      (values (match fst (fst (Pipeline_init 20 (instant "2026-01-10T12:00:00")
                                 hourly_copy "pipelines/nightly" nightly_values
                                 no_pipelines)) with
               | Ret p => p
               | _ => nightly
               end)) "myStartDateTime" = Ret (PStr adjusted).
Proof.
  eapply (Pipeline_init_start_not_past 20 (instant "2026-01-10T12:00:00")
            hourly_copy "pipelines/nightly" nightly_values no_pipelines).
  vm_compute. reflexivity.
Defined.

Lemma Pipeline_init_keeps_other_values_witness :
  definition nightly = hourly_copy /\ no_pipelines = no_pipelines /\
  [Printed [values nightly]] = [Printed [values nightly]] /\
  exists given kept,
    py_get nightly_values "values" (PDict []) = Ret (PDict given) /\
    values nightly = PDict kept /\
    List.length kept = List.length given /\
    forall key, key <> "myStartDateTime" -> assoc key kept = assoc key given.
Proof.
  exact (Pipeline_init_keeps_other_values 2 (instant "2025-12-25T00:00:00")
           hourly_copy "pipelines/nightly" nightly_values no_pipelines
           no_pipelines [Printed [values nightly]] nightly eq_refl).
Defined.

Lemma basename_from_no_slash cur p :
  contains "/" p = false -> basename_from cur p = (cur ++ p)%string.
Proof.
  unfold contains. revert cur. induction p as [| c p IH]; intros cur NoSlash.
  - cbn [basename_from]. now rewrite append_nil_r.
  - cbn [find_char] in NoSlash. cbn [basename_from].
    rewrite (Ascii.eqb_sym c "/").
    destruct (Ascii.eqb "/" c); [discriminate |].
    rewrite IH.
    + now rewrite append_assoc.
    + now destruct (find_char "/" p).
Qed.

Lemma basename_from_leaf cur parent leaf :
  contains "/" leaf = false ->
  basename_from cur (parent ++ "/" ++ leaf) = leaf.
Proof.
  intros NoSlash. revert cur. induction parent as [| c parent IH]; intros cur.
  - cbn [append basename_from]. rewrite Ascii.eqb_refl.
    now rewrite basename_from_no_slash.
  - cbn [append basename_from]. destruct (Ascii.eqb c "/"); apply IH.
Qed.

Section Naming.

Context {R : Type} `{DatetimeCodec}.

(** Without a ['name'] in the metadata, a [Pipeline] is named after what
    follows the last slash of the directory as it was given: the whole of
    it when it has no slash, and the empty string when it ends with one. *)
Theorem Pipeline_init_default_name
  fuel now template dirpath d (r r' : R) evs self :
  Pipeline_init fuel now template dirpath (PDict d) r = (Ret self, r', evs) ->
  (assoc "metadata" d = None \/
   exists md, assoc "metadata" d = Some (PDict md) /\ assoc "name" md = None) ->
  (contains "/" dirpath = false -> name self = PStr dirpath) /\
  (forall parent leaf,
      dirpath = (parent ++ "/" ++ leaf)%string -> contains "/" leaf = false ->
      name self = PStr leaf) /\
  (forall parent, dirpath = (parent ++ "/")%string -> name self = PStr "").
Proof.
  intros Init NoName.
  destruct (Pipeline_init_inv _ _ _ _ _ _ _ _ _ Init)
    as (md & vs & ts & ps & adj & v1 & _ & Md & _ & Nm & _).
  assert (N : name self = PStr (basename dirpath)).
  { simpl in Md. destruct NoName as [A | (md' & A & B)]; rewrite A in Md;
      injection Md as <-; simpl in Nm; [| rewrite B in Nm]; now injection Nm. }
  rewrite N. unfold basename. repeat split.
  - intros NoSlash. now rewrite basename_from_no_slash.
  - intros parent leaf -> NoSlash. now rewrite basename_from_leaf.
  - intros parent ->. f_equal.
    exact (basename_from_leaf EmptyString parent EmptyString eq_refl).
Qed.

(** A [values.json] without ['myStartDateTime'], or with it and without
    ['mySchedulePeriod'], raises [KeyError] for the missing key before
    anything is printed. *)
Theorem Pipeline_init_missing_schedule
  fuel now template dirpath d md vs (r : R) :
  py_get (PDict d) "metadata" (PDict []) = Ret (PDict md) ->
  py_get (PDict d) "values" (PDict []) = Ret (PDict vs) ->
  (assoc "myStartDateTime" vs = None ->
   Pipeline_init fuel now (PDict template) dirpath (PDict d) r
   = (Raise (KeyError "myStartDateTime"), r, [])) /\
  (forall start, assoc "myStartDateTime" vs = Some start ->
   assoc "mySchedulePeriod" vs = None ->
   Pipeline_init fuel now (PDict template) dirpath (PDict d) r
   = (Raise (KeyError "mySchedulePeriod"), r, [])).
Proof.
  intros Md Vs. unfold Pipeline_init.
  split; [intros NoStart | intros start Start NoPeriod];
    cbn [py_copy lift mbind]; rewrite Md, Vs; cbn [py_get py_getitem];
    destruct (assoc "name" md); destruct (assoc "description" md);
    rewrite ?NoStart, ?Start, ?NoPeriod; reflexivity.
Qed.

End Naming.

Lemma Pipeline_init_default_name_witness :
  Pipeline_init 2 (instant "2025-12-25T00:00:00") hourly_copy
    "pipelines/hourly" hourly_values no_pipelines
  = (Ret hourly, no_pipelines, [Printed [values hourly]]) /\
  name hourly = PStr "hourly".
Proof.
  split; [reflexivity |].
  exact (proj1 (proj2 (Pipeline_init_default_name 2
                         (instant "2025-12-25T00:00:00") hourly_copy
                         "pipelines/hourly"
                         [("values",
                           PDict [("myStartDateTime", PStr "2026-01-01T00:00:00");
                                  ("mySchedulePeriod", PStr "1 hours")])]
                         no_pipelines no_pipelines [Printed [values hourly]]
                         hourly eq_refl (or_introl eq_refl)))
               "pipelines" "hourly" eq_refl eq_refl).
Defined.

Lemma Pipeline_init_missing_schedule_witness :
  Pipeline_init 2 0 hourly_copy "pipelines/nightly"
    (PDict [("metadata", PDict [("name", PStr "nightly")])]) no_pipelines
  = (Raise (KeyError "myStartDateTime"), no_pipelines, []).
Proof.
  exact (proj1 (@Pipeline_init_missing_schedule service seconds_codec 2 0
                  [("objects",
                    PList [PDict [("id", PStr "Default"); ("name", PStr "Default")];
                           PDict [("id", PStr "CopyActivity");
                                  ("type", PStr "CopyActivity")]])]
                  "pipelines/nightly"
                  [("metadata", PDict [("name", PStr "nightly")])]
                  [("name", PStr "nightly")] [] no_pipelines eq_refl eq_refl)
               eq_refl).
Defined.

(** ** [Pipelayer.add_pipeline] *)

Lemma py_eqb_scalar_refl v : scalar v = true -> py_eqb v v = true.
Proof.
  destruct v; simpl; try discriminate; intros _.
  - reflexivity.
  - now destruct b.
  - apply Z.eqb_refl.
  - apply String.eqb_refl.
Qed.

(** On the values that can be keys, [==] does not tell equal keys apart. *)
Lemma py_eqb_scalar_compat a b c :
  scalar b = true -> scalar c = true ->
  py_eqb b c = true -> py_eqb a b = py_eqb a c.
Proof.
  destruct b as [| x | x | x | |], c as [| y | y | y | |];
    simpl; try discriminate; intros _ _ E.
  - reflexivity.
  - destruct a; simpl; try reflexivity;
      destruct x, y; simpl in *; congruence.
  - apply Z.eqb_eq in E. subst y.
    destruct a; simpl; try reflexivity. destruct b, x; reflexivity.
  - apply Z.eqb_eq in E. subst x.
    destruct a; simpl; try reflexivity. destruct b, y; reflexivity.
  - apply Z.eqb_eq in E. now subst y.
  - apply String.eqb_eq in E. now subst y.
Qed.

Lemma pipelines_get_set_same key p items :
  scalar key = true -> pipelines_get key (pipelines_set key p items) = Some p.
Proof.
  intros Sk. induction items as [| [k q] rest IH]; simpl.
  - now rewrite py_eqb_scalar_refl.
  - destruct (py_eqb key k) eqn:E; simpl; now rewrite E.
Qed.

Lemma pipelines_get_set_other key key' p items :
  scalar key = true ->
  Forall (fun kp => scalar (fst kp) = true) items ->
  py_eqb key' key = false ->
  pipelines_get key' (pipelines_set key p items) = pipelines_get key' items.
Proof.
  intros Sk Keys Ne. induction Keys as [| [k q] rest Sk0 _ IH]; simpl.
  - now rewrite Ne.
  - simpl in Sk0. destruct (py_eqb key k) eqn:E; simpl.
    + rewrite <- (py_eqb_scalar_compat key' key k Sk Sk0 E). now rewrite Ne.
    + now rewrite IH.
Qed.

Lemma pipelines_set_length key p items :
  List.length (pipelines_set key p items)
  = match pipelines_get key items with
    | Some _ => List.length items
    | None => S (List.length items)
    end.
Proof.
  induction items as [| [k q] rest IH]; simpl; [reflexivity |].
  destruct (py_eqb key k); simpl; [reflexivity |].
  rewrite IH. now destruct (pipelines_get key rest).
Qed.

Lemma pipelines_set_keys key p items :
  scalar key = true ->
  Forall (fun kp => scalar (fst kp) = true) items ->
  Forall (fun kp => scalar (fst kp) = true) (pipelines_set key p items).
Proof.
  intros Sk Keys. induction Keys as [| [k q] rest Sk0 Keys IH]; simpl.
  - now constructor.
  - destruct (py_eqb key k); constructor; auto.
Qed.

Section Registering.

Context {R : Type} `{DatetimeCodec}.

(** [add_pipeline] registers the pipeline it has built under its name: the
    name then leads to this pipeline, every other name leads to what it led
    to before, and the collection grows by one, or by nothing when the name
    was registered already, the earlier pipeline being replaced. *)
Theorem add_pipeline_registers
  fuel now self dirpath decoded (r r' : R) evs self' p :
  add_pipeline fuel now self dirpath decoded r = (Ret (self', p), r', evs) ->
  Forall (fun kp => scalar (fst kp) = true) (pipelines self) ->
  pipelines_get (name p) (pipelines self') = Some p /\
  (forall key, scalar key = true -> py_eqb key (name p) = false ->
               pipelines_get key (pipelines self')
               = pipelines_get key (pipelines self)) /\
  List.length (pipelines self')
  = match pipelines_get (name p) (pipelines self) with
    | Some _ => List.length (pipelines self)
    | None => S (List.length (pipelines self))
    end /\
  Forall (fun kp => scalar (fst kp) = true) (pipelines self') /\
  template self' = template self.
Proof.
  intros Add Keys. unfold add_pipeline in Add.
  apply mbind_ret_inv in Add as (q & r1 & e1 & e2 & _ & Add & _).
  destruct (hashable (name q)) eqn:Hq; [| discriminate].
  unfold mret in Add. injection Add as <- <- _ _.
  assert (Sq : scalar (name q) = true) by (now destruct (name q)).
  simpl. repeat split.
  - now apply pipelines_get_set_same.
  - intros key Sk Ne. now apply pipelines_get_set_other.
  - apply pipelines_set_length.
  - now apply pipelines_set_keys.
Qed.

End Registering.

Lemma add_pipeline_registers_witness :
  add_pipeline 2 (instant "2025-12-25T00:00:00") sound_set
    "pipelines/nightly" nightly_values no_pipelines
  = (Ret (sound_set, nightly), no_pipelines, [Printed [values nightly]]) /\
  pipelines_get (PStr "nightly") (pipelines sound_set) = Some nightly /\
  pipelines_get (PStr "hourly") (pipelines sound_set) = Some hourly /\
  List.length (pipelines sound_set) = 2%nat.
Proof.
  assert (E : add_pipeline 2 (instant "2025-12-25T00:00:00") sound_set
                "pipelines/nightly" nightly_values no_pipelines
              = (Ret (sound_set, nightly), no_pipelines,
                 [Printed [values nightly]])) by reflexivity.
  split; [exact E |].
  destruct (add_pipeline_registers 2 (instant "2025-12-25T00:00:00") sound_set
              "pipelines/nightly" nightly_values no_pipelines no_pipelines
              [Printed [values nightly]] sound_set nightly E)
    as (Same & Other & Len & _).
  - repeat constructor.
  - split; [exact Same |]. split; [| exact Len].
    exact (Other (PStr "hourly") eq_refl eq_refl).
Defined.

(** ** Validation *)

Section Validation.

Context {R : Type} `{DataPipelineConnection R} `{Translator}.

Lemma log_messages_run lvl messages (r : R) :
  log_messages lvl messages r
  = (Ret tt, r, map (fun m => Logging lvl m []) messages).
Proof.
  unfold log_messages. induction messages as [| m ms IH]; [reflexivity |].
  cbn [for_each]. unfold mbind at 1. unfold emit at 1. rewrite IH. reflexivity.
Qed.

Lemma log_containers_run lvl header field inner response containers (r : R) :
  String.eqb inner "id" = false ->
  assoc field response = Some (PList (map (container_of inner) containers)) ->
  log_containers lvl header field inner (PDict response) r
  = (Ret tt, r, log_records lvl header containers).
Proof.
  intros NotId F. unfold log_containers.
  unfold mbind at 1. unfold lift at 1. cbn [py_getitem obind]. rewrite F.
  cbn [obind py_iter].
  assert (Loop : forall cs,
    for_each (map (container_of inner) cs)
      (fun container =>
         id <~ lift (py_getitem container "id") ;;
         emit (Logging lvl (PStr header) [id]) ;;;
         messages <~ lift (m <- py_getitem container inner ;; py_iter m) ;;
         log_messages lvl messages) r
    = (Ret tt, r, log_records lvl header cs)).
  { induction cs as [| [id msgs] cs IH]; [reflexivity |].
    cbn [map for_each]. unfold mbind at 1.
    assert (One :
      (id0 <~ lift (py_getitem (container_of inner (id, msgs)) "id") ;;
       emit (Logging lvl (PStr header) [id0]) ;;;
       messages <~ lift (m <- py_getitem (container_of inner (id, msgs)) inner ;;
                         py_iter m) ;;
       log_messages lvl messages) r
      = (Ret tt, r, Logging lvl (PStr header) [id]
                    :: map (fun m => Logging lvl m []) msgs)).
    { unfold container_of. cbn [fst snd py_getitem assoc].
      rewrite NotId, String.eqb_refl.
      unfold mbind, lift, emit. rewrite ?String.eqb_refl. cbn [obind py_iter].
      now rewrite log_messages_run. }
    rewrite One, IH. reflexivity. }
  rewrite Loop. reflexivity.
Qed.

(** On a validation response of the documented form, [is_valid] makes its
    two calls, logs every warning and then every error, each container's
    id before its messages, and answers by ['errored'] alone, whatever the
    lists of warnings and errors hold. *)
Theorem is_valid_logs_everything
  self (r : R) created id response warnings errors errored :
  create_pipeline PIPELAYER_STUB_name PIPELAYER_STUB_unique_id
    PIPELAYER_STUB_description r = created ->
  py_getitem (fst created) "pipelineId" = Ret id ->
  fst (validate_pipeline_definition (api_objects self) id
         (api_parameters self) (api_values self) (snd created))
  = PDict response ->
  assoc "validationWarnings" response
  = Some (PList (map (container_of "warnings") warnings)) ->
  assoc "validationErrors" response
  = Some (PList (map (container_of "errors") errors)) ->
  assoc "errored" response = Some errored ->
  is_valid self r
  = (Ret (negb (py_truthy errored)),
     snd (validate_pipeline_definition (api_objects self) id
            (api_parameters self) (api_values self) (snd created)),
     [CreatePipeline PIPELAYER_STUB_name PIPELAYER_STUB_unique_id
        PIPELAYER_STUB_description;
      ValidatePipelineDefinition (api_objects self) id
        (api_parameters self) (api_values self)]
     ++ log_records WARNING "Warnings in validation response for %s" warnings
     ++ log_records ERROR "Errors in validation response for %s" errors).
Proof.
  intros C Id V W E Err. unfold is_valid.
  unfold mbind at 1. unfold call at 1. rewrite C.
  destruct created as [cresp r1]. cbn [fst snd] in *.
  unfold mbind at 1. unfold lift at 1. rewrite Id.
  unfold mbind at 1. unfold call at 1.
  destruct (validate_pipeline_definition _ _ _ _ r1) as [vresp r2].
  cbn [fst snd] in *. subst vresp.
  unfold mbind at 1. unfold log_validation_messages.
  unfold mbind at 1.
  rewrite (log_containers_run WARNING _ _ "warnings" response warnings r2 eq_refl W).
  rewrite (log_containers_run ERROR _ _ "errors" response errors r2 eq_refl E).
  unfold mbind, lift, mret. cbn [py_getitem]. rewrite Err.
  cbn [app]. rewrite !app_nil_r. reflexivity.
Qed.

Lemma logs_count_zero (f : event -> bool) (evs : list event) :
  forallb is_log evs = true ->
  (forall e, is_log e = true -> f e = false) ->
  count f evs = 0%nat.
Proof.
  intros Logs Hf. unfold count.
  induction evs as [| e es IH]; [reflexivity |].
  simpl in Logs. apply andb_prop in Logs as [Le Les].
  simpl. rewrite (Hf e Le). now apply IH.
Qed.

Lemma log_validation_messages_logs response :
  emits is_log (log_validation_messages (R := R) response).
Proof.
  assert (L : forall lvl header field inner,
             emits is_log (log_containers (R := R) lvl header field inner response)).
  { intros. unfold log_containers.
    apply emits_mbind; [apply emits_lift |]. intros containers.
    apply emits_for_each. intros container.
    apply emits_mbind; [apply emits_lift |]. intros id.
    apply emits_mbind; [now apply emits_emit |]. intros _.
    apply emits_mbind; [apply emits_lift |]. intros messages.
    apply emits_for_each. intros message. now apply emits_emit. }
  unfold log_validation_messages. apply emits_mbind; [apply L |]. intros _. apply L.
Qed.

Lemma call_inv e (op : R -> pyval * R) (r r' : R) v evs :
  call e op r = (Ret v, r', evs) -> evs = [e].
Proof. unfold call. destruct (op r). intros E. now injection E. Qed.

(** A run of [is_valid] that answers has created once and validated once. *)
Lemma is_valid_counts self (r r' : R) verdict evs :
  is_valid self r = (Ret verdict, r', evs) ->
  count is_validate evs = 1%nat /\ count is_create evs = 1%nat.
Proof.
  intros Run. unfold is_valid in Run.
  apply mbind_ret_inv in Run as (resp & r1 & e1 & e1' & C & Run & ->).
  apply call_inv in C as ->.
  apply mbind_ret_inv in Run as (id & r2 & e2 & e2' & L & Run & ->).
  apply lift_ret_inv in L as (_ & -> & ->).
  apply mbind_ret_inv in Run as (vresp & r3 & e3 & e3' & V & Run & ->).
  apply call_inv in V as ->.
  apply mbind_ret_inv in Run as ([] & r4 & e4 & e4' & Logs & Run & ->).
  pose proof (log_validation_messages_logs vresp r3) as OnlyLogs.
  rewrite Logs in OnlyLogs. cbn [snd] in OnlyLogs.
  apply mbind_ret_inv in Run as (errored & r5 & e5 & e5' & L & Run & ->).
  apply lift_ret_inv in L as (_ & -> & ->).
  unfold mret in Run. injection Run as _ _ <-.
  rewrite !count_app.
  rewrite (logs_count_zero is_validate e4 OnlyLogs),
          (logs_count_zero is_create e4 OnlyLogs);
    try (intros []; simpl; congruence).
  split; reflexivity.
Qed.

Lemma list_comp_is_valid_counts ps :
  forall (r r1 : R) verdicts evs,
    list_comp ps is_valid r = (Ret verdicts, r1, evs) ->
    count is_validate evs = List.length ps /\ count is_create evs = List.length ps.
Proof.
  induction ps as [| p ps IH]; intros r r1 verdicts evs Comp.
  - injection Comp as _ _ <-. split; reflexivity.
  - cbn [list_comp] in Comp.
    apply mbind_ret_inv in Comp as (b & r2 & ev1 & ev2 & One & Comp & ->).
    apply mbind_ret_inv in Comp as (bs & r3 & ev3 & ev4 & Rest & Fin & ->).
    unfold mret in Fin. injection Fin as _ _ <-.
    destruct (is_valid_counts _ _ _ _ _ One) as (V1 & C1).
    destruct (IH _ _ _ _ Rest) as (V2 & C2).
    rewrite app_nil_r, !count_app, V1, C1, V2, C2. split; reflexivity.
Qed.

(** [are_pipelines_valid] validates every pipeline of the collection, also
    after one has failed: when it answers, it has made one dry run and one
    create of the stub for each pipeline, and its events are calls of
    validation and log records only. *)
Theorem are_pipelines_valid_checks_every_pipeline self (r r' : R) valid evs :
  are_pipelines_valid self r = (Ret valid, r', evs) ->
  count is_validate evs = List.length (pipelines self) /\
  count is_create evs = List.length (pipelines self) /\
  forallb validation_only evs = true.
Proof.
  intros Run.
  assert (VO : forallb validation_only evs = true).
  { pose proof (are_pipelines_valid_emits self r) as E. now rewrite Run in E. }
  unfold are_pipelines_valid in Run.
  apply mbind_ret_inv in Run as (verdicts & r1 & e1 & e2 & Comp & Fin & ->).
  unfold mret in Fin. injection Fin as _ _ <-. rewrite app_nil_r in *.
  destruct (list_comp_is_valid_counts _ _ _ _ _ Comp) as (V & C).
  unfold pipeline_values in V, C. rewrite length_map in V, C.
  auto.
Qed.

End Validation.

Lemma is_valid_logs_everything_witness :
  is_valid broken no_pipelines
  = (Ret false,
     snd (sim_create PIPELAYER_STUB_name PIPELAYER_STUB_unique_id
            PIPELAYER_STUB_description no_pipelines),
     [CreatePipeline PIPELAYER_STUB_name PIPELAYER_STUB_unique_id
        PIPELAYER_STUB_description;
      ValidatePipelineDefinition (PDict []) (PStr "df-0001") (PList []) (PList []);
      Logging ERROR (PStr "Errors in validation response for %s") [PStr "Default"];
      Logging ERROR (PStr "No objects defined") []]).
Proof.
  exact (is_valid_logs_everything broken no_pipelines
           (sim_create PIPELAYER_STUB_name PIPELAYER_STUB_unique_id
              PIPELAYER_STUB_description no_pipelines)
           (PStr "df-0001")
           [("errored", PBool true);
            ("validationWarnings", PList []);
            ("validationErrors",
             PList [PDict [("id", PStr "Default");
                           ("errors", PList [PStr "No objects defined"])]])]
           [] [(PStr "Default", [PStr "No objects defined"])] (PBool true)
           eq_refl eq_refl eq_refl eq_refl eq_refl eq_refl).
Defined.

Lemma are_pipelines_valid_checks_every_pipeline_witness :
  fst (fst (are_pipelines_valid unsound_first no_pipelines)) = Ret false /\
  count is_validate (snd (are_pipelines_valid unsound_first no_pipelines)) = 2%nat.
Proof.
  split; [reflexivity |].
  exact (proj1 (are_pipelines_valid_checks_every_pipeline unsound_first
                  no_pipelines
                  (snd (fst (are_pipelines_valid unsound_first no_pipelines)))
                  false
                  (snd (are_pipelines_valid unsound_first no_pipelines))
                  eq_refl)).
Defined.

(** ** [Pipeline.activate] and a state that cannot be read *)

Section Unreadable.

Context {R : Type} `{DataPipelineConnection R} `{Translator}.

(** [activate] reads the state before it compares the definitions: when
    the service describes no pipeline under the identifier, [activate]
    raises [IndexError] after its three reads, and when the description
    has no ['@pipelineState'] among its fields it raises [NameError], in
    both cases also for a pipeline whose definition is already registered,
    and with no put-definition, activate or delete. *)
Theorem activate_needs_a_described_state depth self (r : R) id d :
  py_getitem
    (fst (create_pipeline (name self) (unique_id self) (description self) r))
    "pipelineId" = Ret id ->
  fst (describe_pipelines [id]
         (snd (get_pipeline_definition id
                 (snd (create_pipeline (name self) (unique_id self)
                         (description self) r)))))
  = PDict d ->
  (assoc "pipelineDescriptionList" d = Some (PList []) ->
   fst (fst (Pipeline_activate (S depth) self r))
   = Raise (IndexError "list index out of range") /\
   snd (Pipeline_activate (S depth) self r)
   = [CreatePipeline (name self) (unique_id self) (description self);
      GetPipelineDefinition id; DescribePipelines [id]]) /\
  (forall desc others fields,
      assoc "pipelineDescriptionList" d = Some (PList (PDict desc :: others)) ->
      assoc "fields" desc = Some (PList fields) ->
      Forall (fun c => exists items key,
                  c = PDict items /\ assoc "key" items = Some key /\
                  py_eqb key (PStr "@pipelineState") = false) fields ->
      fst (fst (Pipeline_activate (S depth) self r))
      = Raise (NameError "response") /\
      snd (Pipeline_activate (S depth) self r)
      = [CreatePipeline (name self) (unique_id self) (description self);
         GetPipelineDefinition id; DescribePipelines [id]]).
Proof.
  intros Id D.
  assert (Fails : forall e,
    state_of_response (PDict d) = Raise e ->
    fst (fst (Pipeline_activate (S depth) self r)) = Raise e /\
    snd (Pipeline_activate (S depth) self r)
    = [CreatePipeline (name self) (unique_id self) (description self);
       GetPipelineDefinition id; DescribePipelines [id]]).
  { intros e St. rewrite Pipeline_activate_unfold. unfold mbind.
    rewrite remote_view_run. cbv zeta. rewrite Id, D, St. split; reflexivity. }
  split.
  - intros Empty. apply Fails.
    unfold state_of_response. cbn [py_getitem]. now rewrite Empty.
  - intros desc others fields List Fields Absent. apply Fails.
    unfold state_of_response. cbn [py_getitem]. rewrite List.
    cbn [obind py_first]. unfold fetch_field_value. cbn [py_getitem].
    rewrite Fields. cbn [obind py_iter].
    now rewrite (scan_fields_absent _ _ Absent).
Qed.

End Unreadable.

Lemma activate_needs_a_described_state_witness :
  fst (fst (@Pipeline_activate unit undescribing sim_translator 1 nightly tt))
  = Raise (IndexError "list index out of range") /\
  py_eqb hourly_copy (definition nightly) = true.
Proof.
  split; [| reflexivity].
  exact (proj1 (proj1 (@activate_needs_a_described_state unit undescribing
                         sim_translator 0 nightly tt (PStr "df-0001")
                         [("pipelineDescriptionList", PList [])]
                         eq_refl eq_refl) eq_refl)).
Defined.

(** ** [bucket_and_path] *)

Lemma find_char_app_absent c a b :
  find_char c a = None ->
  find_char c (a ++ b)
  = match find_char c b with
    | Some i => Some (String.length a + i)%nat
    | None => None
    end.
Proof.
  induction a as [| d a IH]; cbn [append find_char String.length].
  - intros _. now destruct (find_char c b).
  - destruct (Ascii.eqb c d); [discriminate |].
    destruct (find_char c a); [discriminate |]. intros _.
    rewrite (IH eq_refl). now destruct (find_char c b).
Qed.

Lemma take_length_app a b : take (String.length a) (a ++ b) = a.
Proof.
  induction a as [| d a IH]; cbn [append take String.length].
  - now destruct b.
  - now rewrite IH.
Qed.

Lemma drop_length_app a b : drop (String.length a) (a ++ b) = b.
Proof. induction a as [| d a IH]; cbn [append drop String.length]; auto. Qed.

Lemma contains_false c s : contains c s = false -> find_char c s = None.
Proof. unfold contains. now destruct (find_char c s). Qed.

(** What [_splitnetloc] finds after the two slashes: the text up to the
    next slash, when it holds no other delimiter. *)
Lemma splitnetloc_bucket bucket path :
  contains "/" bucket = false -> contains "?" bucket = false ->
  contains "#" bucket = false ->
  contains "?" path = false -> contains "#" path = false ->
  (path = EmptyString \/ starts_with_slash path = true) ->
  splitnetloc ("//" ++ bucket ++ path) 2 = (bucket, path).
Proof.
  intros Bs Bq Bh Pq Ph Shape.
  apply contains_false in Bs, Bq, Bh, Pq, Ph.
  unfold splitnetloc, find_char_from.
  change (drop 2 ("//" ++ bucket ++ path)) with (bucket ++ path)%string.
  cbn [fold_left].
  rewrite (find_char_app_absent "/" bucket path Bs),
          (find_char_app_absent "?" bucket path Bq),
          (find_char_app_absent "#" bucket path Bh), Pq, Ph.
  change (String.length ("//" ++ bucket ++ path))
    with (2 + String.length (bucket ++ path))%nat.
  rewrite length_append.
  destruct Shape as [-> | Slash].
  - cbn [find_char String.length].
    replace (2 + (String.length bucket + 0) - 2)%nat with (String.length bucket)
      by lia.
    rewrite take_length_app.
    replace (2 + (String.length bucket + 0))%nat with (2 + String.length bucket)%nat
      by lia.
    change (drop (2 + String.length bucket) ("//" ++ bucket ++ ""))
      with (drop (String.length bucket) (bucket ++ "")).
    now rewrite drop_length_app.
  - destruct path as [| c path]; [discriminate |].
    cbn [starts_with_slash] in Slash. apply Ascii.eqb_eq in Slash. subst c.
    cbn [find_char]. rewrite Ascii.eqb_refl.
    replace (Nat.min (2 + (String.length bucket + String.length (String "/" path)))
                     (2 + (String.length bucket + 0)))
      with (2 + String.length bucket)%nat by (cbn [String.length]; lia).
    replace (2 + String.length bucket - 2)%nat with (String.length bucket) by lia.
    rewrite take_length_app.
    change (drop (2 + String.length bucket) ("//" ++ bucket ++ String "/" path))
      with (drop (String.length bucket) (bucket ++ String "/" path)).
    now rewrite drop_length_app.
Qed.

(** For an S3 address made of a bucket name and, after it, nothing or a
    path that starts with a slash, [bucket_and_path] gives the bucket name
    and the path without its slash; the bucket name has none of the
    characters that end or bracket a network location, and the path no
    query or fragment mark. *)
Theorem bucket_and_path_of_s3_uri bucket path :
  contains "/" bucket = false -> contains "?" bucket = false ->
  contains "#" bucket = false -> contains "[" bucket = false ->
  contains "]" bucket = false ->
  contains "?" path = false -> contains "#" path = false ->
  (path = EmptyString \/ starts_with_slash path = true) ->
  bucket_and_path (PStr ("s3://" ++ bucket ++ path)) = Ret (bucket, drop 1 path).
Proof.
  intros Bs Bq Bh Bl Br Pq Ph Shape.
  unfold bucket_and_path, urlparse, urlsplit.
  assert (Scheme : split_scheme ("s3://" ++ bucket ++ path)
                   = ("s3", "//" ++ bucket ++ path)%string) by reflexivity.
  rewrite Scheme.
  change (take 2 ("//" ++ bucket ++ path)) with "//".
  cbn [String.eqb Ascii.eqb Bool.eqb].
  rewrite (splitnetloc_bucket bucket path Bs Bq Bh Pq Ph Shape).
  rewrite Bl, Br. cbn [andb orb negb].
  unfold split_once. rewrite (contains_false _ _ Ph), (contains_false _ _ Pq).
  cbn [obind url_scheme url_path url_netloc].
  reflexivity.
Qed.

Lemma bucket_and_path_of_s3_uri_witness :
  bucket_and_path (PStr "s3://pipelayer-example-bucket/pipelayer-test/inputs")
  = Ret ("pipelayer-example-bucket", "pipelayer-test/inputs").
Proof.
  exact (bucket_and_path_of_s3_uri "pipelayer-example-bucket"
           "/pipelayer-test/inputs"
           eq_refl eq_refl eq_refl eq_refl eq_refl eq_refl eq_refl
           (or_intror eq_refl)).
Defined.

(** An address with no scheme and no double slash at its start is taken for
    a path: the bucket name is empty and the first character of the text is
    dropped, whatever it is. *)
Theorem bucket_and_path_without_scheme text :
  contains ":" text = false -> String.eqb (take 2 text) "//" = false ->
  contains "#" text = false -> contains "?" text = false ->
  contains ";" text = false ->
  bucket_and_path (PStr text) = Ret (EmptyString, drop 1 text).
Proof.
  intros Colon Slashes Hash Query Semi.
  unfold bucket_and_path, urlparse, urlsplit, split_scheme.
  rewrite (contains_false _ _ Colon), Slashes.
  cbn [contains find_char andb orb negb].
  unfold split_once. rewrite (contains_false _ _ Hash), (contains_false _ _ Query).
  cbn [obind url_scheme url_path url_netloc]. rewrite Semi.
  now rewrite andb_false_r.
Qed.

Lemma bucket_and_path_without_scheme_witness :
  bucket_and_path (PStr "example-bucket/inputs") = Ret ("", "xample-bucket/inputs").
Proof.
  exact (bucket_and_path_without_scheme "example-bucket/inputs"
           eq_refl eq_refl eq_refl eq_refl eq_refl).
Defined.

(** ** [cd] and [Pipeline.upload] *)

Section Process.

Context {S : Type}.

Lemma ubind_assoc {A B C : Type} (m : U S A) (f : A -> U S B) (g : B -> U S C) h :
  ubind (ubind m f) g h = ubind m (fun a => ubind (f a) g) h.
Proof.
  unfold ubind.
  destruct (m h) as [[[a | x | ] h1] e1]; try reflexivity.
  destruct (f a h1) as [[[b | x | ] h2] e2]; try reflexivity.
  destruct (g b h2) as [[o h3] e3]. now rewrite app_assoc.
Qed.

Lemma ubind_ext {A B : Type} (m : U S A) (f g : A -> U S B) h :
  (forall a h', f a h' = g a h') -> ubind m f h = ubind m g h.
Proof.
  intros E. unfold ubind.
  destruct (m h) as [[[a | x | ] h1] e1]; try reflexivity. now rewrite E.
Qed.

Lemma ubind_ext2 {A B : Type} (m m' : U S A) (f g : A -> U S B) h :
  (forall h', m h' = m' h') -> (forall a h', f a h' = g a h') ->
  ubind m f h = ubind m' g h.
Proof.
  intros Em E. unfold ubind. rewrite Em.
  destruct (m' h) as [[[a | x | ] h1] e1]; try reflexivity. now rewrite E.
Qed.

Lemma ubind_uret {A B : Type} (a : A) (f : A -> U S B) h :
  ubind (uret a) f h = f a h.
Proof. unfold ubind, uret. now destruct (f a h) as [[o h1] e1]. Qed.

Lemma ufor_app {A : Type} (xs ys : list A) (body : A -> U S unit) h :
  ufor (xs ++ ys) body h = ubind (ufor xs body) (fun _ => ufor ys body) h.
Proof.
  revert h. induction xs as [| x xs IH]; intros h; cbn [app ufor].
  - now rewrite ubind_uret.
  - rewrite ubind_assoc. apply ubind_ext. intros _ h'. apply IH.
Qed.

Lemma ufor_map {A B : Type} (f : A -> B) (xs : list A) (body : B -> U S unit) h :
  ufor (map f xs) body h = ufor xs (fun x => body (f x)) h.
Proof.
  revert h. induction xs as [| x xs IH]; intros h; cbn [map ufor]; [reflexivity |].
  apply ubind_ext. intros _ h'. apply IH.
Qed.

Context `{FileSystem}.

Lemma cd_ext {A : Type} new_path (body body' : U S A) h :
  (forall h', body h' = body' h') -> cd new_path body h = cd new_path body' h.
Proof.
  intros E. unfold cd. apply ubind_ext. intros saved h1.
  apply ubind_ext. intros _ h2. apply ubind_ext2; [exact E | reflexivity].
Qed.

Lemma cd_returned {A : Type} new_path (body : U S A) (h : host S) d a h2 evs :
  chdir_from (cwd h) new_path = Some d ->
  body {| cwd := d; s3 := s3 h |} = (Returned a, h2, evs) ->
  chdir_from (cwd h2) (cwd h) = Some (cwd h) ->
  cd new_path body h
  = (Returned a, {| cwd := cwd h; s3 := s3 h2 |},
     Chdir new_path :: evs ++ [Chdir (cwd h)]).
Proof.
  intros There Body Back. unfold cd, ubind, getcwd, chdir, uret.
  rewrite There, Body, Back. cbn [app]. rewrite ?app_nil_r. reflexivity.
Qed.

Lemma cd_raised {A : Type} new_path (body : U S A) (h : host S) d x h2 evs :
  chdir_from (cwd h) new_path = Some d ->
  body {| cwd := d; s3 := s3 h |} = (Raised x, h2, evs) ->
  cd new_path body h = (Raised x, h2, Chdir new_path :: evs).
Proof.
  intros There Body. unfold cd, ubind, getcwd, chdir.
  now rewrite There, Body.
Qed.

Lemma cd_refused {A : Type} new_path (body : U S A) (h : host S) :
  chdir_from (cwd h) new_path = None ->
  cd new_path body h = (Raised (OSError new_path), h, [Chdir new_path]).
Proof.
  intros Nowhere. unfold cd, ubind, getcwd, chdir. now rewrite Nowhere.
Qed.

(** [cd] runs its body in the new directory.  When the body returns and the
    directory from before can be entered again, the working directory is
    the one from before; when the body raises, the directory is left where
    the body left it, the way back being skipped; when the way back is
    refused, the body has run and [cd] raises [OSError]. *)
Theorem cd_restores_only_on_return {A : Type} new_path (body : U S A)
  (h : host S) d :
  chdir_from (cwd h) new_path = Some d ->
  (forall a h2 evs,
      body {| cwd := d; s3 := s3 h |} = (Returned a, h2, evs) ->
      chdir_from (cwd h2) (cwd h) = Some (cwd h) ->
      cd new_path body h
      = (Returned a, {| cwd := cwd h; s3 := s3 h2 |},
         Chdir new_path :: evs ++ [Chdir (cwd h)])) /\
  (forall x h2 evs,
      body {| cwd := d; s3 := s3 h |} = (Raised x, h2, evs) ->
      cd new_path body h = (Raised x, h2, Chdir new_path :: evs)) /\
  (forall a h2 evs,
      body {| cwd := d; s3 := s3 h |} = (Returned a, h2, evs) ->
      chdir_from (cwd h2) (cwd h) = None ->
      cd new_path body h
      = (Raised (OSError (cwd h)), h2,
         Chdir new_path :: evs ++ [Chdir (cwd h)])).
Proof.
  intros There. split; [| split].
  - intros a h2 evs. now apply cd_returned.
  - intros x h2 evs. now apply cd_raised.
  - intros a h2 evs Body Back. unfold cd, ubind, getcwd, chdir, uret.
    now rewrite There, Body, Back.
Qed.

End Process.

Lemma cd_restores_only_on_return_witness :
  cd "pipelines/nightly" (s3_put "example-bucket" "inputs/run" "run")
     (etl_home plain_store)
  = (Returned tt,
     etl_home {| objects := [("example-bucket", "inputs/run",
                              "/home/etl/pipelines/nightly/run")];
                 unreadable := [] |},
     [Chdir "pipelines/nightly";
      SetContentsFromFilename "example-bucket" "inputs/run"
        "/home/etl/pipelines/nightly" "run";
      Chdir "/home/etl"]) /\
  cd "pipelines/nightly" (s3_put "example-bucket" "inputs/run" "run")
     (etl_home {| objects := []; unreadable := ["run"] |})
  = (Raised (IOError "run"),
     {| cwd := "/home/etl/pipelines/nightly";
        s3 := {| objects := []; unreadable := ["run"] |} |},
     [Chdir "pipelines/nightly";
      SetContentsFromFilename "example-bucket" "inputs/run"
        "/home/etl/pipelines/nightly" "run"]).
Proof.
  split.
  - exact (proj1 (cd_restores_only_on_return "pipelines/nightly"
                    (s3_put "example-bucket" "inputs/run" "run")
                    (etl_home plain_store) "/home/etl/pipelines/nightly"
                    eq_refl)
                 tt _ _ eq_refl eq_refl).
  - exact (proj1 (proj2 (cd_restores_only_on_return "pipelines/nightly"
                    (s3_put "example-bucket" "inputs/run" "run")
                    (etl_home {| objects := []; unreadable := ["run"] |})
                    "/home/etl/pipelines/nightly" eq_refl))
                 _ _ _ eq_refl).
Defined.

Section Uploading.

Context {S : Type} `{S3Connection S} `{FileSystem}.

(** The two loops of [upload] are one loop over the files of the walk. *)
Lemma upload_loops_flatten bucket input_dir walk (h : host S) :
  ufor walk (fun '(root, dirs, files) =>
     ufor files (fun f =>
       s3_put bucket (path_join_all input_dir [root; f]) (path_join root f))) h
  = put_all bucket (uploads input_dir walk) h.
Proof.
  unfold put_all, uploads. revert h.
  induction walk as [| [[root dirs] files] walk IH]; intros h; [reflexivity |].
  cbn [ufor flat_map]. rewrite ufor_app.
  apply ubind_ext2.
  - intros h'. now rewrite ufor_map.
  - intros _ h'. apply IH.
Qed.

Lemma put_all_sent bucket items (h : host S) s2 :
  sent bucket (cwd h) items (s3 h) s2 ->
  put_all bucket items h
  = (Returned tt, {| cwd := cwd h; s3 := s2 |}, put_events bucket (cwd h) items).
Proof.
  destruct h as [dir s]. cbn [cwd s3]. unfold put_all.
  induction 1 as [s | key filename rest s s1 s2 Put _ IH]; [reflexivity |].
  cbn [ufor put_events map]. unfold ubind at 1. unfold s3_put at 1.
  cbn [cwd s3]. rewrite Put. rewrite IH. reflexivity.
Qed.

Lemma put_all_fails bucket done key filename later (h : host S) s1 x s2 :
  sent bucket (cwd h) done (s3 h) s1 ->
  set_contents_from_filename bucket key (cwd h) filename s1 = (Some x, s2) ->
  put_all bucket (done ++ (key, filename) :: later) h
  = (Raised x, {| cwd := cwd h; s3 := s2 |},
     put_events bucket (cwd h) (done ++ [(key, filename)])).
Proof.
  destruct h as [dir s]. cbn [cwd s3]. unfold put_all. intros Done Fail.
  induction Done as [s | k f rest s s0 s1 Put _ IH].
  - cbn [app ufor put_events map]. unfold ubind, s3_put. cbn [cwd s3].
    now rewrite Fail.
  - cbn [app ufor put_events map]. unfold ubind at 1. unfold s3_put at 1.
    cbn [cwd s3]. rewrite Put. rewrite (IH Fail). reflexivity.
Qed.

(** [upload] up to the point where the bucket is at hand. *)
Lemma Pipeline_upload_with_bucket
  self dirpath walk (h : host S) uri bucket_name input_dir bucket s1 :
  py_getitem (values self) "myS3InputDir" = Ret uri ->
  bucket_and_path uri = Ret (bucket_name, input_dir) ->
  get_bucket bucket_name (s3 h) = (inr bucket, s1) ->
  Pipeline_upload self dirpath walk h
  = match cd dirpath (put_all bucket (uploads input_dir walk))
             {| cwd := cwd h; s3 := s1 |} with
    | (o, h', evs) => (o, h', GetBucket bucket_name :: evs)
    end.
Proof.
  intros Uri Parsed Bucket. unfold Pipeline_upload.
  unfold ubind at 1. unfold ulift. rewrite Uri. cbn [obind]. rewrite Parsed.
  unfold ubind at 1. unfold s3_get_bucket. rewrite Bucket.
  rewrite (cd_ext dirpath _ (put_all bucket (uploads input_dir walk)))
    by (intros h'; apply upload_loops_flatten).
  now destruct (cd dirpath (put_all bucket (uploads input_dir walk))
                   {| cwd := cwd h; s3 := s1 |}) as [[o h'] evs].
Qed.

(** When S3 takes every file, [upload] asks for the bucket once, enters the
    pipeline's directory, puts one object for each file of the walk, in the
    order of the walk, under the key joined from the input directory, the
    root and the file name, and returns to the directory it started in. *)
Theorem Pipeline_upload_sends_every_file
  self dirpath walk (h : host S) uri bucket_name input_dir bucket s1 s2 d :
  py_getitem (values self) "myS3InputDir" = Ret uri ->
  bucket_and_path uri = Ret (bucket_name, input_dir) ->
  get_bucket bucket_name (s3 h) = (inr bucket, s1) ->
  chdir_from (cwd h) dirpath = Some d ->
  chdir_from d (cwd h) = Some (cwd h) ->
  sent bucket d (uploads input_dir walk) s1 s2 ->
  Pipeline_upload self dirpath walk h
  = (Returned tt, {| cwd := cwd h; s3 := s2 |},
     [GetBucket bucket_name; Chdir dirpath]
     ++ put_events bucket d (uploads input_dir walk)
     ++ [Chdir (cwd h)]).
Proof.
  intros Uri Parsed Bucket There Back Sent.
  rewrite (Pipeline_upload_with_bucket self dirpath walk h uri bucket_name
             input_dir bucket s1 Uri Parsed Bucket).
  rewrite (cd_returned dirpath (put_all bucket (uploads input_dir walk))
             {| cwd := cwd h; s3 := s1 |} d tt {| cwd := d; s3 := s2 |}
             (put_events bucket d (uploads input_dir walk))).
  - reflexivity.
  - exact There.
  - exact (put_all_sent bucket (uploads input_dir walk)
             {| cwd := d; s3 := s1 |} s2 Sent).
  - exact Back.
Qed.

(** When S3 refuses a file, [upload] raises what S3 raised: the files
    before it have been put, the files after it are not, and the working
    directory stays the pipeline's directory. *)
Theorem Pipeline_upload_stops_at_first_failure
  self dirpath walk (h : host S) uri bucket_name input_dir bucket
  done key filename later s1 s2 x s3' d :
  py_getitem (values self) "myS3InputDir" = Ret uri ->
  bucket_and_path uri = Ret (bucket_name, input_dir) ->
  get_bucket bucket_name (s3 h) = (inr bucket, s1) ->
  chdir_from (cwd h) dirpath = Some d ->
  uploads input_dir walk = done ++ (key, filename) :: later ->
  sent bucket d done s1 s2 ->
  set_contents_from_filename bucket key d filename s2 = (Some x, s3') ->
  Pipeline_upload self dirpath walk h
  = (Raised x, {| cwd := d; s3 := s3' |},
     [GetBucket bucket_name; Chdir dirpath]
     ++ put_events bucket d (done ++ [(key, filename)])).
Proof.
  intros Uri Parsed Bucket There Split Done Fail.
  rewrite (Pipeline_upload_with_bucket self dirpath walk h uri bucket_name
             input_dir bucket s1 Uri Parsed Bucket).
  rewrite (cd_raised dirpath (put_all bucket (uploads input_dir walk))
             {| cwd := cwd h; s3 := s1 |} d x {| cwd := d; s3 := s3' |}
             (put_events bucket d (done ++ [(key, filename)]))).
  - reflexivity.
  - exact There.
  - rewrite Split.
    exact (put_all_fails bucket done key filename later
             {| cwd := d; s3 := s1 |} s2 x s3' Done Fail).
Qed.

(** [upload] puts nothing when it fails before the loop: with [KeyError]
    and no call at all when the values have no ['myS3InputDir']; with what
    S3 raised, the working directory untouched, when S3 refuses the bucket;
    with [OSError], after the bucket was asked for, when the pipeline's
    directory cannot be entered. *)
Theorem Pipeline_upload_fails_before_entering self dirpath walk (h : host S) :
  (forall vs, values self = PDict vs -> assoc "myS3InputDir" vs = None ->
              Pipeline_upload self dirpath walk h
              = (Raised (PythonError (KeyError "myS3InputDir")), h, [])) /\
  (forall uri bucket_name input_dir x s1,
      py_getitem (values self) "myS3InputDir" = Ret uri ->
      bucket_and_path uri = Ret (bucket_name, input_dir) ->
      get_bucket bucket_name (s3 h) = (inl x, s1) ->
      Pipeline_upload self dirpath walk h
      = (Raised x, {| cwd := cwd h; s3 := s1 |}, [GetBucket bucket_name])) /\
  (forall uri bucket_name input_dir bucket s1,
      py_getitem (values self) "myS3InputDir" = Ret uri ->
      bucket_and_path uri = Ret (bucket_name, input_dir) ->
      get_bucket bucket_name (s3 h) = (inr bucket, s1) ->
      chdir_from (cwd h) dirpath = None ->
      Pipeline_upload self dirpath walk h
      = (Raised (OSError dirpath), {| cwd := cwd h; s3 := s1 |},
         [GetBucket bucket_name; Chdir dirpath])).
Proof.
  split; [| split].
  - intros vs V NoKey. unfold Pipeline_upload, ubind, ulift.
    rewrite V. cbn [py_getitem]. now rewrite NoKey.
  - intros uri bucket_name input_dir x s1 Uri Parsed Refused.
    unfold Pipeline_upload. unfold ubind at 1. unfold ulift.
    rewrite Uri. cbn [obind]. rewrite Parsed.
    unfold ubind, s3_get_bucket. now rewrite Refused.
  - intros uri bucket_name input_dir bucket s1 Uri Parsed Bucket Nowhere.
    rewrite (Pipeline_upload_with_bucket self dirpath walk h uri bucket_name
               input_dir bucket s1 Uri Parsed Bucket).
    now rewrite cd_refused.
Qed.

End Uploading.

Lemma ends_with_slash_app a b :
  b <> EmptyString -> ends_with_slash (a ++ b) = ends_with_slash b.
Proof.
  intros Nb. induction a as [| c a IH]; [reflexivity |].
  cbn [append ends_with_slash]. rewrite IH.
  destruct (a ++ b)%string eqn:E; [| reflexivity].
  destruct a; [cbn in E; congruence | discriminate].
Qed.

Lemma path_join_relative a b :
  a <> EmptyString -> ends_with_slash a = false -> starts_with_slash b = false ->
  path_join a b = (a ++ "/" ++ b)%string.
Proof.
  intros Na Ea Sb. unfold path_join. rewrite Sb, Ea.
  destruct (String.eqb_spec a ""); [contradiction | reflexivity].
Qed.

(** For a walk of relative roots and names, under an input directory that
    is not empty and has no final slash, the key of each file is the input
    directory, the root and the name, joined by slashes, and the file put
    is the root and the name: with the root [.], the key holds [/./]. *)
Theorem upload_keys_under_input_dir input_dir walk :
  input_dir <> EmptyString -> ends_with_slash input_dir = false ->
  Forall walk_entry_ok walk ->
  uploads input_dir walk
  = flat_map (fun '(root, dirs, files) =>
                map (fun f => ((input_dir ++ "/" ++ root ++ "/" ++ f)%string,
                               (root ++ "/" ++ f)%string)) files) walk.
Proof.
  intros Ni Ei Ok. unfold uploads.
  induction Ok as [| [[root dirs] files] walk (Nr & Sr & Er & Fs) _ IH];
    [reflexivity |].
  cbn [flat_map]. rewrite IH. f_equal.
  apply map_ext_in. intros f In.
  rewrite Forall_forall in Fs. specialize (Fs f In).
  unfold path_join_all. cbn [fold_left].
  rewrite (path_join_relative input_dir root Ni Ei Sr).
  rewrite (path_join_relative root f Nr Er Fs).
  rewrite path_join_relative.
  - now rewrite !append_assoc.
  - destruct input_dir; [congruence | discriminate].
  - change (input_dir ++ "/" ++ root)%string
      with (input_dir ++ (String "/" root))%string.
    rewrite ends_with_slash_app by discriminate.
    destruct root; [congruence | exact Er].
  - exact Fs.
Qed.

Lemma upload_keys_under_input_dir_witness :
  uploads "pipelayer-test/inputs" example_walk
  = [("pipelayer-test/inputs/./run", "./run");
     ("pipelayer-test/inputs/./values.json", "./values.json");
     ("pipelayer-test/inputs/./tasks/task.sh", "./tasks/task.sh")].
Proof.
  refine (upload_keys_under_input_dir "pipelayer-test/inputs" example_walk
            _ eq_refl _).
  - discriminate.
  - repeat constructor; discriminate.
Defined.

Lemma Pipeline_upload_sends_every_file_witness :
  Pipeline_upload uploading "pipelines/nightly" example_walk
    (etl_home plain_store)
  = (Returned tt,
     etl_home
       {| objects :=
            [("example-bucket", "pipelayer-test/inputs/./tasks/task.sh",
              "/home/etl/pipelines/nightly/./tasks/task.sh");
             ("example-bucket", "pipelayer-test/inputs/./values.json",
              "/home/etl/pipelines/nightly/./values.json");
             ("example-bucket", "pipelayer-test/inputs/./run",
              "/home/etl/pipelines/nightly/./run")];
          unreadable := [] |},
     [GetBucket "example-bucket"; Chdir "pipelines/nightly";
      SetContentsFromFilename "example-bucket" "pipelayer-test/inputs/./run"
        "/home/etl/pipelines/nightly" "./run";
      SetContentsFromFilename "example-bucket"
        "pipelayer-test/inputs/./values.json"
        "/home/etl/pipelines/nightly" "./values.json";
      SetContentsFromFilename "example-bucket"
        "pipelayer-test/inputs/./tasks/task.sh"
        "/home/etl/pipelines/nightly" "./tasks/task.sh";
      Chdir "/home/etl"]).
Proof.
  refine (Pipeline_upload_sends_every_file uploading "pipelines/nightly"
            example_walk (etl_home plain_store)
            (PStr "s3://example-bucket/pipelayer-test/inputs")
            "example-bucket" "pipelayer-test/inputs" "example-bucket"
            plain_store _ "/home/etl/pipelines/nightly"
            eq_refl eq_refl eq_refl eq_refl eq_refl _).
  repeat (eapply sent_cons; [reflexivity |]). apply sent_nil.
Defined.

Lemma Pipeline_upload_stops_at_first_failure_witness :
  Pipeline_upload uploading "pipelines/nightly" example_walk
    (etl_home store_without_values)
  = (Raised (IOError "./values.json"),
     {| cwd := "/home/etl/pipelines/nightly";
        s3 := {| objects :=
                   [("example-bucket", "pipelayer-test/inputs/./run",
                     "/home/etl/pipelines/nightly/./run")];
                 unreadable := ["./values.json"] |} |},
     [GetBucket "example-bucket"; Chdir "pipelines/nightly";
      SetContentsFromFilename "example-bucket" "pipelayer-test/inputs/./run"
        "/home/etl/pipelines/nightly" "./run";
      SetContentsFromFilename "example-bucket"
        "pipelayer-test/inputs/./values.json"
        "/home/etl/pipelines/nightly" "./values.json"]).
Proof.
  refine (Pipeline_upload_stops_at_first_failure uploading "pipelines/nightly"
            example_walk (etl_home store_without_values)
            (PStr "s3://example-bucket/pipelayer-test/inputs")
            "example-bucket" "pipelayer-test/inputs" "example-bucket"
            [("pipelayer-test/inputs/./run", "./run")]
            "pipelayer-test/inputs/./values.json" "./values.json"
            [("pipelayer-test/inputs/./tasks/task.sh", "./tasks/task.sh")]
            store_without_values
            {| objects := [("example-bucket", "pipelayer-test/inputs/./run",
                            "/home/etl/pipelines/nightly/./run")];
               unreadable := ["./values.json"] |}
            (IOError "./values.json") _ "/home/etl/pipelines/nightly"
            eq_refl eq_refl eq_refl eq_refl eq_refl _ eq_refl).
  eapply sent_cons; [reflexivity |]. apply sent_nil.
Defined.

Lemma Pipeline_upload_fails_before_entering_witness :
  Pipeline_upload nightly "pipelines/nightly" example_walk
    (etl_home plain_store)
  = (Raised (PythonError (KeyError "myS3InputDir")), etl_home plain_store, [])
  /\
  Pipeline_upload uploading_nowhere "pipelines/nightly" example_walk
    (etl_home plain_store)
  = (Raised (S3ResponseError 404 "Not Found"), etl_home plain_store,
     [GetBucket ""])
  /\
  Pipeline_upload uploading "pipelines/weekly" example_walk
    (etl_home plain_store)
  = (Raised (OSError "pipelines/weekly"), etl_home plain_store,
     [GetBucket "example-bucket"; Chdir "pipelines/weekly"]).
Proof.
  split; [| split].
  - exact (proj1 (Pipeline_upload_fails_before_entering nightly
                    "pipelines/nightly" example_walk (etl_home plain_store))
                 _ eq_refl eq_refl).
  - exact (proj1 (proj2 (Pipeline_upload_fails_before_entering
                    uploading_nowhere "pipelines/nightly" example_walk
                    (etl_home plain_store)))
                 (PStr "pipelayer-test/inputs") "" "ipelayer-test/inputs"
                 (S3ResponseError 404 "Not Found") plain_store
                 eq_refl eq_refl eq_refl).
  - exact (proj2 (proj2 (Pipeline_upload_fails_before_entering
                    uploading "pipelines/weekly" example_walk
                    (etl_home plain_store)))
                 (PStr "s3://example-bucket/pipelayer-test/inputs")
                 "example-bucket" "pipelayer-test/inputs" "example-bucket"
                 plain_store eq_refl eq_refl eq_refl eq_refl).
Defined.
